(** * Excel summary generator: classification, grouping, compilation,
      template population and the report driver

    A shallow embedding of [excel_summary_generator.py], followed by one
    of the retriever [jira_csv_retriever.py] and of [validate_config] of
    [config.py].

    Conventions of the model.
    - A Python [str] is a [string]; its characters are the code points
      below 256, on which [\d] is the class [0-9], [str.lower] moves
      [A-Z] and the Latin-1 capitals, and [str.strip] removes the
      characters for which [str.isspace] holds.
    - Exceptions are values of [exn]; a function whose body contains an
      operation that can raise returns a [result].  [try ... except
      Exception] is [try_except].
    - A dictionary iterated in insertion order is an association list
      whose keys are kept distinct by the update functions; the cells of
      a worksheet are a [gmap] from (row, column) to the stored value.
    - A table carries the dtype of each of its columns: [int64],
      [float64], [bool] or [object], the dtypes [pd.read_csv] infers
      with its default arguments (an integer column is taken to fit
      [int64]).  Where pandas moves a value to another dtype
      ([pd.concat], [DataFrame.iterrows]) the model moves it too; a
      float is a binary64 number and prints the way [repr] prints it.
    - What the program reads from outside (the data directory, the two
      ways each CSV file is read by pandas, the template workbook, what
      openpyxl does when a value is bound to a cell, whether the output
      directory can be made, whether a save succeeds) is collected in
      the record [World].  Logging and [print] are taken to succeed and
      are left out. *)

From Stdlib Require Import String Ascii ZArith DecimalString.
From stdpp Require Import base option list strings gmap.

Local Open Scope nat_scope.

(* ================================================================= *)
(** ** Characters and strings, as Python treats them *)

Module PyStr.

Definition code (c : ascii) : nat := nat_of_ascii c.

(** [\d] of the [re] module, on code points below 256. *)
Definition is_digit (c : ascii) : bool :=
  (48 <=? code c) && (code c <=? 57).

(** [str.isspace], on code points below 256. *)
Definition is_space (c : ascii) : bool :=
  let n := code c in
  ((9 <=? n) && (n <=? 13)) || ((28 <=? n) && (n <=? 32))
  || (n =? 133) || (n =? 160).

(** One character of [str.lower]. *)
Definition lower_char (c : ascii) : ascii :=
  let n := code c in
  if ((65 <=? n) && (n <=? 90))
     || ((192 <=? n) && (n <=? 222) && negb (n =? 215))
  then ascii_of_nat (n + 32) else c.

Fixpoint lower (s : string) : string :=
  match s with
  | EmptyString => EmptyString
  | String c s' => String (lower_char c) (lower s')
  end.

(** [needle in hay] for two strings. *)
Fixpoint contains (needle hay : string) : bool :=
  String.prefix needle hay ||
  match hay with
  | EmptyString => false
  | String _ hay' => contains needle hay'
  end.

Fixpoint lstrip (s : string) : string :=
  match s with
  | EmptyString => EmptyString
  | String c s' => if is_space c then lstrip s' else s
  end.

Fixpoint rstrip (s : string) : string :=
  match s with
  | EmptyString => EmptyString
  | String c s' =>
      match rstrip s' with
      | EmptyString => if is_space c then EmptyString else String c EmptyString
      | r => String c r
      end
  end.

(** [s.strip()] *)
Definition strip (s : string) : string := rstrip (lstrip s).

Fixpoint all_space (s : string) : bool :=
  match s with
  | EmptyString => true
  | String c s' => is_space c && all_space s'
  end.

Fixpoint all_digits (s : string) : bool :=
  match s with
  | EmptyString => true
  | String c s' => is_digit c && all_digits s'
  end.

(** Truthiness of a string: [if s] holds for the non-empty ones. *)
Definition truthy (s : string) : bool :=
  match s with EmptyString => false | _ => true end.

End PyStr.

(* ================================================================= *)
(** ** The two filename patterns and [re.search] *)

Module Re.
Import PyStr.

(** The patterns of the source are sequences of literal characters and
    of [\d+]. *)
Inductive atom : Type :=
| Chr (c : ascii)
| DigitsPlus.

Definition pattern := list atom.

Fixpoint lit (s : string) : pattern :=
  match s with
  | EmptyString => []
  | String c s' => Chr c :: lit s'
  end.

(** Match [p] at the start of [s]; the matched text on success.  [\d+]
    is greedy: it first tries to take one more digit and gives the
    digit back only when the rest of the pattern fails. *)
Fixpoint match_here (p : pattern) (s : string) {struct s} : option string :=
  match p with
  | [] => Some EmptyString
  | Chr c :: p' =>
      match s with
      | EmptyString => None
      | String c' s' =>
          if Ascii.eqb c c' then String c' <$> match_here p' s' else None
      end
  | DigitsPlus :: p' =>
      match s with
      | EmptyString => None
      | String d s' =>
          if is_digit d then
            match match_here (DigitsPlus :: p') s' with
            | Some m => Some (String d m)
            | None => String d <$> match_here p' s'
            end
          else None
      end
  end.

(** [re.search(p, s)]: the match at the leftmost position that has one;
    [match.group(0)] is the text returned here. *)
Fixpoint search (p : pattern) (s : string) : option string :=
  match match_here p s with
  | Some m => Some m
  | None =>
      match s with
      | EmptyString => None
      | String _ s' => search p s'
      end
  end.

(** The language of a pattern, stated without reference to the matcher. *)
Inductive matches : pattern -> string -> Prop :=
| matches_nil : matches [] EmptyString
| matches_chr c p s : matches p s -> matches (Chr c :: p) (String c s)
| matches_digits ds p s :
    ds <> EmptyString -> all_digits ds = true -> matches p s ->
    matches (DigitsPlus :: p) (ds ++ s)%string.

(** [p] matches somewhere in [s]. *)
Definition occurs (p : pattern) (s : string) : Prop :=
  exists pre m post, s = (pre ++ m ++ post)%string /\ matches p m.

End Re.

(* ================================================================= *)
(** ** Exceptions *)

Module Py.

(** The subclasses of [Exception] the program can meet. *)
Inductive exn : Type :=
| IndexError
| KeyError
| TypeError
| ValueError
| OtherException.

Inductive result (A : Type) : Type :=
| Ok (a : A)
| Raise (e : exn).
Arguments Ok {A} a.
Arguments Raise {A} e.

#[export] Instance result_ret : MRet result := fun A a => Ok a.
#[export] Instance result_bind : MBind result := fun A B k r =>
  match r with
  | Ok a => k a
  | Raise e => Raise e
  end.

(** [try: body  except Exception as e: handler e] *)
Definition try_except {A} (body : result A) (handler : exn -> result A)
  : result A :=
  match body with
  | Ok a => Ok a
  | Raise e => handler e
  end.

(** [except (TypeError, ValueError)] *)
Definition is_type_or_value_error (e : exn) : bool :=
  match e with
  | TypeError | ValueError => true
  | _ => false
  end.

End Py.

(* ================================================================= *)
(** ** Floats, as numpy rounds them and Python prints them *)

Module PyFloat.
Local Open Scope Z_scope.

(** A float other than nan: a zero, an infinity, or the number
    [(-1)^neg * m * 2^e], where [m < 2^53] and [-1074 <= e] as in a
    binary64.  A number may be written with several pairs [(m, e)]. *)
Inductive float : Type :=
| FZero (neg : bool)
| FInf (neg : bool)
| FFinite (neg : bool) (m : positive) (e : Z).

(** The float nearest to a positive integer, a tie going to the even
    mantissa. *)
Definition round_pos (neg : bool) (p : positive) : float :=
  let sh := Z.log2 (Zpos p) + 1 - 53 in
  if sh <=? 0 then FFinite neg p 0
  else
    let q := Zpos p / 2 ^ sh in
    let r := Zpos p mod 2 ^ sh in
    let half := 2 ^ (sh - 1) in
    let q' := if (half <? r) || ((half =? r) && Z.odd q) then q + 1 else q in
    FFinite neg (Z.to_pos q') sh.

(** An int64 cast to float64, as numpy casts it and as [float(z)] does. *)
Definition float_of_int (z : Z) : float :=
  match z with
  | Z0 => FZero false
  | Zpos p => round_pos false p
  | Zneg p => round_pos true p
  end.

(** [10^t <= n / d] *)
Definition pow10_le (t n d : Z) : bool :=
  if 0 <=? t then 10 ^ t * d <=? n else d <=? n * 10 ^ (- t).

(** The largest [t] with [10^t <= n / d], looked for around [t]. *)
Fixpoint log10_near (fuel : nat) (t n d : Z) : Z :=
  match fuel with
  | O => t
  | S fuel' =>
      if pow10_le (t + 1) n d then log10_near fuel' (t + 1) n d
      else if pow10_le t n d then t
      else log10_near fuel' (t - 1) n d
  end.

Definition log10_floor (n d : Z) : Z :=
  log10_near 4 ((Z.log2 n - Z.log2 d) * 1233 / 4096) n d.

(** The decimal [c * 10^k] with the fewest digits, [n] or more, that
    lies in the interval from [ln / d] to [hn / d] around [xn / d], and
    the nearest to [xn / d] among those; [10^t] is the largest power of
    ten up to [xn / d].  The interval is the set of numbers that round
    to the float, with its ends when [closed]. *)
Fixpoint shortest (fuel : nat) (n t xn ln hn d : Z) (closed : bool) : Z * Z :=
  let k := t - n + 1 in
  let up := 10 ^ Z.max k 0 in
  let down := 10 ^ Z.max (- k) 0 in
  let lo := xn * down / (d * up) in
  let hi := lo + 1 in
  let inside c :=
    if closed then (ln * down <=? c * up * d) && (c * up * d <=? hn * down)
    else (ln * down <? c * up * d) && (c * up * d <? hn * down) in
  match inside lo, inside hi with
  | true, false => (lo, k)
  | false, true => (hi, k)
  | true, true =>
      match 2 * xn * down ?= (lo + hi) * up * d with
      | Lt => (lo, k)
      | Gt => (hi, k)
      | Eq => (if Z.even lo then lo else hi, k)
      end
  | false, false =>
      match fuel with
      | O => (lo, k)
      | S fuel' => shortest fuel' (n + 1) t xn ln hn d closed
      end
  end.

(** [c * 10^k] without the final zeros of [c]. *)
Fixpoint strip_zeros (fuel : nat) (c k : Z) : Z * Z :=
  match fuel with
  | O => (c, k)
  | S fuel' =>
      if (c mod 10 =? 0) && (0 <? c) then strip_zeros fuel' (c / 10) (k + 1)
      else (c, k)
  end.

Definition digits_of (c : Z) : string :=
  NilZero.string_of_uint (N.to_uint (Z.to_N c)).

Fixpoint zeros (n : nat) : string :=
  match n with
  | O => ""
  | S n' => String "0" (zeros n')
  end.

Fixpoint str_take (n : nat) (s : string) : string :=
  match n, s with
  | S n', String a s' => String a (str_take n' s')
  | _, _ => ""
  end.

Fixpoint str_drop (n : nat) (s : string) : string :=
  match n, s with
  | S n', String _ s' => str_drop n' s'
  | _, _ => s
  end.

Definition two_digits (n : Z) : string :=
  if n <? 10 then "0" +:+ digits_of n else digits_of n.

(** The digits [ds] with the decimal point after the first [decpt] of
    them, laid out as [repr] does: in full when [-4 < decpt <= 16],
    with an exponent otherwise. *)
Definition layout (ds : string) (decpt : Z) : string :=
  let len := Z.of_nat (String.length ds) in
  if (-4 <? decpt) && (decpt <=? 16) then
    if decpt <=? 0 then "0." +:+ zeros (Z.to_nat (- decpt)) +:+ ds
    else if len <=? decpt then ds +:+ zeros (Z.to_nat (decpt - len)) +:+ ".0"
    else str_take (Z.to_nat decpt) ds +:+ "." +:+ str_drop (Z.to_nat decpt) ds
  else
    str_take 1 ds +:+ (if 1 <? len then "." +:+ str_drop 1 ds else "") +:+ "e" +:+
    (if 0 <=? decpt - 1 then "+" +:+ two_digits (decpt - 1)
     else "-" +:+ two_digits (1 - decpt)).

(** [repr] of the positive float [m * 2^e]: the shortest decimal that
    reads back as the float.  With the mantissa [M] of the float taken
    as large as a binary64 allows, the numbers that round to the float
    lie between the points halfway to its two neighbours, and the ends
    round to it when [M] is even. *)
Definition repr_finite (m : positive) (e : Z) : string :=
  let bits := Z.log2 (Zpos m) + 1 in
  let shift := Z.max 0 (Z.min (53 - bits) (e + 1074)) in
  let M := Zpos m * 2 ^ shift in
  let E2 := e - shift - 2 in
  let p := 2 ^ Z.max E2 0 in
  let d := 2 ^ Z.max (- E2) 0 in
  let xn := 4 * M * p in
  let hn := (4 * M + 2) * p in
  let ln :=
    (if (M =? 2 ^ 52) && (-1074 <? e - shift) then 4 * M - 1 else 4 * M - 2) * p in
  let t := log10_floor xn d in
  let '(c, k) := shortest 16 1 t xn ln hn d (Z.even M) in
  let '(c, k) := strip_zeros 17 c k in
  let ds := digits_of c in
  layout ds (Z.of_nat (String.length ds) + k).

(** [repr(x)], which is also [str(x)] *)
Definition float_repr (x : float) : string :=
  match x with
  | FZero false => "0.0"
  | FZero true => "-0.0"
  | FInf false => "inf"
  | FInf true => "-inf"
  | FFinite false m e => repr_finite m e
  | FFinite true m e => "-" +:+ repr_finite m e
  end.

End PyFloat.

(* ================================================================= *)
(** ** Tables read from CSV files *)

Module Data.
Import PyStr Py PyFloat.

(** A scalar held by a table cell. *)
Inductive value : Type :=
| VNaN                       (* a missing value: float nan *)
| VNone                      (* the object None *)
| VStr (s : string)
| VInt (z : Z)
| VFloat (x : float)         (* a float other than nan *)
| VBool (b : bool)
| VOther (text : string).    (* any other scalar, with the text [str] gives *)

(** [pd.isna(v)] *)
Definition isna (v : value) : bool :=
  match v with
  | VNaN | VNone => true
  | _ => false
  end.

(** [str(v)] *)
Definition py_str (v : value) : string :=
  match v with
  | VNaN => "nan"
  | VNone => "None"
  | VStr s => s
  | VInt z => NilZero.string_of_int (Z.to_int z)
  | VFloat x => float_repr x
  | VBool true => "True"
  | VBool false => "False"
  | VOther text => text
  end.

(** [v == s] for a string literal [s] *)
Definition eq_str (v : value) (s : string) : bool :=
  match v with
  | VStr s' => String.eqb s' s
  | _ => false
  end.

(** The dtype of a column. *)
Inductive dtype : Type := Int64 | Float64 | Bool | Object.

Definition dtype_eqb (a b : dtype) : bool :=
  match a, b with
  | Int64, Int64 | Float64, Float64 | Bool, Bool | Object, Object => true
  | _, _ => false
  end.

(** A [pd.DataFrame] with the default integer index: ordered column
    labels, the dtype of each column, and ordered rows. *)
Record DataFrame : Type := {
  columns : list string;
  dtypes : list dtype;          (* df.dtypes *)
  rows : list (list value);
}.

(** [len(df)] *)
Definition df_len (df : DataFrame) : nat := length (rows df).

(** [df.empty]: some axis has length 0 *)
Definition df_empty (df : DataFrame) : bool :=
  (length (columns df) =? 0) || (length (rows df) =? 0).

(** [c in df.columns] *)
Definition has_column (c : string) (df : DataFrame) : bool :=
  existsb (String.eqb c) (columns df).

Fixpoint col_index (c : string) (cols : list string) : option nat :=
  match cols with
  | [] => None
  | c' :: cols' => if String.eqb c c' then Some 0 else S <$> col_index c cols'
  end.

(** The cell of row [r] under the column at position [i]. *)
Definition cell_at (i : nat) (r : list value) : value := nth i r VNaN.

(** The dtype of the column at position [i]. *)
Definition dtype_at (i : nat) (df : DataFrame) : dtype := nth i (dtypes df) Object.

(** A cell of a column of dtype [from] moved to a column of dtype [to]:
    an int64 that goes to float64 becomes the nearest float; any other
    move the program can cause keeps the value (a value that goes to an
    object column is boxed as it is). *)
Definition astype (from to : dtype) (v : value) : value :=
  match from, to, v with
  | Int64, Float64, VInt z => VFloat (float_of_int z)
  | _, _, _ => v
  end.

(** pandas' [find_common_type], which is also the dtype of
    [df.values]: equal dtypes stay; a bool beside a number gives
    object, as does object beside anything; int64 beside float64 gives
    float64.  Without any dtype [df.values] is of object dtype. *)
Definition find_common_type (types : list dtype) : dtype :=
  match types with
  | [] => Object
  | first :: _ =>
      if forallb (dtype_eqb first) types then first
      else if existsb (dtype_eqb Bool) types || existsb (dtype_eqb Object) types
      then Object
      else Float64
  end.

(** pandas' [ensure_dtype_can_hold_na] *)
Definition ensure_dtype_can_hold_na (t : dtype) : dtype :=
  match t with
  | Int64 => Float64
  | Bool => Object
  | _ => t
  end.

(** [df.iterrows()]: each row comes as a Series cut from [df.values],
    so with its values moved to the one dtype of that array. *)
Definition iterrows (df : DataFrame) : list (list value) :=
  let to := find_common_type (dtypes df) in
  map (imap (fun j v => astype (dtype_at j df) to v)) (rows df).

(** [df[c]] *)
Definition get_column (c : string) (df : DataFrame) : result (list value) :=
  match col_index c (columns df) with
  | None => Raise KeyError
  | Some i => Ok (map (cell_at i) (rows df))
  end.

(** [series.iloc[0]] *)
Definition iloc0 (series : list value) : result value :=
  match series with
  | [] => Raise IndexError
  | v :: _ => Ok v
  end.

(** A CSV file of the data directory: the final component of its path
    and what pandas makes of it, read for its first row only and read
    whole. *)
Record csv_file : Type := {
  csv_name : string;                      (* csv_path.name *)
  read_csv_nrows1 : result DataFrame;     (* pd.read_csv(csv_path, nrows=1) *)
  read_csv : result DataFrame;            (* pd.read_csv(csv_path) *)
}.

(** [pd.concat(dataframes, ignore_index=True)]: the rows of all frames
    in order, laid out under the union of the column labels in order of
    first appearance, a missing cell being NaN.  A column takes the
    common dtype of the frames that have it, widened to hold NaN when
    some frame lacks it, and its cells are moved to that dtype. *)
Definition union_columns (dfs : list DataFrame) : list string :=
  fold_left
    (fun acc df =>
       acc ++ List.filter (fun c => negb (existsb (String.eqb c) acc)) (columns df))
    dfs [].

(** The dtype of the column [c] of [df], if [df] has the column. *)
Definition column_dtype (c : string) (df : DataFrame) : option dtype :=
  i ← col_index c (columns df); Some (dtype_at i df).

Definition concat_dtype (dfs : list DataFrame) (c : string) : dtype :=
  let common := find_common_type (omap (column_dtype c) dfs) in
  if forallb (has_column c) dfs then common
  else ensure_dtype_can_hold_na common.

Definition reindex (cols : list string) (to : string -> dtype) (df : DataFrame)
    (r : list value) : list value :=
  map (fun c => match col_index c (columns df) with
                | Some i => astype (dtype_at i df) (to c) (cell_at i r)
                | None => VNaN
                end) cols.

Definition concat (dfs : list DataFrame) : DataFrame :=
  let cols := union_columns dfs in
  let to := concat_dtype dfs in
  {| columns := cols;
     dtypes := map to cols;
     rows := flat_map (fun df => map (reindex cols to df) (rows df)) dfs |}.

End Data.

(* ================================================================= *)
(** ** Classifier *)

Module Classifier.
Import PyStr Re Py Data.

Definition TEST_TYPE_PRBS : string := "TestType.SERDES_PRBS".
Definition TEST_TYPE_DATA : string := "TestType.SIMPLE_PACKET".

(** [r'erisc_v\d+_\d+_\d+'] *)
Definition pattern1 : pattern :=
  lit "erisc_v" ++ [DigitsPlus; Chr "_"; DigitsPlus; Chr "_"; DigitsPlus].

(** [r'v\d+_\d+_\d+'] *)
Definition pattern2 : pattern :=
  lit "v" ++ [DigitsPlus; Chr "_"; DigitsPlus; Chr "_"; DigitsPlus].

Definition extract_firmware_version (csv_path : csv_file) : option string :=
  let filename := csv_name csv_path in
  match search pattern1 filename with
  | Some m => Some m
  | None =>
      match search pattern2 filename with
      | Some m => Some m
      | None => None
      end
  end.

Definition identify_test_type (csv_path : csv_file) : result (option string) :=
  try_except
    (df ← read_csv_nrows1 csv_path;
     if negb (has_column "test_type" df) then
       if contains "prbs_test" (lower (csv_name csv_path)) then mret (Some "PRBS")
       else if contains "data_test" (lower (csv_name csv_path)) then mret (Some "DATA")
       else mret None
     else
       test_type_value ← get_column "test_type" df ≫= iloc0;
       if eq_str test_type_value TEST_TYPE_PRBS then mret (Some "PRBS")
       else if eq_str test_type_value TEST_TYPE_DATA then mret (Some "DATA")
       else
         if contains "prbs_test" (lower (csv_name csv_path)) then mret (Some "PRBS")
         else if contains "data_test" (lower (csv_name csv_path)) then mret (Some "DATA")
         else mret None)
    (fun _ =>
       if contains "prbs_test" (lower (csv_name csv_path)) then mret (Some "PRBS")
       else if contains "data_test" (lower (csv_name csv_path)) then mret (Some "DATA")
       else mret None).

Definition extract_system_hostname (csv_path : csv_file) : result (option string) :=
  try_except
    (df ← read_csv_nrows1 csv_path;
     if negb (has_column "host" df) then mret None
     else
       hostname ← get_column "host" df ≫= iloc0;
       if isna hostname || eq_str hostname "" then mret None
       else mret (Some (strip (py_str hostname))))
    (fun _ => mret None).

End Classifier.

(* ================================================================= *)
(** ** Dictionaries in insertion order, loops that may raise *)

Module Dict.
Import Py.

Section dict.
Context {K V : Type} `{EqDecision K}.

(** [k in d], [d.get(k)] *)
Fixpoint get (k : K) (d : list (K * V)) : option V :=
  match d with
  | [] => None
  | (k', v) :: d' => if decide (k = k') then Some v else get k d'
  end.

(** [d[k]] *)
Definition getitem (k : K) (d : list (K * V)) : result V :=
  match get k d with
  | Some v => Ok v
  | None => Raise KeyError
  end.

(** [d[k] = v]: an existing key keeps its place, a new one goes last. *)
Fixpoint set (k : K) (v : V) (d : list (K * V)) : list (K * V) :=
  match d with
  | [] => [(k, v)]
  | (k', v') :: d' =>
      if decide (k = k') then (k, v) :: d' else (k', v') :: set k v d'
  end.

(** [d[k]] on a [defaultdict]: a missing key is first given the
    default. *)
Definition get_default (default : V) (k : K) (d : list (K * V))
  : V * list (K * V) :=
  match get k d with
  | Some v => (v, d)
  | None => (default, set k default d)
  end.
End dict.

(** [for a in l: s = body s a], stopping at the first exception. *)
Fixpoint for_each {A S : Type} (body : S -> A -> result S) (s : S) (l : list A)
  : result S :=
  match l with
  | [] => Ok s
  | a :: l' => s' ← body s a; for_each body s' l'
  end.

End Dict.

(* ================================================================= *)
(** ** Grouper *)

Module Grouper.
Import PyStr Py Data Classifier.

(** A bucket: the dictionary [{'PRBS': [...], 'DATA': [...]}]. *)
Definition bucket : Type := list (string * list csv_file).

Definition new_bucket : bucket := [("PRBS", []); ("DATA", [])].

(** The mapping from (hostname, firmware_version) to buckets. *)
Definition grouping : Type := list ((string * string) * bucket).

(** The string [o] stands for when [if o] holds; [None] when [not o]. *)
Definition if_str (o : option string) : option string :=
  match o with
  | Some s => if truthy s then Some s else None
  | None => None
  end.

(** One turn of the loop of [group_csvs_by_system_and_firmware]. *)
Definition group_one (grouped : grouping) (csv_path : csv_file) : result grouping :=
  hostname ← extract_system_hostname csv_path;
  let firmware_version := extract_firmware_version csv_path in
  test_type ← identify_test_type csv_path;
  match if_str hostname with
  | None => mret grouped
  | Some hostname =>
      match if_str firmware_version with
      | None => mret grouped
      | Some firmware_version =>
          match if_str test_type with
          | None => mret grouped
          | Some test_type =>
              let key := (hostname, firmware_version) in
              let '(b, grouped) := Dict.get_default new_bucket key grouped in
              files ← Dict.getitem test_type b;
              mret (Dict.set key (Dict.set test_type (files ++ [csv_path]) b) grouped)
          end
      end
  end.

Definition group_csvs_by_system_and_firmware (csv_files : list csv_file)
  : result grouping :=
  Dict.for_each group_one [] csv_files.

End Grouper.

(* ================================================================= *)
(** ** Compiler *)

Module Compiler.
Import Py Data.

(** One turn of the reading loop of [compile_test_data]. *)
Definition read_one (dataframes : list DataFrame) (csv_path : csv_file)
  : result (list DataFrame) :=
  try_except
    (df ← read_csv csv_path;
     if df_empty df then mret dataframes
     else mret (dataframes ++ [df]))
    (fun _ => mret dataframes).

Definition compile_test_data (csv_files : list csv_file) (test_type : string)
  : result (option DataFrame) :=
  match csv_files with
  | [] => mret None
  | _ =>
      dataframes ← Dict.for_each read_one [] csv_files;
      match dataframes with
      | [] => mret None
      | _ => mret (Some (concat dataframes))
      end
  end.

End Compiler.

(* ================================================================= *)
(** ** State that survives an exception *)

Module St.
Import Py.

(** A computation on a mutable object of type [S]: the object after the
    computation, and its value or the exception it raised. *)
Definition M (S A : Type) : Type := S -> S * result A.

#[export] Instance M_ret {S} : MRet (M S) := fun A a s => (s, Ok a).
#[export] Instance M_bind {S} : MBind (M S) := fun A B k m s =>
  match m s with
  | (s', Ok a) => k a s'
  | (s', Raise e) => (s', Raise e)
  end.

(** A computation that does not touch the object. *)
Definition lift {S A} (r : result A) : M S A := fun s => (s, r).

(** A change of the object that cannot fail. *)
Definition modify {S} (f : S -> S) : M S unit := fun s => (f s, Ok tt).

(** [try: body  except <catch>: handler] *)
Definition try_with {S A} (body : M S A) (catch : exn -> bool) (handler : M S A)
  : M S A := fun s =>
  match body s with
  | (s', Ok a) => (s', Ok a)
  | (s', Raise e) => if catch e then handler s' else (s', Raise e)
  end.

(** [for a in l: acc = body acc a] on the object, stopping at the first
    exception. *)
Fixpoint for_each {S A B : Type} (body : B -> A -> M S B) (acc : B) (l : list A)
  : M S B :=
  match l with
  | [] => mret acc
  | a :: l' => acc' ← body acc a; for_each body acc' l'
  end.

End St.

(* ================================================================= *)
(** ** Workbooks *)

Module Xl.
Import PyStr Py Data St.

(** What the populator can find behind a pivot table of a summary sheet. *)
Inductive pivot_table : Type :=
| PivotOnRange (ref sheet : string)  (* cache.cacheSource.worksheetSource *)
| PivotNoSource                      (* no cache, or no such attribute *)
| PivotRaising.                      (* reaching the source raises *)

Record Worksheet : Type := {
  cells : gmap (nat * nat) (option value);   (* None: a cell left empty *)
  pivots : list pivot_table;                 (* sheet._pivots *)
}.

(** Sheets by title, in workbook order. *)
Definition Workbook : Type := list (string * Worksheet).

Definition sheetnames (wb : Workbook) : list string := wb.*1.

(** [name in workbook.sheetnames] *)
Definition has_sheet (name : string) (wb : Workbook) : bool :=
  existsb (String.eqb name) (sheetnames wb).

(** [sheet.max_row]: the largest row that holds a cell, 1 on a sheet
    without cells. *)
Definition max_row (sh : Worksheet) : nat :=
  max 1 (max_list ((fun kv => kv.1.1) <$> map_to_list (cells sh))).

(** [sheet.delete_rows(idx, amount)]: the cells of the rows [idx] to
    [idx + amount - 1] go, the rows below move up. *)
Definition delete_rows (idx amount : nat) (sh : Worksheet) : Worksheet :=
  {| cells :=
       list_to_map
         (omap (fun kv : (nat * nat) * option value =>
                  let '((r, c), v) := kv in
                  if r <? idx then Some ((r, c), v)
                  else if r <? idx + amount then None
                  else Some ((r - amount, c), v))
               (map_to_list (cells sh)));
     pivots := pivots sh |}.

(** [openpyxl.utils.get_column_letter]: the letters of the columns 1 to
    18278, which is column ZZZ. *)
Fixpoint column_letters (fuel n : nat) (acc : string) : string :=
  match fuel with
  | 0 => acc
  | S fuel' =>
      if n =? 0 then acc
      else
        let q := n / 26 in
        let r := n mod 26 in
        if r =? 0 then column_letters fuel' (q - 1) (String (ascii_of_nat 90) acc)
        else column_letters fuel' q (String (ascii_of_nat (r + 64)) acc)
  end.

Definition get_column_letter (n : nat) : result string :=
  if (1 <=? n) && (n <=? 26 + 26 * 26 + 26 * 26 * 26) then Ok (column_letters 3 n "")
  else Raise ValueError.

(** [str(n)] for a row number *)
Definition str_of_nat (n : nat) : string := NilZero.string_of_uint (Nat.to_uint n).

(** Everything the program takes from outside. *)
Record World : Type := {
  (** [DATA_DIR.glob('*.csv')], or [None] when the directory is missing *)
  data_dir : option (list csv_file);
  (** [TEMPLATE_PATH.exists()] *)
  template_exists : bool;
  (** [openpyxl.load_workbook(TEMPLATE_PATH)] *)
  load_workbook : result Workbook;
  (** [cell.value = v] for a value other than None: what the cell then
      holds, or the exception *)
  bind_value : value -> result value;
  (** [OUTPUT_DIR.mkdir(exist_ok=True)], the same at every call *)
  mkdir : result unit;
  (** [workbook.save(path)] *)
  save : string -> result unit;
}.

Section cells.
Variable w : World.

(** [sheet.cell(row=row, column=col)]: a cell that is not there yet is
    created empty. *)
Definition cell (row col : nat) : M Worksheet unit :=
  modify (fun sh =>
    match cells sh !! (row, col) with
    | Some _ => sh
    | None => {| cells := <[(row, col) := None]> (cells sh); pivots := pivots sh |}
    end).

(** [cell.value = None] *)
Definition set_empty (row col : nat) : M Worksheet unit :=
  modify (fun sh =>
    {| cells := <[(row, col) := None]> (cells sh); pivots := pivots sh |}).

(** [cell.value = v] *)
Definition set_value (row col : nat) (v : value) : M Worksheet unit :=
  fun sh =>
    match bind_value w v with
    | Ok stored =>
        ({| cells := <[(row, col) := Some stored]> (cells sh); pivots := pivots sh |},
         Ok tt)
    | Raise e => (sh, Raise e)
    end.
End cells.

End Xl.

(* ================================================================= *)
(** ** Template Populator *)

Module Populator.
Import PyStr Py Data St Xl.

Definition SHEET_RAW_PRBS : string := "raw prbs data".
Definition SHEET_RAW_DATA : string := "raw data".
Definition SHEET_PRBS_SUMMARY : string := "PRBS Summary".
Definition SHEET_DATA_SUMMARY : string := "DATA Summary".

Definition load_template (w : World) : option Workbook :=
  if negb (template_exists w) then None
  else
    match load_workbook w with
    | Ok workbook => Some workbook
    | Raise _ => None
    end.

(** [value is None] *)
Definition is_None (v : value) : bool :=
  match v with VNone => true | _ => false end.

(** The body of the inner loop of [paste_data_to_sheet]. *)
Definition write_value (w : World) (row_idx col_idx : nat) (value : value)
  : M Worksheet unit :=
  cell row_idx col_idx;;
  if isna value then set_empty row_idx col_idx
  else if is_None value then set_empty row_idx col_idx
  else
    try_with (set_value w row_idx col_idx value)
             is_type_or_value_error
             (set_value w row_idx col_idx (VStr (py_str value))).

(** [for col_idx, value in enumerate(row_data, start=col_idx)] *)
Fixpoint write_row (w : World) (row_idx col_idx : nat) (row_data : list value)
  : M Worksheet unit :=
  match row_data with
  | [] => mret tt
  | value :: row_data' =>
      write_value w row_idx col_idx value;;
      write_row w row_idx (S col_idx) row_data'
  end.

(** [for row_idx, (_, row_data) in enumerate(data_df.iterrows(), start=row_idx)] *)
Fixpoint write_rows (w : World) (row_idx : nat) (rows : list (list value))
  : M Worksheet unit :=
  match rows with
  | [] => mret tt
  | row_data :: rows' =>
      write_row w row_idx 1 row_data;;
      write_rows w (S row_idx) rows'
  end.

(** [for col_idx, header in enumerate(headers, start=col_idx)]; a
    column label is a string, so [str(header)] is the label. *)
Fixpoint write_headers (w : World) (col_idx : nat) (headers : list string)
  : M Worksheet unit :=
  match headers with
  | [] => mret tt
  | header :: headers' =>
      cell 1 col_idx;;
      set_value w 1 col_idx (VStr header);;
      write_headers w (S col_idx) headers'
  end.

(** The [try] block of [paste_data_to_sheet], run on the sheet. *)
Definition paste_body (w : World) (data_df : DataFrame) : M Worksheet (nat * nat) :=
  modify (fun sheet =>
            if 0 <? max_row sheet then delete_rows 1 (max_row sheet) sheet
            else sheet);;
  let headers := columns data_df in
  write_headers w 1 headers;;
  write_rows w 2 (iterrows data_df);;
  let last_row := df_len data_df + 1 in
  let last_col := length headers in
  (* the log line evaluates get_column_letter(last_col) *)
  lift (get_column_letter last_col);;
  mret (last_row, last_col).

(** The workbook is changed in place; the result carries it along with
    the returned pair. *)
Definition paste_data_to_sheet (w : World) (workbook : Workbook)
    (sheet_name : string) (data_df : DataFrame)
  : Workbook * (option nat * option nat) :=
  if negb (has_sheet sheet_name workbook) then (workbook, (None, None))
  else
    match Dict.getitem sheet_name workbook with
    | Raise _ => (workbook, (None, None))
    | Ok sheet =>
        match paste_body w data_df sheet with
        | (sheet', Ok (last_row, last_col)) =>
            (Dict.set sheet_name sheet' workbook, (Some last_row, Some last_col))
        | (sheet', Raise _) =>
            (Dict.set sheet_name sheet' workbook, (None, None))
        end
    end.

(** One turn of the loop over [sheet._pivots]: the pivot table after it
    and whether it counted as updated. *)
Definition update_one (data_sheet_name data_range : string) (p : pivot_table)
  : pivot_table * bool :=
  match p with
  | PivotOnRange _ _ => (PivotOnRange data_range data_sheet_name, true)
  | PivotNoSource => (PivotNoSource, false)
  | PivotRaising => (PivotRaising, false)
  end.

Definition update_pivot_table_source (workbook : Workbook)
    (pivot_sheet_name data_sheet_name data_range : string) : Workbook * bool :=
  if negb (has_sheet pivot_sheet_name workbook) then (workbook, false)
  else
    match Dict.getitem pivot_sheet_name workbook with
    | Raise _ => (workbook, false)
    | Ok sheet =>
        match pivots sheet with
        | [] => (workbook, false)
        | _ =>
            let updated := map (update_one data_sheet_name data_range) (pivots sheet) in
            let updated_count := length (List.filter snd updated) in
            (Dict.set pivot_sheet_name
                      {| cells := cells sheet; pivots := updated.*1 |} workbook,
             0 <? updated_count)
        end
    end.

(** [if n] for a number that may be None *)
Definition if_nat (o : option nat) : option nat :=
  match o with
  | Some (S n) => Some (S n)
  | _ => None
  end.

(** The source has this block twice, for the PRBS data with the sheets
    'raw prbs data' and 'PRBS Summary' and for the Data test data with
    'raw data' and 'DATA Summary'. *)
Definition paste_and_rebind (w : World) (raw_sheet summary_sheet : string)
    (data : option DataFrame) (workbook : Workbook) : result Workbook :=
  match data with
  | None => mret workbook
  | Some df =>
      if df_empty df then mret workbook
      else
        let '(workbook, (last_row, last_col)) :=
          paste_data_to_sheet w workbook raw_sheet df in
        match if_nat last_row, if_nat last_col with
        | Some last_row, Some last_col =>
            letter ← get_column_letter last_col;
            let range := ("A1:" ++ letter ++ str_of_nat last_row)%string in
            if has_sheet summary_sheet workbook
            then mret (update_pivot_table_source workbook summary_sheet raw_sheet range).1
            else mret workbook
        | _, _ => mret workbook
        end
  end.

(** The saves that succeeded, oldest first: the path and the workbook
    saved there.  A later save under a path replaces the file of an
    earlier one; what a save that raises leaves at its path is not
    recorded. *)
Definition files : Type := list (string * Workbook).

Definition output_path (hostname firmware_version : string) : string :=
  ("summaries/" ++ hostname ++ "_" ++ firmware_version ++ ".xlsx")%string.

(** The [try] block around [workbook.save(output_path)]. *)
Definition save_report (w : World) (path : string) (workbook : Workbook)
  : M files bool := fun written =>
  match save w path with
  | Ok _ => (written ++ [(path, workbook)], Ok true)
  | Raise _ => (written, Ok false)
  end.

Definition generate_excel_summary (w : World) (hostname firmware_version : string)
    (prbs_data data_test_data : option DataFrame) : M files bool :=
  match load_template w with
  | None => mret false
  | Some workbook =>
      lift (mkdir w);;
      workbook ← lift (paste_and_rebind w SHEET_RAW_PRBS SHEET_PRBS_SUMMARY
                                        prbs_data workbook);
      workbook ← lift (paste_and_rebind w SHEET_RAW_DATA SHEET_DATA_SUMMARY
                                        data_test_data workbook);
      save_report w (output_path hostname firmware_version) workbook
  end.

End Populator.

(* ================================================================= *)
(** ** Report Driver *)

Module Driver.
Import PyStr Py Data St Xl Classifier Grouper Compiler Populator.

Definition scan_csv_files (w : World) : list csv_file :=
  match data_dir w with
  | None => []
  | Some csv_files => csv_files
  end.

(** How a run ends. *)
Inductive outcome : Type :=
| SysExit (status : nat)                               (* sys.exit(status) *)
| Returned (processed success_count error_count : nat) (* the printed tally *)
| Uncaught (e : exn).                                  (* a traceback *)

Definition exit_status (o : outcome) : nat :=
  match o with
  | SysExit status => status
  | Returned _ _ _ => 0
  | Uncaught _ => 1
  end.

(** [if l] for a list *)
Definition nonempty {A} (l : list A) : bool :=
  match l with [] => false | _ => true end.

(** The body of the loop of [main] over the buckets. *)
Definition process (w : World) (counts : nat * nat)
    (entry : (string * string) * bucket) : M files (nat * nat) :=
  let '((hostname, firmware_version), file_groups) := entry in
  let '(success_count, error_count) := counts in
  prbs_files ← lift (Dict.getitem "PRBS" file_groups);
  prbs_data ← (if nonempty prbs_files
                then lift (compile_test_data prbs_files "PRBS")
                else mret None);
  data_files ← lift (Dict.getitem "DATA" file_groups);
  data_test_data ← (if nonempty data_files
                     then lift (compile_test_data data_files "DATA")
                     else mret None);
  match prbs_data, data_test_data with
  | None, None => mret (success_count, error_count + 1)
  | _, _ =>
      ok ← generate_excel_summary w hostname firmware_version prbs_data data_test_data;
      if ok : bool then mret (success_count + 1, error_count)
      else mret (success_count, error_count + 1)
  end.

(** [args.systems]: [None] without the option, the listed names with it. *)
Definition select (systems : option (list string)) (grouped : grouping) : grouping :=
  List.filter
    (fun entry : (string * string) * bucket =>
       existsb (String.eqb entry.1.1) (default [] systems))
    grouped.

Definition run_buckets (w : World) (grouped : grouping) : files * outcome :=
  match St.for_each (process w) (0, 0) grouped [] with
  | (written, Ok (success_count, error_count)) =>
      (written, Returned (length grouped) success_count error_count)
  | (written, Raise e) => (written, Uncaught e)
  end.

Definition main (w : World) (systems : option (list string)) : files * outcome :=
  let csv_files := scan_csv_files w in
  if negb (nonempty csv_files) then ([], SysExit 1)
  else
    match group_csvs_by_system_and_firmware csv_files with
    | Raise e => ([], Uncaught e)
    | Ok grouped =>
        if negb (nonempty grouped) then ([], SysExit 1)
        else if nonempty (default [] systems) then
          let filtered_grouped := select systems grouped in
          if negb (nonempty filtered_grouped) then ([], SysExit 1)
          else run_buckets w filtered_grouped
        else run_buckets w grouped
    end.

End Driver.

(* ================================================================= *)
(** ** Vocabulary of the properties *)

Module Spec.
Import PyStr Re Py Data Classifier Grouper Compiler St Xl Populator Driver.

(** [P] holds of some piece of [s]. *)
Definition somewhere (P : string -> Prop) (s : string) : Prop :=
  exists pre m post, s = pre +:+ m +:+ post /\ P m.

Definition is_underscore (c : ascii) : bool := Ascii.eqb c "_".
Definition is_dot_or_underscore (c : ascii) : bool :=
  Ascii.eqb c "." || Ascii.eqb c "_".

(** The text [m] is [prefix], then three non-empty runs of digits with
    one separator accepted by [sep] between them. *)
Definition versioned (prefix : string) (sep : ascii -> bool) (m : string) : Prop :=
  exists (a b c : string) (s1 s2 : ascii),
    m = prefix +:+ a +:+ String s1 b +:+ String s2 c /\
    (a <> "" /\ all_digits a = true) /\
    (b <> "" /\ all_digits b = true) /\
    (c <> "" /\ all_digits c = true) /\
    sep s1 = true /\ sep s2 = true.

(** The ways in which [identify_test_type] is left to the filename. *)
Inductive falls_back (f : csv_file) : Prop :=
| fb_unreadable e :
    read_csv_nrows1 f = Raise e -> falls_back f
| fb_no_column df :
    read_csv_nrows1 f = Ok df -> has_column "test_type" df = false ->
    falls_back f
| fb_no_row df e :
    read_csv_nrows1 f = Ok df -> has_column "test_type" df = true ->
    get_column "test_type" df ≫= iloc0 = Raise e -> falls_back f
| fb_unknown df v :
    read_csv_nrows1 f = Ok df -> has_column "test_type" df = true ->
    get_column "test_type" df ≫= iloc0 = Ok v ->
    eq_str v TEST_TYPE_PRBS = false -> eq_str v TEST_TYPE_DATA = false ->
    falls_back f.

(** The value of the [host] column in the first data row of [f] is [v]. *)
Definition host_value (f : csv_file) (v : value) : Prop :=
  exists df, read_csv_nrows1 f = Ok df /\ has_column "host" df = true /\
             get_column "host" df ≫= iloc0 = Ok v.

(** Classification of [f] yields an absent field. *)
Definition absent_field (f : csv_file) : Prop :=
  extract_system_hostname f = Ok None \/
  extract_firmware_version f = None \/
  identify_test_type f = Ok None.

(** [f] has no [host] column, or its body cannot be read. *)
Definition lacks_host (f : csv_file) : Prop :=
  (exists df, read_csv_nrows1 f = Ok df /\ has_column "host" df = false) \/
  (exists e, read_csv_nrows1 f = Raise e).

(** [f] is readable and has no [test_type] column. *)
Definition lacks_test_type (f : csv_file) : Prop :=
  exists df, read_csv_nrows1 f = Ok df /\ has_column "test_type" df = false.

(** The name of [f] carries neither kind marker, in any letter case. *)
Definition unmarked (f : csv_file) : Prop :=
  contains "prbs_test" (lower (csv_name f)) = false /\
  contains "data_test" (lower (csv_name f)) = false.

(** The three fields [group_one] keys a file by, when it keeps the
    file. *)
Definition classify (f : csv_file) : option (string * string * string) :=
  match extract_system_hostname f, identify_test_type f with
  | Ok hostname, Ok test_type =>
      match if_str hostname, if_str (extract_firmware_version f), if_str test_type with
      | Some h, Some fw, Some k => Some (h, fw, k)
      | _, _, _ => None
      end
  | _, _ => None
  end.

(** The files of [csv_files] that classify to the key [(h, fw)] and the
    kind [k], in the order of [csv_files]. *)
Definition select_files (h fw k : string) (csv_files : list csv_file)
  : list csv_file :=
  filter (fun f => classify f = Some (h, fw, k)) csv_files.

(** The bucket of the key [(h, fw)] over [csv_files]. *)
Definition bucket_of (h fw : string) (csv_files : list csv_file) : bucket :=
  [("PRBS", select_files h fw "PRBS" csv_files);
   ("DATA", select_files h fw "DATA" csv_files)].

(** [g] is the grouping of [csv_files]: its keys are distinct, each key
    holds its bucket, and a key it does not hold has no file. *)
Definition well_grouped (csv_files : list csv_file) (g : grouping) : Prop :=
  NoDup g.*1 /\
  (forall h fw b, Dict.get (h, fw) g = Some b -> b = bucket_of h fw csv_files) /\
  (forall h fw k, Dict.get (h, fw) g = None -> select_files h fw k csv_files = []).

(** Every bucket of [g] holds its two sequences. *)
Definition two_kinds (g : grouping) : Prop :=
  forall entry, entry ∈ g ->
    exists h fw prbs_files data_files,
      entry = ((h, fw), [("PRBS", prbs_files); ("DATA", data_files)]).

(** [f] is in some bucket of [g]. *)
Definition grouped_somewhere (f : csv_file) (g : grouping) : Prop :=
  exists key b kind l, (key, b) ∈ g /\ (kind, l) ∈ b /\ f ∈ l.

(** The table of a readable, non-empty file. *)
Definition usable (f : csv_file) : option DataFrame :=
  match read_csv f with
  | Ok df => if df_empty df then None else Some df
  | Raise _ => None
  end.

(** The table compiled from [csv_files], if any. *)
Definition compiled (csv_files : list csv_file) : option DataFrame :=
  match omap usable csv_files with
  | [] => None
  | dfs => Some (concat dfs)
  end.

(** A cell that is absent or explicitly empty. *)
Definition blank (c : option (option value)) : Prop :=
  c = None \/ c = Some None.

(** The computation [m] leaves the cell at [k] as it finds it. *)
Definition leaves {A} (m : M Worksheet A) (k : nat * nat) : Prop :=
  forall sh, cells (m sh).1 !! k = cells sh !! k.

(** The computation [m] leaves a blank cell at [k] blank, and a run of
    [m] that does not raise leaves the cell at [k] explicitly empty. *)
Definition empties {A} (m : M Worksheet A) (k : nat * nat) : Prop :=
  forall sh,
    (blank (cells sh !! k) -> blank (cells (m sh).1 !! k)) /\
    (forall a, (m sh).2 = Ok a -> cells (m sh).1 !! k = Some None).

End Spec.

(* ================================================================= *)
(** ** Sample inputs *)

Module Samples.
Import PyStr Re Py PyFloat Data Classifier Grouper Compiler St Xl Populator Driver.

(** A table with the columns [host], [test_type] and [x] and two rows,
    the second with a missing [x], which makes [x] a float64 column. *)
Definition sample_table (host test_type : string) : DataFrame :=
  {| columns := ["host"; "test_type"; "x"];
     dtypes := [Object; Object; Float64];
     rows := [[VStr host; VStr test_type; VFloat (float_of_int 1)];
              [VStr host; VStr test_type; VNaN]] |}.

(** A file that holds [sample_table]; read for its first row alone, [x]
    is an int64 column. *)
Definition sample_file (name host test_type : string) : csv_file :=
  {| csv_name := name;
     read_csv_nrows1 :=
       Ok {| columns := ["host"; "test_type"; "x"];
             dtypes := [Object; Object; Int64];
             rows := [[VStr host; VStr test_type; VInt 1]] |};
     read_csv := Ok (sample_table host test_type) |}.

(** A table of numbers alone: an int64 column beside a float64 column;
    the second [lane] is [2^53 + 1], which is no float. *)
Definition numeric_table : DataFrame :=
  {| columns := ["lane"; "ber"];
     dtypes := [Int64; Float64];
     rows := [[VInt 42; VFloat (FFinite false 3 (-1))];
              [VInt 9007199254740993; VNaN]] |}.

(** Two files with the column [lane]: whole numbers in the first, a
    fraction in the second. *)
Definition int_lane_file : csv_file :=
  {| csv_name := "a.csv";
     read_csv_nrows1 :=
       Ok {| columns := ["lane"]; dtypes := [Int64]; rows := [[VInt 1]] |};
     read_csv :=
       Ok {| columns := ["lane"]; dtypes := [Int64];
             rows := [[VInt 1]; [VInt 9007199254740993]] |} |}.

Definition float_lane_file : csv_file :=
  {| csv_name := "b.csv";
     read_csv_nrows1 :=
       Ok {| columns := ["lane"]; dtypes := [Float64];
             rows := [[VFloat (FFinite false 5 (-1))]] |};
     read_csv :=
       Ok {| columns := ["lane"]; dtypes := [Float64];
             rows := [[VFloat (FFinite false 5 (-1))]] |} |}.

Definition prbs_file : csv_file :=
  sample_file "SYS1_erisc_v1_7_103_prbs_test.csv" "h1" "TestType.SERDES_PRBS".

Definition data_file : csv_file :=
  sample_file "SYS1_erisc_v1_7_103_data_test.csv" "h1" "TestType.SIMPLE_PACKET".

(** The version written with dots. *)
Definition dotted_file : csv_file :=
  sample_file "SYS1_erisc_v1.7.103_prbs_test.csv" "h1" "TestType.SERDES_PRBS".

(** An unknown test type and both markers in the name. *)
Definition both_markers_file : csv_file :=
  sample_file "SYS1_erisc_v1_7_103_data_test_PRBS_Test.csv" "h1" "TestType.OTHER".


(** A PRBS file by its name, with a host and without a [test_type]
    column. *)
Definition no_test_type_file : csv_file :=
  {| csv_name := "SYS1_erisc_v1_7_103_prbs_test.csv";
     read_csv_nrows1 :=
       Ok {| columns := ["host"; "x"]; dtypes := [Object; Int64];
             rows := [[VStr "h1"; VInt 1]] |};
     read_csv :=
       Ok {| columns := ["host"; "x"]; dtypes := [Object; Int64];
             rows := [[VStr "h1"; VInt 1]] |} |}.

(** The same table under a name without a kind marker. *)
Definition unmarked_file : csv_file :=
  {| csv_name := "SYS1_erisc_v1_7_103.csv";
     read_csv_nrows1 := read_csv_nrows1 no_test_type_file;
     read_csv := read_csv no_test_type_file |}.

(** A file that pandas cannot read. *)
Definition unreadable_file : csv_file :=
  {| csv_name := "SYS1_erisc_v1_7_103_prbs_test.csv";
     read_csv_nrows1 := Raise OtherException;
     read_csv := Raise OtherException |}.

Definition empty_sheet : Worksheet := {| cells := ∅; pivots := [] |}.

Definition summary_sheet : Worksheet :=
  {| cells := ∅; pivots := [PivotOnRange "A1:B2" "raw prbs data"] |}.


Definition full_template : Workbook :=
  [("raw prbs data", empty_sheet); ("raw data", empty_sheet);
   ("PRBS Summary", summary_sheet); ("DATA Summary", summary_sheet)].

Definition world (csv_files : list csv_file) (template : Workbook) : World :=
  {| data_dir := Some csv_files;
     template_exists := true;
     load_workbook := Ok template;
     bind_value := fun v => Ok v;
     mkdir := Ok tt;
     save := fun _ => Ok tt |}.

(** A world in which no report can be saved. *)
Definition world_without_save (csv_files : list csv_file) : World :=
  {| data_dir := Some csv_files;
     template_exists := true;
     load_workbook := Ok full_template;
     bind_value := fun v => Ok v;
     mkdir := Ok tt;
     save := fun _ => Raise OtherException |}.

(** A world in which the output directory cannot be made, as when
    [summaries] is there as a regular file. *)
Definition world_without_mkdir (csv_files : list csv_file) : World :=
  {| data_dir := Some csv_files;
     template_exists := true;
     load_workbook := Ok full_template;
     bind_value := fun v => Ok v;
     mkdir := Raise OtherException;
     save := fun _ => Ok tt |}.


End Samples.

(* ================================================================= *)
(** ** Configuration of the retriever ([config.py]) *)

Module Config.
Import PyStr Py.

(** The module-level values of [config.py] once it is imported. *)
Record config : Type := {
  JIRA_SERVER_URL : option string;     (* os.getenv('JIRA_SERVER_URL') *)
  EMAIL : option string;               (* os.getenv('EMAIL') *)
  API_KEY : option string;             (* os.getenv('API_KEY') *)
  JIRA_TICKET_KEYS : list string;      (* the tickets of config.yaml *)
}.

(** [not x] for a value of [os.getenv] *)
Definition unset (x : option string) : bool :=
  match x with
  | Some s => negb (truthy s)
  | None => true
  end.

(** The two [ValueError]s of [validate_config], with what their message
    is built from. *)
Inductive config_error : Type :=
| MissingConfiguration (missing : list string)
| NoTickets.

(** [validate_config]: [inr tt] for the return of [True], [inl] for a
    raised [ValueError]. *)
Definition validate_config (c : config) : config_error + unit :=
  let missing := [] in
  let missing := if unset (JIRA_SERVER_URL c) then missing ++ ["JIRA_SERVER_URL"] else missing in
  let missing := if unset (EMAIL c) then missing ++ ["EMAIL"] else missing in
  let missing := if unset (API_KEY c) then missing ++ ["API_KEY"] else missing in
  match missing with
  | _ :: _ => inl (MissingConfiguration missing)
  | [] =>
      match JIRA_TICKET_KEYS c with
      | [] => inl NoTickets
      | _ => inr tt
      end
  end.

End Config.

(* ================================================================= *)
(** ** Retriever ([jira_csv_retriever.py]) *)

Module Retriever.
Import PyStr Py St Config.

(** An attachment of an issue: its name, whether the output file can be
    opened for writing, and what [attachment.get()] gives. *)
Record attachment : Type := {
  filename : string;
  open_ok : bool;                 (* open(output_path, 'wb') *)
  get : result string;            (* attachment.get() *)
}.

Record issue : Type := {
  key : string;                               (* issue.key *)
  attachment_field : option (list attachment) (* issue.fields.attachment, if any *)
}.

(** What the Jira server answers. *)
Record Jira : Type := {
  connect : result unit;              (* JIRA(server=..., basic_auth=...) *)
  lookup : string -> result issue;    (* jira_client.issue(ticket_key) *)
}.

(** The files of the output directory: path and content, oldest write
    first. *)
Definition disk : Type := list (string * string).

(** [s.endswith(suffix)] *)
Fixpoint endswith (suffix s : string) : bool :=
  String.eqb suffix s ||
  match s with
  | EmptyString => false
  | String _ s' => endswith suffix s'
  end.

(** [s.replace(' ', '_')] *)
Fixpoint replace_spaces (s : string) : string :=
  match s with
  | EmptyString => EmptyString
  | String c s' =>
      String (if Ascii.eqb c " " then "_"%char else c) (replace_spaces s')
  end.

Definition retrieve_ticket (jira : Jira) (ticket_key : string) : option issue :=
  match lookup jira ticket_key with
  | Ok issue => Some issue
  | Raise _ => None
  end.

Definition find_csv_attachments (issue : issue) : list attachment :=
  match attachment_field issue with
  | None => []
  | Some [] => []
  | Some attachments =>
      fold_left
        (fun csv_attachments attachment =>
           if endswith ".csv" (lower (filename attachment))
           then csv_attachments ++ [attachment]
           else csv_attachments)
        attachments []
  end.

(** [output_dir / f"{issue.key}_{safe_filename}"] with the output
    directory [data]. *)
Definition download_path (issue : issue) (attachment : attachment) : string :=
  "data/" +:+ key issue +:+ "_" +:+ replace_spaces (filename attachment).

(** Opening the file creates it empty; the content is written once
    [attachment.get()] has returned. *)
Definition download_csv_attachment (issue : issue) (attachment : attachment)
  : M disk (option string) := fun files =>
  let output_path := download_path issue attachment in
  if open_ok attachment then
    match get attachment with
    | Ok content => (files ++ [(output_path, content)], Ok (Some output_path))
    | Raise _ => (files ++ [(output_path, "")], Ok None)
    end
  else (files, Ok None).

(** The dictionary [process_ticket] returns. *)
Record ticket_result : Type := {
  ticket_key : string;
  found : bool;
  csv_count : nat;
  downloaded : nat;
  errors : list string;
}.

(** The body of the download loop of [process_ticket]. *)
Definition download_one (issue : issue) (result : ticket_result)
    (attachment : attachment) : M disk ticket_result :=
  downloaded_path ← download_csv_attachment issue attachment;
  match downloaded_path with
  | Some _ =>
      mret {| ticket_key := ticket_key result; found := found result;
              csv_count := csv_count result;
              downloaded := downloaded result + 1;
              errors := errors result |}
  | None =>
      mret {| ticket_key := ticket_key result; found := found result;
              csv_count := csv_count result;
              downloaded := downloaded result;
              errors := errors result ++
                        ["Failed to download " +:+ filename attachment] |}
  end.

Definition process_ticket (jira : Jira) (ticket_key : string) : M disk ticket_result :=
  match retrieve_ticket jira ticket_key with
  | None =>
      mret {| ticket_key := ticket_key; found := false; csv_count := 0;
              downloaded := 0;
              errors := ["Ticket " +:+ ticket_key +:+
                         " not found or could not be retrieved"] |}
  | Some issue =>
      let csv_attachments := find_csv_attachments issue in
      match csv_attachments with
      | [] =>
          mret {| ticket_key := ticket_key; found := true;
                  csv_count := length csv_attachments; downloaded := 0;
                  errors := ["No CSV attachments found on ticket " +:+ ticket_key] |}
      | _ =>
          St.for_each (download_one issue)
            {| ticket_key := ticket_key; found := true;
               csv_count := length csv_attachments; downloaded := 0;
               errors := [] |}
            csv_attachments
      end
  end.

(** [initialize_jira_client]: the configuration is validated, then the
    client is built; every exception is raised again. *)
Definition initialize_jira_client (c : config) (jira : Jira) : result unit :=
  match validate_config c with
  | inl _ => Raise ValueError
  | inr _ => connect jira
  end.

(** The totals [main] prints. *)
Record summary : Type := {
  tickets_processed : nat;
  total_found : nat;
  total_csv : nat;
  total_downloaded : nat;
  total_errors : nat;
}.

Definition summarise (results : list ticket_result) : summary :=
  {| tickets_processed := length results;
     total_found := length (List.filter found results);
     total_csv := sum_list (csv_count <$> results);
     total_downloaded := sum_list (downloaded <$> results);
     total_errors := sum_list ((fun r => length (errors r)) <$> results) |}.

(** How a run of the retriever ends. *)
Inductive outcome : Type :=
| SysExit (status : nat)
| Returned (results : list ticket_result) (totals : summary)
| Uncaught (e : exn).

Definition exit_status (o : outcome) : nat :=
  match o with
  | SysExit status => status
  | Returned _ _ => 0
  | Uncaught _ => 1
  end.

(** The loop of [main] over the ticket keys. *)
Definition process_all (jira : Jira) (results : list ticket_result)
    (ticket_key : string) : M disk (list ticket_result) :=
  result ← process_ticket jira ticket_key;
  mret (results ++ [result]).

(** [main], from the parsed [args.tickets] on. *)
Definition main (c : config) (jira : Jira) (tickets : option (list string))
  : disk * outcome :=
  let checked : option (list string) :=
    match default [] tickets with
    | _ :: _ =>
        if unset (JIRA_SERVER_URL c) then None
        else if unset (EMAIL c) then None
        else if unset (API_KEY c) then None
        else Some (default [] tickets)
    | [] =>
        match validate_config c with
        | inl _ => None
        | inr _ => Some (JIRA_TICKET_KEYS c)
        end
    end in
  match checked with
  | None => ([], SysExit 1)
  | Some ticket_keys =>
      match initialize_jira_client c jira with
      | Raise _ => ([], SysExit 1)
      | Ok _ =>
          match St.for_each (process_all jira) [] ticket_keys [] with
          | (files, Ok results) => (files, Returned results (summarise results))
          | (files, Raise e) => (files, Uncaught e)
          end
      end
  end.

End Retriever.

(* ================================================================= *)
(** ** More vocabulary of the properties *)

Module Spec2.
Import PyStr Re Py Data Classifier Grouper Compiler St Xl Populator Driver Spec.

(** Every key of the grouping is the key of some file of the input. *)
Definition keys_from (csv_files : list csv_file) (g : grouping) : Prop :=
  forall h fw, (h, fw) ∈ g.*1 ->
    exists f k, f ∈ csv_files /\ classify f = Some (h, fw, k).

(** What [cell.value = v] leaves in the cell, if it does not raise. *)
Definition bound (w : World) (v : value) : option value :=
  match bind_value w v with
  | Ok x => Some x
  | Raise _ => None
  end.

(** What the paste leaves in the cell of a value that is not null: the
    value as openpyxl binds it, or its text when binding the value
    raises a TypeError or a ValueError. *)
Definition stored_as (w : World) (v : value) : option value :=
  match bind_value w v with
  | Ok x => Some x
  | Raise e =>
      if is_type_or_value_error e then bound w (VStr (py_str v)) else None
  end.

(** A run of [m] that does not raise leaves the value [o] in the cell at
    [k]. *)
Definition puts {A} (m : M Worksheet A) (k : nat * nat) (o : option value) : Prop :=
  forall sh a, (m sh).2 = Ok a ->
    exists x, o = Some x /\ cells (m sh).1 !! k = Some (Some x).

(** The computation [m] leaves the pivot tables of the sheet alone. *)
Definition keeps_pivots {A} (m : M Worksheet A) : Prop :=
  forall sh, pivots (m sh).1 = pivots sh.

(** A pivot table after it was pointed at [data_range] of
    [data_sheet_name]. *)
Definition rebound (data_sheet_name data_range : string) (p : pivot_table)
  : pivot_table :=
  match p with
  | PivotOnRange _ _ => PivotOnRange data_range data_sheet_name
  | PivotNoSource => PivotNoSource
  | PivotRaising => PivotRaising
  end.

(** The pivot table reads a worksheet range. *)
Definition on_range (p : pivot_table) : bool :=
  match p with
  | PivotOnRange _ _ => true
  | _ => false
  end.

(** The value [v] of the column at position [j] of [df], as the row of
    [df.iterrows()] holds it. *)
Definition as_iterated (df : DataFrame) (j : nat) (v : value) : value :=
  astype (dtype_at j df) (find_common_type (dtypes df)) v.

(** The dtype the column at position [i] takes when the tables, which
    all have it, are concatenated. *)
Definition common_dtype (dfs : list DataFrame) (i : nat) : dtype :=
  find_common_type ((dtype_at i) <$> dfs).

(** The rows of [df], each cell moved to the dtype [to] gives for the
    position of its column. *)
Definition upcast_rows (to : nat -> dtype) (df : DataFrame) : list (list value) :=
  map (imap (fun i v => astype (dtype_at i df) (to i) v)) (rows df).

(** Some kind of the bucket has a readable, non-empty file. *)
Definition has_data (entry : (string * string) * bucket) : bool :=
  existsb (fun kind : string * list csv_file =>
             match compiled kind.2 with Some _ => true | None => false end)
          entry.2.

(** The path of the report of a bucket. *)
Definition report_path (entry : (string * string) * bucket) : string :=
  output_path entry.1.1 entry.1.2.

End Spec2.

(* ================================================================= *)
(** ** Vocabulary of the properties of the retriever *)

Module SpecR.
Import PyStr Py St Config Retriever.

(** The ticket keys a run works on: those of the command line when it
    names some, else those of the configuration. *)
Definition ticket_keys_used (c : config) (tickets : option (list string))
  : list string :=
  match default [] tickets with
  | [] => JIRA_TICKET_KEYS c
  | keys => keys
  end.

(** The file a download leaves behind, if any: the content on success,
    an empty file when the content could not be fetched. *)
Definition file_left (issue : issue) (a : attachment) : option (string * string) :=
  if open_ok a then
    Some (download_path issue a,
          match get a with Ok content => content | Raise _ => "" end)
  else None.

(** The download of the attachment succeeds. *)
Definition downloads (a : attachment) : bool :=
  open_ok a && match get a with Ok _ => true | Raise _ => false end.

(** The name ends with [.csv] in any letter case. *)
Definition is_csv_name (name : string) : Prop :=
  exists stem, lower name = stem +:+ ".csv".

(** The settings [validate_config] reports as missing, in its order. *)
Definition missing_settings (c : config) : list string :=
  (if unset (JIRA_SERVER_URL c) then ["JIRA_SERVER_URL"] else []) ++
  (if unset (EMAIL c) then ["EMAIL"] else []) ++
  (if unset (API_KEY c) then ["API_KEY"] else []).

(** The tallies of one ticket fit together. *)
Definition consistent (r : ticket_result) : Prop :=
  downloaded r <= csv_count r /\
  (found r = false -> csv_count r = 0) /\
  (errors r = [] <->
   found r = true /\ 0 < csv_count r /\ downloaded r = csv_count r).

(** A sample configuration with every setting and no ticket. *)
Definition config_without_tickets : config :=
  {| JIRA_SERVER_URL := Some "https://jira.example"; EMAIL := Some "a@b.c";
     API_KEY := Some "k"; JIRA_TICKET_KEYS := [] |}.

(** A sample configuration that validates. *)
Definition sample_config : config :=
  {| JIRA_SERVER_URL := Some "https://jira.example"; EMAIL := Some "a@b.c";
     API_KEY := Some "k"; JIRA_TICKET_KEYS := ["SYS-9"] |}.

(** A server with one ticket that carries three attachments: one that
    downloads, one whose content cannot be fetched and one that is no
    CSV file. *)
Definition sample_issue : issue :=
  {| key := "SYS-1";
     attachment_field :=
       Some [ {| filename := "run 1.CSV"; open_ok := true; get := Ok "a,b" |};
              {| filename := "run2.csv"; open_ok := true; get := Raise OtherException |};
              {| filename := "notes.txt"; open_ok := true; get := Ok "n" |} ] |}.

Definition sample_jira : Jira :=
  {| connect := Ok tt;
     lookup := fun k => if String.eqb k "SYS-1" then Ok sample_issue
                        else Raise OtherException |}.

End SpecR.

Import PyStr Re Py PyFloat Data Classifier Grouper Compiler St Xl Populator Driver.
Import Spec Samples.
Import Spec2.

(* ================================================================= *)
(** * Properties *)

(** ** Strings *)

Section string_facts.
Import PyStr.

Lemma str_app_nil_l (s : string) : "" +:+ s = s.
Proof. reflexivity. Qed.

Lemma str_app_cons (c : ascii) (a b : string) :
  String c a +:+ b = String c (a +:+ b).
Proof. reflexivity. Qed.

Lemma str_app_assoc (a b c : string) : (a +:+ b) +:+ c = a +:+ (b +:+ c).
Proof.
  induction a as [|x a IH]; [reflexivity|].
  rewrite !str_app_cons. now rewrite IH.
Qed.



(** What [lstrip] removes is whitespace, and what it leaves does not
    start with whitespace. *)
Lemma lstrip_decompose (s : string) :
  exists pre, s = pre +:+ lstrip s /\ all_space pre = true /\
              match lstrip s with
              | EmptyString => True
              | String c _ => is_space c = false
              end.
Proof.
  induction s as [|c s (pre & Hs & Hpre & Hhd)]; simpl.
  - exists ""%string. auto.
  - destruct (is_space c) eqn:Hc.
    + exists (String c pre). rewrite str_app_cons. simpl. rewrite Hc, Hpre.
      split; [now f_equal | auto].
    + exists ""%string. simpl. auto.
Qed.


(** A string stripped on the right does not end with whitespace. *)
Lemma rstrip_last (s r : string) (c : ascii) :
  rstrip s = r +:+ String c "" -> is_space c = false.
Proof.
  revert r. induction s as [|x s IH]; simpl; intros r.
  - destruct r; discriminate.
  - destruct (rstrip s) as [|c' r'] eqn:Hr.
    + destruct (is_space x) eqn:Hx.
      * destruct r; discriminate.
      * destruct r as [|y r]; rewrite ?str_app_cons, ?str_app_nil_l.
        -- intros [= <-]. assumption.
        -- intros [= _ H]. destruct r; discriminate.
    + destruct r as [|y r]; rewrite ?str_app_cons, ?str_app_nil_l.
      * intros [=].
      * intros [= _ H]. eapply IH. eassumption.
Qed.

End string_facts.

(** ** The matcher against the language of a pattern *)

Section regex_facts.
Import PyStr Re.

Lemma match_here_sound (s : string) : forall (p : pattern) (m : string),
  match_here p s = Some m ->
  matches p m /\ exists rest, s = m +:+ rest.
Proof.
  induction s as [|a s IH]; intros [|[c|] p] m; simpl; try discriminate.
  - intros [= <-]. split; [constructor | now exists ""%string].
  - intros [= <-]. split; [constructor | now exists (String a s)].
  - destruct (Ascii.eqb_spec c a) as [->|]; [|discriminate].
    destruct (match_here p s) as [m'|] eqn:E; [|discriminate].
    intros [= <-]. destruct (IH _ _ E) as (Hm & rest & ->).
    split; [now constructor | now exists rest].
  - destruct (is_digit a) eqn:Ha; [|discriminate].
    destruct (match_here (DigitsPlus :: p) s) as [m1|] eqn:E1.
    + intros [= <-]. destruct (IH _ _ E1) as (Hm & rest & ->).
      split; [|now exists rest].
      inversion Hm as [| |ds p' s0 Hne Hds Hs0]; subst.
      rewrite <- str_app_cons.
      constructor; [discriminate | simpl; now rewrite Ha | assumption].
    + destruct (match_here p s) as [m'|] eqn:E; [|discriminate].
      intros [= <-]. destruct (IH _ _ E) as (Hm & rest & ->).
      split; [|now exists rest].
      change (String a m') with (String a "" +:+ m').
      constructor; [discriminate | simpl; now rewrite Ha | assumption].
Qed.

Lemma match_here_complete (p : pattern) (m : string) :
  matches p m -> forall rest, is_Some (match_here p (m +:+ rest)).
Proof.
  induction 1 as [|c p s _ IH|ds p s Hne Hds _ IH]; intros rest.
  - destruct rest; simpl; eauto.
  - rewrite str_app_cons. simpl. rewrite Ascii.eqb_refl.
    destruct (IH rest) as [m' ->]. simpl. eauto.
  - rewrite str_app_assoc.
    induction ds as [|d ds IHds]; [congruence|].
    simpl in Hds. apply andb_prop in Hds as [Hd Hds].
    rewrite str_app_cons. simpl. rewrite Hd.
    destruct (match_here (DigitsPlus :: p) (ds +:+ s +:+ rest)) as [m1|] eqn:E1;
      [eauto|].
    destruct ds as [|d' ds].
    + rewrite str_app_nil_l. destruct (IH rest) as [m' ->]. simpl. eauto.
    + exfalso. destruct IHds as [m1 Hm1]; [discriminate | assumption |].
      rewrite Hm1 in E1. discriminate.
Qed.

Lemma search_unfold (p : pattern) (s : string) :
  search p s =
  match match_here p s with
  | Some m => Some m
  | None => match s with
            | EmptyString => None
            | String _ s' => search p s'
            end
  end.
Proof. destruct s; reflexivity. Qed.

Lemma search_sound (p : pattern) (s m : string) :
  search p s = Some m ->
  matches p m /\ exists pre post, s = pre +:+ m +:+ post.
Proof.
  induction s as [|a s IH]; rewrite search_unfold;
    destruct (match_here p _) as [m'|] eqn:E; try discriminate.
  - intros [= <-]. destruct (match_here_sound _ _ _ E) as (Hm & rest & Hs).
    split; [assumption|]. now exists ""%string, rest.
  - intros [= <-]. destruct (match_here_sound _ _ _ E) as (Hm & rest & Hs).
    split; [assumption|]. now exists ""%string, rest.
  - intros H. destruct (IH H) as (Hm & pre & post & ->).
    split; [assumption|]. now exists (String a pre), post.
Qed.

Lemma search_complete (p : pattern) (s : string) :
  occurs p s -> is_Some (search p s).
Proof.
  intros (pre & m & post & -> & Hm).
  induction pre as [|a pre IH]; rewrite ?str_app_cons, ?str_app_nil_l;
    rewrite search_unfold.
  - destruct (match_here_complete _ _ Hm post) as [m' ->]. eauto.
  - destruct (match_here p (String a (pre +:+ m +:+ post))); eauto.
Qed.

Lemma search_occurs (p : pattern) (s : string) :
  is_Some (search p s) <-> occurs p s.
Proof.
  split; [|apply search_complete].
  intros [m Hm]. destruct (search_sound _ _ _ Hm) as (? & pre & post & ->).
  now exists pre, m, post.
Qed.

Lemma search_none (p : pattern) (s : string) :
  ~ occurs p s -> search p s = None.
Proof.
  intros H. destruct (search p s) eqn:E; [|reflexivity].
  exfalso. apply H, search_occurs. eauto.
Qed.
End regex_facts.

(** ** Classifier *)

Section classifier_facts.
Import PyStr Re Py Data Classifier Spec Samples.

Lemma str_app_nil_r (s : string) : s +:+ "" = s.
Proof.
  induction s as [|c s IH]; [reflexivity|]. rewrite str_app_cons. now rewrite IH.
Qed.

Lemma matches_lit (pre : string) (p : pattern) (s : string) :
  matches p s -> matches (lit pre ++ p) (pre +:+ s).
Proof.
  intros H. induction pre as [|c pre IH]; [assumption|].
  rewrite str_app_cons. simpl. now constructor.
Qed.

Lemma matches_three (pre : string) (a b c : string) :
  a <> "" -> all_digits a = true -> b <> "" -> all_digits b = true ->
  c <> "" -> all_digits c = true ->
  matches (lit pre ++ [DigitsPlus; Chr "_"; DigitsPlus; Chr "_"; DigitsPlus])
          (pre +:+ a +:+ String "_" b +:+ String "_" c).
Proof.
  intros. apply matches_lit.
  constructor; [assumption..|]. constructor.
  constructor; [assumption..|]. constructor.
  rewrite <- (str_app_nil_r c). constructor; [assumption..|]. constructor.
Qed.

Lemma versioned_pattern1 (m : string) :
  versioned "erisc_v" is_underscore m -> matches pattern1 m.
Proof.
  intros (a & b & c & s1 & s2 & -> & [Ha Hda] & [Hb Hdb] & [Hc Hdc] & H1 & H2).
  apply Ascii.eqb_eq in H1 as ->. apply Ascii.eqb_eq in H2 as ->.
  now apply matches_three.
Qed.

Lemma identify_test_type_total (f : csv_file) :
  exists k, identify_test_type f = Ok k.
Proof.
  unfold identify_test_type, try_except.
  destruct (read_csv_nrows1 f) as [df|e]; simpl.
  - destruct (has_column "test_type" df); simpl.
    + destruct (get_column "test_type" df ≫= iloc0) as [v|e]; simpl;
        repeat (match goal with |- context [if ?b then _ else _] => destruct b end);
        eauto.
    + repeat (match goal with |- context [if ?b then _ else _] => destruct b end);
        eauto.
  - repeat (match goal with |- context [if ?b then _ else _] => destruct b end);
      eauto.
Qed.

Lemma identify_test_type_kinds (f : csv_file) (k : string) :
  identify_test_type f = Ok (Some k) -> k = "PRBS" \/ k = "DATA".
Proof.
  unfold identify_test_type, try_except.
  destruct (read_csv_nrows1 f) as [df|e]; simpl.
  - destruct (has_column "test_type" df); simpl.
    + destruct (get_column "test_type" df ≫= iloc0) as [v|e]; simpl;
        repeat (match goal with |- context [if ?b then _ else _] => destruct b end);
        intros [=]; auto.
    + repeat (match goal with |- context [if ?b then _ else _] => destruct b end);
        intros [=]; auto.
  - repeat (match goal with |- context [if ?b then _ else _] => destruct b end);
      intros [=]; auto.
Qed.

Lemma extract_system_hostname_total (f : csv_file) :
  exists h, extract_system_hostname f = Ok h.
Proof.
  unfold extract_system_hostname, try_except.
  destruct (read_csv_nrows1 f) as [df|e]; simpl; [|eauto].
  destruct (has_column "host" df); simpl; [|eauto].
  destruct (get_column "host" df ≫= iloc0) as [v|e]; simpl; [|eauto].
  destruct (isna v || eq_str v ""); eauto.
Qed.

Lemma lacks_host_absent (f : csv_file) :
  lacks_host f -> extract_system_hostname f = Ok None.
Proof.
  unfold extract_system_hostname, try_except.
  intros [(df & -> & Hc)|(e & ->)]; simpl; [|reflexivity].
  now rewrite Hc.
Qed.

End classifier_facts.

(** C2: when both firmware patterns match somewhere in the file name,
    extraction returns what the search for the specific pattern
    [erisc_v\d+_\d+_\d+] returns, a text of that pattern; when neither
    matches anywhere, extraction returns nothing. *)
Theorem firmware_specific_pattern_first (f : Data.csv_file) :
  (Re.occurs Classifier.pattern1 (Data.csv_name f) ->
   Re.occurs Classifier.pattern2 (Data.csv_name f) ->
   exists m, Classifier.extract_firmware_version f = Some m /\
             Re.search Classifier.pattern1 (Data.csv_name f) = Some m /\
             Re.matches Classifier.pattern1 m) /\
  (~ Re.occurs Classifier.pattern1 (Data.csv_name f) ->
   ~ Re.occurs Classifier.pattern2 (Data.csv_name f) ->
   Classifier.extract_firmware_version f = None).
Proof.
  unfold Classifier.extract_firmware_version. split.
  - intros [m Hm]%search_complete _. rewrite Hm.
    exists m. repeat split. now apply search_sound in Hm.
  - intros H1%search_none H2%search_none. now rewrite H1, H2.
Qed.

Lemma firmware_specific_pattern_first_witness :
  exists m, Classifier.extract_firmware_version Samples.prbs_file = Some m /\
            Re.search Classifier.pattern1 (Data.csv_name Samples.prbs_file) = Some m /\
            Re.matches Classifier.pattern1 m.
Proof.
  apply (proj1 (firmware_specific_pattern_first Samples.prbs_file));
    apply search_occurs; vm_compute; eauto.
Defined.

(** C7, as stated, fails: a name that carries the prefix and three
    numeric components separated by dots is not matched by the specific
    pattern, and no version is extracted from it. *)
Lemma dotted_version_not_extracted :
  Spec.somewhere (Spec.versioned "erisc_v" Spec.is_dot_or_underscore)
                 (Data.csv_name Samples.dotted_file) /\
  Re.search Classifier.pattern1 (Data.csv_name Samples.dotted_file) = None /\
  Classifier.extract_firmware_version Samples.dotted_file = None.
Proof.
  split; [|split; reflexivity].
  exists "SYS1_", "erisc_v1.7.103", "_prbs_test.csv". split; [reflexivity|].
  exists "1", "7", "103", "."%char, "."%char.
  repeat split; discriminate.
Qed.

(** C7, amended: for every file name that contains the prefix [erisc_v]
    followed by three numeric components separated by underscores, the
    specific pattern matches and extraction returns its match. *)
Theorem underscore_version_extracted (f : Data.csv_file) :
  Spec.somewhere (Spec.versioned "erisc_v" Spec.is_underscore) (Data.csv_name f) ->
  exists m, Re.search Classifier.pattern1 (Data.csv_name f) = Some m /\
            Classifier.extract_firmware_version f = Some m /\
            Re.matches Classifier.pattern1 m.
Proof.
  intros (pre & m & post & Hname & Hm%versioned_pattern1).
  destruct (search_complete Classifier.pattern1 (Data.csv_name f)) as [m' Hm'].
  { now exists pre, m, post. }
  exists m'. unfold Classifier.extract_firmware_version. rewrite Hm'.
  repeat split. now apply search_sound in Hm'.
Qed.

Lemma underscore_version_extracted_witness :
  exists m, Re.search Classifier.pattern1 (Data.csv_name Samples.prbs_file) = Some m /\
            Classifier.extract_firmware_version Samples.prbs_file = Some m /\
            Re.matches Classifier.pattern1 m.
Proof.
  apply (underscore_version_extracted Samples.prbs_file).
  exists "SYS1_", "erisc_v1_7_103", "_prbs_test.csv". split; [reflexivity|].
  exists "1", "7", "103", "_"%char, "_"%char.
  repeat split; discriminate.
Defined.

(** C9: whenever [identify_test_type] is left to the file name (the
    file cannot be read, has no [test_type] column, has no first row, or
    holds an unknown value) and the lowered name contains [prbs_test],
    the result is PRBS; nothing is asked of the marker [data_test], so
    this holds in particular of a name that contains both. *)
Theorem prbs_marker_checked_first (f : Data.csv_file) :
  Spec.falls_back f ->
  PyStr.contains "prbs_test" (PyStr.lower (Data.csv_name f)) = true ->
  Classifier.identify_test_type f = Py.Ok (Some "PRBS").
Proof.
  intros Hfb Hprbs.
  unfold Classifier.identify_test_type, Py.try_except.
  destruct Hfb as [e Hr|df Hr Hc|df e Hr Hc Hv|df v Hr Hc Hv H1 H2];
    rewrite Hr; simpl; rewrite ?Hc; simpl; rewrite ?Hv; simpl;
    rewrite ?H1, ?H2, Hprbs; reflexivity.
Qed.

Lemma prbs_marker_checked_first_witness :
  PyStr.contains "data_test" (PyStr.lower (Data.csv_name Samples.both_markers_file)) = true /\
  Classifier.identify_test_type Samples.both_markers_file = Py.Ok (Some "PRBS").
Proof.
  split; [reflexivity|].
  apply (prbs_marker_checked_first Samples.both_markers_file); [|reflexivity].
  eapply Spec.fb_unknown; reflexivity.
Defined.

(** ** Dictionaries *)

Section dict_facts.
Context {K V : Type} `{EqDecision K}.
Implicit Types (k : K) (v : V) (d : list (K * V)).

Lemma get_set_eq k v d : Dict.get k (Dict.set k v d) = Some v.
Proof.
  induction d as [|[k' v'] d IH]; simpl.
  - now rewrite decide_True.
  - destruct (decide (k = k')); simpl.
    + now rewrite decide_True.
    + now rewrite decide_False.
Qed.

Lemma get_set_ne k k' v d : k <> k' -> Dict.get k' (Dict.set k v d) = Dict.get k' d.
Proof.
  intros Hne. induction d as [|[k0 v0] d IH]; simpl.
  - rewrite decide_False; [reflexivity | congruence].
  - destruct (decide (k = k0)) as [->|]; simpl.
    + rewrite !decide_False; [reflexivity | congruence..].
    + now rewrite IH.
Qed.

Lemma get_None k d : Dict.get k d = None <-> k ∉ d.*1.
Proof.
  induction d as [|[k' v'] d IH]; simpl.
  - split; [intros _; apply not_elem_of_nil | reflexivity].
  - rewrite not_elem_of_cons. destruct (decide (k = k')); [|tauto].
    split; [discriminate | tauto].
Qed.

Lemma keys_set_present k v d :
  is_Some (Dict.get k d) -> (Dict.set k v d).*1 = d.*1.
Proof.
  induction d as [|[k' v'] d IH]; simpl.
  - intros [? [=]].
  - destruct (decide (k = k')) as [->|]; simpl; [reflexivity|].
    intros H. f_equal. now apply IH.
Qed.

Lemma keys_set_absent k v d :
  Dict.get k d = None -> (Dict.set k v d).*1 = d.*1 ++ [k].
Proof.
  induction d as [|[k' v'] d IH]; simpl; [reflexivity|].
  destruct (decide (k = k')); [discriminate|].
  intros H. simpl. f_equal. now apply IH.
Qed.

Lemma elem_of_get k v d : NoDup d.*1 -> (k, v) ∈ d -> Dict.get k d = Some v.
Proof.
  induction d as [|[k' v'] d IH]; simpl.
  - intros _ []%elem_of_nil.
  - intros [Hk' Hd]%NoDup_cons [[= -> ->]|Hin]%elem_of_cons.
    + now rewrite decide_True.
    + destruct (decide (k = k')) as [->|]; [|auto].
      exfalso. apply Hk'. apply list_elem_of_fmap. now exists (k', v).
Qed.

Lemma NoDup_keys_set k v d : NoDup d.*1 -> NoDup (Dict.set k v d).*1.
Proof.
  intros Hd. destruct (Dict.get k d) as [v0|] eqn:E.
  - rewrite keys_set_present; eauto.
  - rewrite keys_set_absent by assumption.
    apply NoDup_app. repeat split; [assumption| |apply NoDup_singleton].
    intros x Hx ->%list_elem_of_singleton. now apply get_None in E.
Qed.
End dict_facts.

Lemma for_each_app {A S : Type} (body : S -> A -> Py.result S) (s : S) (l1 l2 : list A) :
  Dict.for_each body s (l1 ++ l2) =
  Dict.for_each body s l1 ≫= fun s' => Dict.for_each body s' l2.
Proof.
  revert s. induction l1 as [|a l1 IH]; intros s; simpl; [reflexivity|].
  destruct (body s a) as [s'|e]; simpl; [apply IH | reflexivity].
Qed.

(** ** Grouper *)

Section grouper_facts.

Lemma if_str_Some (o : option string) (s : string) :
  if_str o = Some s -> o = Some s /\ truthy s = true.
Proof.
  destruct o as [s'|]; simpl; [|discriminate].
  destruct (truthy s') eqn:E; [|discriminate]. now intros [= ->].
Qed.

Lemma classify_Some (f : csv_file) (h fw k : string) :
  classify f = Some (h, fw, k) ->
  extract_system_hostname f = Ok (Some h) /\
  extract_firmware_version f = Some fw /\
  identify_test_type f = Ok (Some k) /\
  (k = "PRBS" \/ k = "DATA").
Proof.
  unfold classify.
  destruct (extract_system_hostname f) as [oh|]; [|discriminate].
  destruct (identify_test_type f) as [ok|] eqn:Hk; [|discriminate].
  destruct (if_str oh) as [h'|] eqn:E1; [|discriminate].
  destruct (if_str (extract_firmware_version f)) as [fw'|] eqn:E2; [|discriminate].
  destruct (if_str ok) as [k'|] eqn:E3; [|discriminate].
  intros [= -> -> ->].
  apply if_str_Some in E1 as [-> _], E2 as [-> _], E3 as [-> _].
  repeat split. now apply identify_test_type_kinds in Hk.
Qed.

(** [group_one] in terms of the classification of the file. *)
Lemma group_one_classify (g : grouping) (f : csv_file) :
  group_one g f =
  match classify f with
  | None => Ok g
  | Some (h, fw, k) =>
      let '(b, g1) := Dict.get_default new_bucket (h, fw) g in
      files ← Dict.getitem k b;
      mret (Dict.set (h, fw) (Dict.set k (files ++ [f]) b) g1)
  end.
Proof.
  unfold group_one, classify.
  destruct (extract_system_hostname_total f) as [oh ->].
  destruct (identify_test_type_total f) as [ok ->]. simpl.
  destruct (if_str oh); [|reflexivity].
  destruct (if_str (extract_firmware_version f)); [|reflexivity].
  destruct (if_str ok); reflexivity.
Qed.

Lemma select_files_snoc (h fw k : string) (csv_files : list csv_file) (f : csv_file) :
  select_files h fw k (csv_files ++ [f]) =
  select_files h fw k csv_files ++
  (if decide (classify f = Some (h, fw, k)) then [f] else []).
Proof.
  unfold select_files. rewrite filter_app. reflexivity.
Qed.

Lemma select_files_snoc_other (h fw k : string) (csv_files : list csv_file) (f : csv_file) :
  classify f <> Some (h, fw, k) ->
  select_files h fw k (csv_files ++ [f]) = select_files h fw k csv_files.
Proof.
  intros H. rewrite select_files_snoc, decide_False by assumption.
  apply app_nil_r.
Qed.

Lemma bucket_of_snoc_other (h fw : string) (csv_files : list csv_file) (f : csv_file) :
  (forall k, classify f <> Some (h, fw, k)) ->
  bucket_of h fw (csv_files ++ [f]) = bucket_of h fw csv_files.
Proof.
  intros H. unfold bucket_of. now rewrite !select_files_snoc_other.
Qed.

(** Appending the file to its kind in the bucket of its key gives the
    bucket of that key over the longer list. *)
Lemma bucket_of_snoc (h fw k : string) (csv_files : list csv_file) (f : csv_file) :
  classify f = Some (h, fw, k) ->
  exists files,
    Dict.getitem k (bucket_of h fw csv_files) = Ok files /\
    Dict.set k (files ++ [f]) (bucket_of h fw csv_files) =
    bucket_of h fw (csv_files ++ [f]).
Proof.
  intros Hc. destruct (classify_Some _ _ _ _ Hc) as (_ & _ & _ & [-> | ->]).
  - exists (select_files h fw "PRBS" csv_files). split; [reflexivity|].
    unfold bucket_of.
    rewrite (select_files_snoc _ _ "PRBS"), decide_True by assumption.
    rewrite (select_files_snoc_other _ _ "DATA") by (rewrite Hc; discriminate).
    reflexivity.
  - exists (select_files h fw "DATA" csv_files). split; [reflexivity|].
    unfold bucket_of.
    rewrite (select_files_snoc _ _ "DATA"), decide_True by assumption.
    rewrite (select_files_snoc_other _ _ "PRBS") by (rewrite Hc; discriminate).
    reflexivity.
Qed.

Lemma group_one_skip (g : grouping) (f : csv_file) :
  classify f = None -> group_one g f = Ok g.
Proof. intros H. now rewrite group_one_classify, H. Qed.

Lemma group_one_well_grouped (csv_files : list csv_file) (g : grouping) (f : csv_file) :
  well_grouped csv_files g ->
  exists g', group_one g f = Ok g' /\ well_grouped (csv_files ++ [f]) g'.
Proof.
  intros (Hnd & Hsome & Hnone). rewrite group_one_classify.
  destruct (classify f) as [[[h fw] k]|] eqn:Hc.
  - (* the file is kept *)
    assert (exists g1, Dict.get_default new_bucket (h, fw) g
                       = (bucket_of h fw csv_files, g1) /\
                       NoDup g1.*1 /\
                       forall key, key <> (h, fw) -> Dict.get key g1 = Dict.get key g)
      as (g1 & -> & Hnd1 & Hg1).
    { unfold Dict.get_default.
      destruct (Dict.get (h, fw) g) as [b|] eqn:E.
      - exists g. rewrite (Hsome _ _ _ E). auto.
      - exists (Dict.set (h, fw) new_bucket g).
        unfold bucket_of. rewrite !(Hnone _ _ _ E).
        split; [reflexivity|]. split; [now apply NoDup_keys_set|].
        intros key Hkey. now apply get_set_ne. }
    destruct (bucket_of_snoc _ _ _ csv_files _ Hc) as (files & -> & Hset).
    exists (Dict.set (h, fw) (bucket_of h fw (csv_files ++ [f])) g1).
    split; [now rewrite <- Hset|].
    split; [now apply NoDup_keys_set|]. split.
    + intros h' fw' b.
      destruct (decide ((h, fw) = (h', fw'))) as [[= <- <-]|Hne].
      * rewrite get_set_eq. now intros [= <-].
      * rewrite get_set_ne, Hg1 by congruence. intros Hb%Hsome.
        rewrite bucket_of_snoc_other; [assumption|].
        intros k'. rewrite Hc. congruence.
    + intros h' fw' k'.
      destruct (decide ((h, fw) = (h', fw'))) as [[= <- <-]|Hne].
      * now rewrite get_set_eq.
      * rewrite get_set_ne, Hg1 by congruence. intros Hk.
        rewrite select_files_snoc_other; [now apply Hnone|].
        rewrite Hc. congruence.
  - (* the file is skipped *)
    exists g. split; [reflexivity|]. split; [assumption|]. split.
    + intros h fw b Hb%Hsome.
      rewrite bucket_of_snoc_other; [assumption|]. intros k. now rewrite Hc.
    + intros h fw k Hk. rewrite select_files_snoc_other; [now apply Hnone|].
      now rewrite Hc.
Qed.

Lemma for_each_well_grouped (rest before : list csv_file) (g : grouping) :
  well_grouped before g ->
  exists g', Dict.for_each group_one g rest = Ok g' /\
             well_grouped (before ++ rest) g'.
Proof.
  revert before g. induction rest as [|f rest IH]; intros before g Hg; simpl.
  - exists g. now rewrite app_nil_r.
  - destruct (group_one_well_grouped _ _ f Hg) as (g1 & -> & Hg1). simpl.
    destruct (IH _ _ Hg1) as (g' & Hg' & Hwg).
    exists g'. split; [assumption|]. now rewrite <- app_assoc in Hwg.
Qed.

(** The grouper returns, and returns the grouping of its input. *)
Lemma group_well_grouped (csv_files : list csv_file) :
  exists g, group_csvs_by_system_and_firmware csv_files = Ok g /\
            well_grouped csv_files g.
Proof.
  apply (for_each_well_grouped csv_files [] []).
  split; [constructor|]. split; [discriminate | reflexivity].
Qed.

Lemma well_grouped_bucket (csv_files : list csv_file) (g : grouping)
      (h fw : string) (b : bucket) :
  well_grouped csv_files g -> ((h, fw), b) ∈ g -> b = bucket_of h fw csv_files.
Proof.
  intros (Hnd & Hsome & _) Hin. eapply Hsome, elem_of_get; eassumption.
Qed.

(** A file in a bucket of the grouping classifies to the key and the
    kind it is filed under. *)
Lemma well_grouped_member (csv_files : list csv_file) (g : grouping)
      (h fw k : string) (b : bucket) (l : list csv_file) (f : csv_file) :
  well_grouped csv_files g -> ((h, fw), b) ∈ g -> (k, l) ∈ b -> f ∈ l ->
  l = select_files h fw k csv_files /\ classify f = Some (h, fw, k).
Proof.
  intros Hg Hb Hl Hf. rewrite (well_grouped_bucket _ _ _ _ _ Hg Hb) in Hl.
  unfold bucket_of in Hl.
  assert (l = select_files h fw k csv_files) as ->.
  { apply elem_of_cons in Hl as [[= -> ->]|Hl]; [reflexivity|].
    apply list_elem_of_singleton in Hl as [= -> ->]. reflexivity. }
  split; [reflexivity|].
  now apply list_elem_of_filter in Hf as [Hf _].
Qed.

(** A file that does not classify is in no bucket, whatever list is
    grouped, and the loop passes over it. *)
Lemma unclassified_excluded (f : csv_file) :
  classify f = None ->
  (forall g, group_one g f = Ok g) /\
  (forall before after,
      group_csvs_by_system_and_firmware (before ++ f :: after) =
      group_csvs_by_system_and_firmware (before ++ after)) /\
  (forall csv_files,
      exists g, group_csvs_by_system_and_firmware csv_files = Ok g /\
                ~ grouped_somewhere f g).
Proof.
  intros Hc. split; [|split].
  - intros g. now apply group_one_skip.
  - intros before after. unfold group_csvs_by_system_and_firmware.
    rewrite !for_each_app.
    destruct (Dict.for_each group_one [] before) as [g|e]; simpl; [|reflexivity].
    now rewrite group_one_skip.
  - intros csv_files. destruct (group_well_grouped csv_files) as (g & Hg & Hwg).
    exists g. split; [assumption|].
    intros ([h fw] & b & k & l & Hb & Hl & Hf).
    destruct (well_grouped_member _ _ _ _ _ _ _ _ Hwg Hb Hl Hf) as [_ Hc'].
    congruence.
Qed.

(** Without a [test_type] column and without a marker in the name no
    kind is found. *)
Lemma unmarked_absent (f : csv_file) :
  lacks_test_type f -> unmarked f -> identify_test_type f = Ok None.
Proof.
  intros (df & Hdf & Hcol) [Hp Hd]. unfold identify_test_type.
  rewrite Hdf. simpl. now rewrite Hcol, Hp, Hd.
Qed.

Lemma absent_unclassified (f : csv_file) :
  absent_field f \/ lacks_host f \/ (lacks_test_type f /\ unmarked f) ->
  classify f = None.
Proof.
  intros H. assert (absent_field f) as [Hh|[Hfw|Hk]].
  { destruct H as [H|[H|[H1 H2]]]; [assumption| |].
    - left. now apply lacks_host_absent.
    - right. right. now apply unmarked_absent. }
  - unfold classify. rewrite Hh. now destruct (identify_test_type f).
  - unfold classify. rewrite Hfw.
    destruct (extract_system_hostname f) as [oh|]; [|reflexivity].
    destruct (identify_test_type f) as [ok|]; [|reflexivity].
    simpl. now destruct (if_str oh).
  - unfold classify. rewrite Hk.
    destruct (extract_system_hostname f) as [oh|]; [|reflexivity].
    simpl. destruct (if_str oh); [|reflexivity].
    now destruct (if_str (extract_firmware_version f)).
Qed.
End grouper_facts.

(** C8: the grouper returns a mapping in which every bucket holds
    exactly the two sequences PRBS and DATA, in that order; the sequence
    under kind [k] of the bucket keyed [(h, fw)] is the sub-sequence, in
    input order, of the files that classify to hostname [h], firmware
    version [fw] and kind [k], so every file in it classifies to exactly
    these. *)
Theorem grouper_buckets (csv_files : list csv_file) :
  exists g,
    group_csvs_by_system_and_firmware csv_files = Ok g /\
    forall h fw b, ((h, fw), b) ∈ g ->
      b.*1 = ["PRBS"; "DATA"] /\
      forall k l, (k, l) ∈ b ->
        l = select_files h fw k csv_files /\
        sublist l csv_files /\
        forall f, f ∈ l ->
          extract_system_hostname f = Ok (Some h) /\
          extract_firmware_version f = Some fw /\
          identify_test_type f = Ok (Some k).
Proof.
  destruct (group_well_grouped csv_files) as (g & Hg & Hwg).
  exists g. split; [assumption|].
  intros h fw b Hb. split.
  { now rewrite (well_grouped_bucket _ _ _ _ _ Hwg Hb). }
  intros k l Hl.
  assert (l = select_files h fw k csv_files) as ->.
  { rewrite (well_grouped_bucket _ _ _ _ _ Hwg Hb) in Hl.
    apply elem_of_cons in Hl as [[= -> ->]|Hl]; [reflexivity|].
    apply list_elem_of_singleton in Hl as [= -> ->]. reflexivity. }
  split; [reflexivity|]. split; [apply sublist_filter|].
  intros f [Hf _]%list_elem_of_filter.
  destruct (classify_Some _ _ _ _ Hf) as (? & ? & ? & _). auto.
Qed.

Lemma grouper_buckets_witness :
  exists g,
    group_csvs_by_system_and_firmware [prbs_file; data_file; prbs_file] = Ok g /\
    forall h fw b, ((h, fw), b) ∈ g ->
      b.*1 = ["PRBS"; "DATA"] /\
      forall k l, (k, l) ∈ b ->
        l = select_files h fw k [prbs_file; data_file; prbs_file] /\
        sublist l [prbs_file; data_file; prbs_file] /\
        forall f, f ∈ l ->
          extract_system_hostname f = Ok (Some h) /\
          extract_firmware_version f = Some fw /\
          identify_test_type f = Ok (Some k).
Proof. apply (grouper_buckets [prbs_file; data_file; prbs_file]). Defined.

(** C3, as stated, fails: a file with a host and without a [test_type]
    column, whose name holds the marker prbs_test, is given the kind
    PRBS by its name and is put in a bucket. *)
Lemma missing_test_type_column_grouped :
  lacks_test_type no_test_type_file /\
  identify_test_type no_test_type_file = Ok (Some "PRBS") /\
  exists g,
    group_csvs_by_system_and_firmware [no_test_type_file] = Ok g /\
    grouped_somewhere no_test_type_file g.
Proof.
  split; [eexists; split; reflexivity|].
  split; [vm_compute; reflexivity|].
  exists [(("h1", "erisc_v1_7_103"), [("PRBS", [no_test_type_file]); ("DATA", [])])].
  split; [vm_compute; reflexivity|].
  exists ("h1", "erisc_v1_7_103"), [("PRBS", [no_test_type_file]); ("DATA", [])],
    "PRBS", [no_test_type_file].
  split; [left|]. split; left.
Qed.

(** C3, amended: a file whose classification yields an absent hostname,
    firmware version or test kind (a file without a [host] column or
    with an unreadable body is such a file, and so is a file without a
    [test_type] column whose name holds neither kind marker) raises
    nothing when it is classified, is passed over by the grouping loop,
    which goes on as if the file were not in the input, and is in no
    bucket of any grouping. *)
Theorem absent_file_excluded (f : csv_file) :
  absent_field f \/ lacks_host f \/ (lacks_test_type f /\ unmarked f) ->
  (exists h k, extract_system_hostname f = Ok h /\ identify_test_type f = Ok k) /\
  (forall g, group_one g f = Ok g) /\
  (forall before after,
      group_csvs_by_system_and_firmware (before ++ f :: after) =
      group_csvs_by_system_and_firmware (before ++ after)) /\
  (forall csv_files,
      exists g, group_csvs_by_system_and_firmware csv_files = Ok g /\
                ~ grouped_somewhere f g).
Proof.
  intros H%absent_unclassified. split.
  - destruct (extract_system_hostname_total f) as [h Hh].
    destruct (identify_test_type_total f) as [k Hk]. eauto.
  - now apply unclassified_excluded.
Qed.

Lemma absent_file_excluded_witness :
  (exists h k, extract_system_hostname unmarked_file = Ok h /\
               identify_test_type unmarked_file = Ok k) /\
  (forall g, group_one g unmarked_file = Ok g) /\
  (forall before after,
      group_csvs_by_system_and_firmware (before ++ unmarked_file :: after) =
      group_csvs_by_system_and_firmware (before ++ after)) /\
  (forall csv_files,
      exists g, group_csvs_by_system_and_firmware csv_files = Ok g /\
                ~ grouped_somewhere unmarked_file g).
Proof.
  apply (absent_file_excluded unmarked_file).
  right. right. split.
  - eexists. split; reflexivity.
  - split; vm_compute; reflexivity.
Defined.



(** ** Compiler *)

Section compiler_facts.

Lemma read_one_usable (dataframes : list DataFrame) (f : csv_file) :
  read_one dataframes f = Ok (dataframes ++ option_list (usable f)).
Proof.
  unfold read_one, try_except, usable.
  destruct (read_csv f) as [df|e]; simpl.
  - destruct (df_empty df); simpl; [now rewrite app_nil_r | reflexivity].
  - now rewrite app_nil_r.
Qed.

Lemma for_each_read_one (csv_files : list csv_file) (dataframes : list DataFrame) :
  Dict.for_each read_one dataframes csv_files =
  Ok (dataframes ++ omap usable csv_files).
Proof.
  revert dataframes.
  induction csv_files as [|f csv_files IH]; intros dataframes; simpl.
  - now rewrite app_nil_r.
  - rewrite read_one_usable. simpl. rewrite IH, <- app_assoc.
    now destruct (usable f).
Qed.

Lemma df_len_concat (dfs : list DataFrame) :
  df_len (concat dfs) = sum_list (df_len <$> dfs).
Proof.
  unfold concat, df_len. simpl.
  generalize (union_columns dfs), (concat_dtype dfs). intros cols to.
  induction dfs as [|df dfs IH]; simpl; [reflexivity|].
  rewrite length_app, length_map, IH. reflexivity.
Qed.

Lemma compile_test_data_usable (csv_files : list csv_file) (test_type : string) :
  compile_test_data csv_files test_type = Ok (compiled csv_files).
Proof.
  unfold compile_test_data, compiled. destruct csv_files as [|f csv_files]; [reflexivity|].
  rewrite for_each_read_one. rewrite app_nil_l.
  generalize (omap usable (f :: csv_files)). now intros [].
Qed.
End compiler_facts.

(** C6: the compiler returns; it returns a table exactly when some input
    file is readable and non-empty, and the row count of the table is
    the sum of the row counts of the readable non-empty input files, in
    particular a readable non-empty file compiled twice over gives twice
    the rows it gives compiled once. *)
Theorem compile_no_deduplication
    (csv_files : list csv_file) (A : csv_file) (test_type : string) :
  (exists r, compile_test_data csv_files test_type = Ok r /\
     match r with
     | Some table =>
         omap usable csv_files <> [] /\
         df_len table = sum_list (df_len <$> omap usable csv_files)
     | None => omap usable csv_files = []
     end) /\
  (forall df, usable A = Some df ->
     exists t1 t2,
       compile_test_data [A] test_type = Ok (Some t1) /\
       compile_test_data [A; A] test_type = Ok (Some t2) /\
       df_len t1 = df_len df /\
       df_len t2 = 2 * df_len t1).
Proof.
  split.
  - rewrite compile_test_data_usable. unfold compiled.
    destruct (omap usable csv_files) as [|d dfs] eqn:E; eexists;
      (split; [reflexivity|]); [reflexivity|].
    split; [discriminate|]. apply df_len_concat.
  - intros df Hdf. rewrite !compile_test_data_usable. unfold compiled.
    simpl. rewrite Hdf. simpl.
    exists (concat [df]), (concat [df; df]).
    rewrite !df_len_concat. simpl. repeat split; lia.
Qed.

Lemma compile_no_deduplication_witness :
  exists t1 t2,
    compile_test_data [prbs_file] "PRBS" = Ok (Some t1) /\
    compile_test_data [prbs_file; prbs_file] "PRBS" = Ok (Some t2) /\
    df_len t1 = 2 /\
    df_len t2 = 2 * df_len t1.
Proof.
  apply (proj2 (compile_no_deduplication [] prbs_file "PRBS")
               (sample_table "h1" "TestType.SERDES_PRBS")).
  reflexivity.
Defined.

(** ** Stateful computations *)

Section state_facts.
Context {S : Type}.

Lemma bind_run {A B} (m : M S A) (k : A -> M S B) (s : S) :
  (m ≫= k) s =
  match m s with
  | (s', Ok a) => k a s'
  | (s', Raise e) => (s', Raise e)
  end.
Proof. reflexivity. Qed.

Lemma bind_Ok_inv {A B} (m : M S A) (k : A -> M S B) (s s' : S) (b : B) :
  (m ≫= k) s = (s', Ok b) ->
  exists s1 a, m s = (s1, Ok a) /\ k a s1 = (s', Ok b).
Proof.
  rewrite bind_run. destruct (m s) as [s1 [a|e]]; [eauto | discriminate].
Qed.
End state_facts.

(** ** Cells *)

Section cell_facts.
Variable w : World.

Lemma leaves_bind {A B} (m : M Worksheet A) (f : A -> M Worksheet B) k :
  leaves m k -> (forall a, leaves (f a) k) -> leaves (m ≫= f) k.
Proof.
  intros Hm Hf sh. rewrite bind_run. specialize (Hm sh).
  destruct (m sh) as [sh1 [a|e]]; simpl in *; [|assumption].
  now rewrite Hf.
Qed.

Lemma empties_then_leaves {A B} (m : M Worksheet A) (f : A -> M Worksheet B) k :
  empties m k -> (forall a, leaves (f a) k) -> empties (m ≫= f) k.
Proof.
  intros Hm Hf sh. rewrite bind_run. destruct (Hm sh) as [Hb Hok].
  destruct (m sh) as [sh1 [a|e]]; simpl in *.
  - pose proof (Hf a sh1) as E.
    split; [now rewrite E | intros b _; rewrite E; now apply (Hok a)].
  - split; [assumption | discriminate].
Qed.

Lemma leaves_then_empties {A B} (m : M Worksheet A) (f : A -> M Worksheet B) k :
  leaves m k -> (forall a, empties (f a) k) -> empties (m ≫= f) k.
Proof.
  intros Hm Hf sh. rewrite bind_run. specialize (Hm sh).
  destruct (m sh) as [sh1 [a|e]]; simpl in *.
  - destruct (Hf a sh1) as [Hb Hok]. rewrite Hm in Hb. auto.
  - rewrite Hm. split; [auto | discriminate].
Qed.

Lemma leaves_mret {A} (a : A) k : leaves (mret a) k.
Proof. intros sh. reflexivity. Qed.

Lemma leaves_lift {A} (r : result A) k : leaves (lift r) k.
Proof. intros sh. reflexivity. Qed.

Lemma leaves_cell row col k : k <> (row, col) -> leaves (cell row col) k.
Proof.
  intros Hk sh. unfold cell, modify. simpl.
  destruct (cells sh !! (row, col)); simpl; [reflexivity|].
  now apply lookup_insert_ne.
Qed.

Lemma leaves_set_empty row col k : k <> (row, col) -> leaves (set_empty row col) k.
Proof. intros Hk sh. simpl. now apply lookup_insert_ne. Qed.

Lemma leaves_set_value row col v k :
  k <> (row, col) -> leaves (set_value w row col v) k.
Proof.
  intros Hk sh. unfold set_value.
  destruct (bind_value w v); simpl; [now apply lookup_insert_ne | reflexivity].
Qed.

Lemma leaves_try_with {A} (m h : M Worksheet A) catch k :
  leaves m k -> leaves h k -> leaves (try_with m catch h) k.
Proof.
  intros Hm Hh sh. unfold try_with. specialize (Hm sh).
  destruct (m sh) as [sh1 [a|e]]; simpl in *; [assumption|].
  destruct (catch e); simpl; [|assumption]. now rewrite Hh.
Qed.

Lemma leaves_write_value row col v k :
  k <> (row, col) -> leaves (write_value w row col v) k.
Proof.
  intros Hk. unfold write_value.
  apply leaves_bind; [now apply leaves_cell|]. intros _.
  destruct (isna v); [now apply leaves_set_empty|].
  destruct (is_None v); [now apply leaves_set_empty|].
  apply leaves_try_with; now apply leaves_set_value.
Qed.

(** Writing a null value leaves the cell explicitly empty and raises
    nothing. *)
Lemma write_value_null row col v sh :
  isna v = true ->
  exists sh', write_value w row col v sh = (sh', Ok tt) /\
              cells sh' !! (row, col) = Some None.
Proof.
  intros Hv. unfold write_value. rewrite Hv, bind_run. simpl.
  eexists. split; [reflexivity|]. simpl. apply lookup_insert_eq.
Qed.

Lemma empties_write_value row col v :
  isna v = true -> empties (write_value w row col v) (row, col).
Proof.
  intros Hv sh. destruct (write_value_null row col v sh Hv) as (sh' & -> & Hc).
  simpl. split; [right; assumption | auto].
Qed.

Lemma leaves_write_row row_data row_idx col_idx k :
  k.1 <> row_idx \/ k.2 < col_idx -> leaves (write_row w row_idx col_idx row_data) k.
Proof.
  revert col_idx. induction row_data as [|v row_data IH]; intros col_idx Hk; simpl.
  - apply leaves_mret.
  - apply leaves_bind.
    + apply leaves_write_value. destruct k as [r c]. simpl in Hk.
      intros [= -> ->]. lia.
    + intros _. apply IH. lia.
Qed.

Lemma empties_write_row row_data row_idx col_idx j v :
  row_data !! j = Some v -> isna v = true ->
  empties (write_row w row_idx col_idx row_data) (row_idx, col_idx + j).
Proof.
  revert col_idx j.
  induction row_data as [|v0 row_data IH]; intros col_idx [|j] Hj Hv;
    try discriminate; simpl in *.
  - injection Hj as ->. rewrite Nat.add_0_r.
    apply empties_then_leaves; [now apply empties_write_value|].
    intros _. apply leaves_write_row. simpl. lia.
  - apply leaves_then_empties.
    + apply leaves_write_value. intros [=]. lia.
    + intros _. replace (col_idx + Datatypes.S j) with (Datatypes.S col_idx + j) by lia.
      now apply IH.
Qed.

Lemma leaves_write_rows rows row_idx k :
  k.1 < row_idx -> leaves (write_rows w row_idx rows) k.
Proof.
  revert row_idx. induction rows as [|row_data rows IH]; intros row_idx Hk; simpl.
  - apply leaves_mret.
  - apply leaves_bind.
    + apply leaves_write_row. lia.
    + intros _. apply IH. lia.
Qed.

Lemma empties_write_rows rows row_idx i j row_data v :
  rows !! i = Some row_data -> row_data !! j = Some v -> isna v = true ->
  empties (write_rows w row_idx rows) (row_idx + i, 1 + j).
Proof.
  revert row_idx i.
  induction rows as [|r0 rows IH]; intros row_idx [|i] Hi Hj Hv;
    try discriminate; simpl in Hi.
  - injection Hi as ->. rewrite Nat.add_0_r.
    change (write_rows w row_idx (row_data :: rows))
      with (write_row w row_idx 1 row_data;; write_rows w (Datatypes.S row_idx) rows).
    apply empties_then_leaves; [eapply empties_write_row; eassumption|].
    intros _. apply leaves_write_rows. simpl. lia.
  - change (write_rows w row_idx (r0 :: rows))
      with (write_row w row_idx 1 r0;; write_rows w (Datatypes.S row_idx) rows).
    apply leaves_then_empties.
    + apply leaves_write_row. simpl. lia.
    + intros _. replace (row_idx + Datatypes.S i) with (Datatypes.S row_idx + i) by lia.
      now apply IH.
Qed.

Lemma leaves_write_headers headers col_idx k :
  k.1 <> 1 -> leaves (write_headers w col_idx headers) k.
Proof.
  revert col_idx. induction headers as [|header headers IH]; intros col_idx Hk; simpl.
  - apply leaves_mret.
  - assert (k <> (1, col_idx)) by (intros ->; now apply Hk).
    apply leaves_bind; [now apply leaves_cell|]. intros _.
    apply leaves_bind; [now apply leaves_set_value|]. intros _.
    now apply IH.
Qed.

(** [max_row] bounds the row of every cell. *)
Lemma max_row_bound sh r c v :
  cells sh !! (r, c) = Some v -> r <= max_row sh.
Proof.
  intros H. unfold max_row. etrans; [|apply Nat.le_max_r].
  apply max_list_elem_of_le, list_elem_of_fmap.
  exists ((r, c), v). split; [reflexivity|]. now apply elem_of_map_to_list.
Qed.

(** Deleting the rows 1 to [max_row] leaves no cell in a row from 1
    on. *)
Lemma delete_rows_all sh k :
  1 <= k.1 -> cells (delete_rows 1 (max_row sh) sh) !! k = None.
Proof.
  intros Hk. unfold delete_rows. simpl.
  apply not_elem_of_list_to_map_1.
  intros ([k' v] & -> & Hin)%list_elem_of_fmap.
  apply list_elem_of_omap in Hin as ([[r0 c0] v0] & Hin & Hshift).
  apply elem_of_map_to_list in Hin. apply max_row_bound in Hin.
  destruct (r0 <? 1) eqn:E1.
  - injection Hshift as <- _. simpl in Hk. apply Nat.ltb_lt in E1. lia.
  - assert ((r0 <? Datatypes.S (max_row sh)) = true) as E2
      by (apply Nat.ltb_lt; lia).
    rewrite E2 in Hshift. discriminate.
Qed.

Lemma max_row_positive sh : (0 <? max_row sh) = true.
Proof. apply Nat.ltb_lt. unfold max_row. lia. Qed.

Lemma isna_astype from to v : isna (astype from to v) = isna v.
Proof. now destruct from, to, v. Qed.

(** The rows [iterrows] yields have the cells of the rows of the table,
    each as [as_iterated] gives it. *)
Lemma iterrows_lookup df i j row_data v :
  rows df !! i = Some row_data -> row_data !! j = Some v ->
  exists row, iterrows df !! i = Some row /\ row !! j = Some (as_iterated df j v).
Proof.
  intros Hi Hj. unfold iterrows. rewrite list_lookup_fmap, Hi. simpl.
  eexists. split; [reflexivity|]. now rewrite list_lookup_imap, Hj.
Qed.

Lemma length_iterrows df : length (iterrows df) = length (rows df).
Proof. unfold iterrows. apply length_map. Qed.

(** The cell of a null value after the [try] block of the paste. *)
Lemma paste_body_null data_df sheet i j row_data v :
  rows data_df !! i = Some row_data -> row_data !! j = Some v -> isna v = true ->
  blank (cells (paste_body w data_df sheet).1 !! (2 + i, 1 + j)) /\
  (forall a, (paste_body w data_df sheet).2 = Ok a ->
             cells (paste_body w data_df sheet).1 !! (2 + i, 1 + j) = Some None).
Proof.
  intros Hi Hj Hv.
  destruct (iterrows_lookup _ _ _ _ _ Hi Hj) as (row & Hi' & Hj').
  assert (isna (as_iterated data_df j v) = true) as Hv'
    by (unfold as_iterated; now rewrite isna_astype).
  unfold paste_body. rewrite bind_run. cbn [modify fst snd].
  rewrite max_row_positive.
  match goal with |- context [(?m ≫= ?f) ?s] =>
    assert (empties (m ≫= f) (2 + i, 1 + j)) as He end.
  { apply leaves_then_empties; [apply leaves_write_headers; simpl; lia|].
    intros _. apply empties_then_leaves;
      [eapply (empties_write_rows _ 2); eassumption|].
    intros _. apply leaves_bind; [apply leaves_lift|].
    intros _. apply leaves_mret. }
  destruct (He (delete_rows 1 (max_row sheet) sheet)) as [Hb Hok].
  split; [|assumption].
  apply Hb. left. apply delete_rows_all. simpl. lia.
Qed.

(** A paste that returns an extent could name its last column. *)
Lemma paste_body_Ok data_df sheet sheet' last_row last_col :
  paste_body w data_df sheet = (sheet', Ok (last_row, last_col)) ->
  last_row = df_len data_df + 1 /\ last_col = length (columns data_df) /\
  exists letter, get_column_letter last_col = Ok letter.
Proof.
  unfold paste_body.
  intros (s1 & [] & _ & H)%bind_Ok_inv.
  apply bind_Ok_inv in H as (s2 & [] & _ & H).
  apply bind_Ok_inv in H as (s3 & [] & _ & H).
  apply bind_Ok_inv in H as (s4 & letter & Hl & H).
  injection H as _ <- <-. unfold lift in Hl.
  injection Hl as _ Hl. eauto.
Qed.
End cell_facts.

(** ** Template Populator *)

Section populator_facts.
Variable w : World.

Lemma has_sheet_get (name : string) (wb : Workbook) :
  has_sheet name wb = true -> exists sheet, Dict.get name wb = Some sheet.
Proof.
  unfold has_sheet, sheetnames.
  induction wb as [|[name' sheet] wb IH]; simpl; [discriminate|].
  destruct (decide (name = name')) as [->|Hne]; [eauto|].
  destruct (String.eqb_spec name name'); [contradiction|]. simpl. exact IH.
Qed.

Lemma get_has_sheet (name : string) (wb : Workbook) :
  is_Some (Dict.get name wb) -> has_sheet name wb = true.
Proof.
  unfold has_sheet, sheetnames.
  induction wb as [|[name' sheet] wb IH]; simpl; [intros [? [=]]|].
  destruct (decide (name = name')) as [->|Hne].
  - now rewrite String.eqb_refl.
  - intros H. apply orb_true_intro. right. now apply IH.
Qed.

Lemma sheetnames_set (name : string) (sheet : Worksheet) (wb : Workbook) :
  has_sheet name wb = true -> sheetnames (Dict.set name sheet wb) = sheetnames wb.
Proof.
  intros [sh Hsh]%has_sheet_get. apply keys_set_present. eauto.
Qed.

Lemma paste_missing_sheet (wb : Workbook) (sheet_name : string) (df : DataFrame) :
  has_sheet sheet_name wb = false ->
  paste_data_to_sheet w wb sheet_name df = (wb, (None, None)).
Proof. intros H. unfold paste_data_to_sheet. now rewrite H. Qed.

Lemma paste_sheetnames (wb : Workbook) (sheet_name : string) (df : DataFrame) :
  sheetnames (paste_data_to_sheet w wb sheet_name df).1 = sheetnames wb.
Proof.
  unfold paste_data_to_sheet.
  destruct (has_sheet sheet_name wb) eqn:E; simpl; [|reflexivity].
  destruct (Dict.getitem sheet_name wb) as [sheet|e]; [|reflexivity].
  destruct (paste_body w df sheet) as [sheet' [[lr lc]|e]]; simpl;
    now apply sheetnames_set.
Qed.

(** A paste that returns an extent returns one whose last column has
    letters. *)
Lemma paste_extent (wb wb' : Workbook) (sheet_name : string) (df : DataFrame)
      (last_row last_col : nat) :
  paste_data_to_sheet w wb sheet_name df = (wb', (Some last_row, Some last_col)) ->
  exists letter, get_column_letter last_col = Ok letter.
Proof.
  unfold paste_data_to_sheet.
  destruct (has_sheet sheet_name wb); simpl; [|discriminate].
  destruct (Dict.getitem sheet_name wb) as [sheet|e]; [|discriminate].
  destruct (paste_body w df sheet) as [sheet' [[lr lc]|e]] eqn:E; [|discriminate].
  intros [= _ <- <-]. now apply paste_body_Ok in E as (_ & _ & ?).
Qed.

Lemma update_pivot_sheetnames (wb : Workbook) (pivot_sheet data_sheet range : string) :
  sheetnames (update_pivot_table_source wb pivot_sheet data_sheet range).1 =
  sheetnames wb.
Proof.
  unfold update_pivot_table_source.
  destruct (has_sheet pivot_sheet wb) eqn:E; simpl; [|reflexivity].
  destruct (Dict.getitem pivot_sheet wb) as [sheet|e]; [|reflexivity].
  destruct (pivots sheet); simpl; [reflexivity|]. now apply sheetnames_set.
Qed.

(** The pasting and rebinding of one kind raises nothing and keeps the
    sheets of the workbook. *)
Lemma paste_and_rebind_total (raw_sheet summary_sheet : string)
      (data : option DataFrame) (wb : Workbook) :
  exists wb', paste_and_rebind w raw_sheet summary_sheet data wb = Ok wb' /\
              sheetnames wb' = sheetnames wb.
Proof.
  unfold paste_and_rebind. destruct data as [df|]; [|eauto].
  destruct (df_empty df); [eauto|].
  pose proof (paste_sheetnames wb raw_sheet df) as Hn.
  destruct (paste_data_to_sheet w wb raw_sheet df) as [wb1 [lr lc]] eqn:E.
  simpl in Hn.
  destruct lr as [[|lr]|]; simpl; [eauto| |eauto].
  destruct lc as [[|lc]|]; simpl; [eauto| |eauto].
  destruct (paste_extent _ _ _ _ _ _ E) as [letter ->]. simpl.
  destruct (has_sheet summary_sheet wb1); eexists; (split; [reflexivity|]);
    [|assumption].
  now rewrite update_pivot_sheetnames.
Qed.

(** With the raw-data sheet missing, the kind is left out and the
    workbook stays as it is. *)
Lemma paste_and_rebind_missing (raw_sheet summary_sheet : string)
      (df : DataFrame) (wb : Workbook) :
  has_sheet raw_sheet wb = false ->
  paste_and_rebind w raw_sheet summary_sheet (Some df) wb = Ok wb.
Proof.
  intros H. unfold paste_and_rebind. destruct (df_empty df); [reflexivity|].
  now rewrite paste_missing_sheet.
Qed.

Lemma has_sheet_sheetnames (name : string) (wb wb' : Workbook) :
  sheetnames wb' = sheetnames wb -> has_sheet name wb' = has_sheet name wb.
Proof. unfold has_sheet. now intros ->. Qed.

(** A report is decided by the template, the output directory and the
    save. *)
Lemma generate_excel_summary_run (hostname firmware_version : string)
      (prbs_data data_test_data : option DataFrame) (written : files) :
  match load_template w with
  | None =>
      generate_excel_summary w hostname firmware_version prbs_data data_test_data
                             written = (written, Ok false)
  | Some template =>
      exists wb1 wb2,
        paste_and_rebind w SHEET_RAW_PRBS SHEET_PRBS_SUMMARY prbs_data template
        = Ok wb1 /\
        paste_and_rebind w SHEET_RAW_DATA SHEET_DATA_SUMMARY data_test_data wb1
        = Ok wb2 /\
        sheetnames wb1 = sheetnames template /\
        sheetnames wb2 = sheetnames template /\
        generate_excel_summary w hostname firmware_version prbs_data data_test_data
                               written =
        match mkdir w with
        | Raise x => (written, Raise x)
        | Ok _ =>
            match save w (output_path hostname firmware_version) with
            | Ok _ =>
                (written ++ [(output_path hostname firmware_version, wb2)], Ok true)
            | Raise _ => (written, Ok false)
            end
        end
  end.
Proof.
  unfold generate_excel_summary.
  destruct (load_template w) as [template|]; [|reflexivity].
  destruct (paste_and_rebind_total SHEET_RAW_PRBS SHEET_PRBS_SUMMARY
                                   prbs_data template) as (wb1 & H1 & Hn1).
  destruct (paste_and_rebind_total SHEET_RAW_DATA SHEET_DATA_SUMMARY
                                   data_test_data wb1) as (wb2 & H2 & Hn2).
  exists wb1, wb2. rewrite H1, H2.
  repeat split; [assumption | congruence |].
  rewrite bind_run. cbn [lift]. destruct (mkdir w) as [[]|x]; [|reflexivity].
  rewrite bind_run. cbn [lift]. rewrite bind_run, H2. reflexivity.
Qed.

(** With the output directory in place a report raises nothing. *)
Lemma generate_excel_summary_total (hostname firmware_version : string)
      (prbs_data data_test_data : option DataFrame) (written : files) :
  mkdir w = Ok tt ->
  exists written' ok,
    generate_excel_summary w hostname firmware_version prbs_data data_test_data
                           written = (written', Ok ok).
Proof.
  intros Hmk.
  pose proof (generate_excel_summary_run hostname firmware_version
                prbs_data data_test_data written) as H.
  destruct (load_template w); [|eauto].
  destruct H as (wb1 & wb2 & _ & _ & _ & _ & ->). rewrite Hmk.
  destruct (save w _); eauto.
Qed.

(** The loop body of [main] on a bucket with its two sequences. *)
Lemma process_compiled (s e : nat) (hostname firmware_version : string)
      (prbs_files data_files : list csv_file) (written : files) :
  process w (s, e)
          ((hostname, firmware_version),
           [("PRBS", prbs_files); ("DATA", data_files)]) written =
  match compiled prbs_files, compiled data_files with
  | None, None => (written, Ok (s, e + 1))
  | prbs_data, data_test_data =>
      match generate_excel_summary w hostname firmware_version
                                   prbs_data data_test_data written with
      | (written', Ok true) => (written', Ok (s + 1, e))
      | (written', Ok false) => (written', Ok (s, e + 1))
      | (written', Raise x) => (written', Raise x)
      end
  end.
Proof.
  assert (forall fs kind,
             (if nonempty fs then lift (compile_test_data fs kind) else mret None)
             = (lift (Ok (compiled fs)) : M files _)) as Hc.
  { intros fs kind. rewrite compile_test_data_usable.
    destruct fs; reflexivity. }
  unfold process.
  assert (Dict.getitem "PRBS" [("PRBS", prbs_files); ("DATA", data_files)]
          = Ok prbs_files) as -> by reflexivity.
  assert (Dict.getitem "DATA" [("PRBS", prbs_files); ("DATA", data_files)]
          = Ok data_files) as -> by reflexivity.
  rewrite bind_run. cbn [lift]. rewrite bind_run, Hc. cbn [lift].
  rewrite bind_run. cbn [lift]. rewrite bind_run, Hc. cbn [lift].
  destruct (compiled prbs_files) as [p|], (compiled data_files) as [d|];
    try reflexivity;
    rewrite bind_run;
    destruct (generate_excel_summary _ _ _ _ _ _) as [written' [[|]|x]];
    reflexivity.
Qed.

(** The loop body of [main], case by case: a bucket without data is an
    error; one with data is an error without the template, ends the
    loop with the exception of [mkdir], and is else a success with its
    report saved or an error. *)
Lemma process_run (s e : nat) (hostname firmware_version : string)
      (prbs_files data_files : list csv_file) (written : files) :
  exists report,
    process w (s, e)
            ((hostname, firmware_version),
             [("PRBS", prbs_files); ("DATA", data_files)]) written =
    if has_data ((hostname, firmware_version),
                 [("PRBS", prbs_files); ("DATA", data_files)])
    then
      match load_template w with
      | None => (written, Ok (s, e + 1))
      | Some _ =>
          match mkdir w with
          | Raise x => (written, Raise x)
          | Ok _ =>
              match save w (output_path hostname firmware_version) with
              | Ok _ =>
                  (written ++ [(output_path hostname firmware_version, report)],
                   Ok (s + 1, e))
              | Raise _ => (written, Ok (s, e + 1))
              end
          end
      end
    else (written, Ok (s, e + 1)).
Proof.
  rewrite process_compiled. unfold has_data. cbn [existsb snd].
  pose proof (generate_excel_summary_run hostname firmware_version
                (compiled prbs_files) (compiled data_files) written) as H.
  destruct (load_template w) as [template|].
  - destruct H as (wb1 & wb2 & _ & _ & _ & _ & H). exists wb2.
    destruct (compiled prbs_files) as [p|], (compiled data_files) as [d|];
      cbn [orb]; try reflexivity;
      rewrite H; destruct (mkdir w) as [[]|x]; try reflexivity;
      destruct (save w _); reflexivity.
  - exists [].
    destruct (compiled prbs_files) as [p|], (compiled data_files) as [d|];
      cbn [orb]; try reflexivity; rewrite H; reflexivity.
Qed.
End populator_facts.

(** C5: a null value of the table is written as an explicitly empty
    cell, by a write that raises nothing; after the paste the cell of
    row [i] and column [j] of the table, which is the cell of row
    [i + 2] and column [j + 1] of the sheet, holds no value, so neither
    the text nan nor the text None, and when the paste returns an extent
    the cell is there and empty. *)
Theorem null_cell_written_empty
    (w : World) (workbook : Workbook) (sheet_name : string) (data_df : DataFrame)
    (i j : nat) (row_data : list value) (v : value) :
  has_sheet sheet_name workbook = true ->
  rows data_df !! i = Some row_data -> row_data !! j = Some v -> isna v = true ->
  (forall sh, exists sh',
      write_value w (2 + i) (1 + j) v sh = (sh', Ok tt) /\
      cells sh' !! (2 + i, 1 + j) = Some None) /\
  exists sheet,
    Dict.get sheet_name (paste_data_to_sheet w workbook sheet_name data_df).1
    = Some sheet /\
    blank (cells sheet !! (2 + i, 1 + j)) /\
    cells sheet !! (2 + i, 1 + j) <> Some (Some (VStr "nan")) /\
    cells sheet !! (2 + i, 1 + j) <> Some (Some (VStr "None")) /\
    (forall last_row last_col,
        (paste_data_to_sheet w workbook sheet_name data_df).2
        = (Some last_row, Some last_col) ->
        cells sheet !! (2 + i, 1 + j) = Some None).
Proof.
  intros Hs Hi Hj Hv. split.
  { intros sh. now apply write_value_null. }
  destruct (has_sheet_get _ _ Hs) as [sheet0 Hget].
  destruct (paste_body_null w data_df sheet0 i j row_data v Hi Hj Hv) as [Hb Hok].
  unfold paste_data_to_sheet, Dict.getitem. rewrite Hs, Hget. simpl.
  destruct (paste_body w data_df sheet0) as [sheet [[lr lc]|e]] eqn:E; simpl in *;
    exists sheet; rewrite get_set_eq; (split; [reflexivity|]);
    (split; [assumption|]);
    (split; [destruct Hb as [-> | ->]; discriminate|]);
    (split; [destruct Hb as [-> | ->]; discriminate|]).
  - intros _ _ _. now apply (Hok (lr, lc)).
  - discriminate.
Qed.

Lemma null_cell_written_empty_witness :
  exists sheet,
    Dict.get "raw prbs data"
      (paste_data_to_sheet (world [] full_template) full_template "raw prbs data"
                           (sample_table "h1" "TestType.SERDES_PRBS")).1
    = Some sheet /\
    blank (cells sheet !! (3, 3)) /\
    cells sheet !! (3, 3) <> Some (Some (VStr "nan")) /\
    cells sheet !! (3, 3) <> Some (Some (VStr "None")) /\
    (forall last_row last_col,
        (paste_data_to_sheet (world [] full_template) full_template "raw prbs data"
                             (sample_table "h1" "TestType.SERDES_PRBS")).2
        = (Some last_row, Some last_col) ->
        cells sheet !! (3, 3) = Some None).
Proof.
  apply (null_cell_written_empty
           (world [] full_template) full_template "raw prbs data"
           (sample_table "h1" "TestType.SERDES_PRBS") 1 2
           [VStr "h1"; VStr "TestType.SERDES_PRBS"; VNaN] VNaN);
    reflexivity.
Defined.




(** ** Report Driver *)

Section driver_facts.
Variable w : World.

Lemma well_grouped_two_kinds (csv_files : list csv_file) (g : grouping) :
  well_grouped csv_files g -> two_kinds g.
Proof.
  intros Hg [[h fw] b] Hin.
  rewrite (well_grouped_bucket _ _ _ _ _ Hg Hin). unfold bucket_of. eauto 6.
Qed.

Lemma select_two_kinds (systems : option (list string)) (g : grouping) :
  two_kinds g -> two_kinds (select systems g).
Proof.
  intros Hg entry Hin. apply Hg.
  apply list_elem_of_In in Hin. apply list_elem_of_In.
  unfold select in Hin. now apply filter_In in Hin as [? _].
Qed.

(** One turn of the loop of [main] that returns: one more success and
    one more save, or one more error and no save. *)
Lemma process_step (s e s' e' : nat) (h fw : string)
      (prbs_files data_files : list csv_file) (written written' : files) :
  process w (s, e) ((h, fw), [("PRBS", prbs_files); ("DATA", data_files)]) written
  = (written', Ok (s', e')) ->
  (s' = s + 1 /\ e' = e /\
   exists report, written' = written ++ [(output_path h fw, report)]) \/
  (s' = s /\ e' = e + 1 /\ written' = written).
Proof.
  destruct (process_run w s e h fw prbs_files data_files written) as [report ->].
  destruct (has_data _); [|intros [= <- <- <-]; auto].
  destruct (load_template w); [|intros [= <- <- <-]; auto].
  destruct (mkdir w); [|discriminate].
  destruct (save w _); intros [= <- <- <-]; eauto 6.
Qed.

Lemma for_each_process_written (g : grouping) :
  two_kinds g ->
  forall s e s' e' written written',
    St.for_each (process w) (s, e) g written = (written', Ok (s', e')) ->
    exists extra,
      written' = written ++ extra /\ s' = s + length extra /\
      s' + e' = s + e + length g /\
      extra.*1 `sublist_of` (report_path <$> g).
Proof.
  induction g as [|entry g IH]; intros Hg s e s' e' written written'; simpl.
  - intros [= <- <- <-]. exists []. rewrite app_nil_r. simpl.
    repeat split; [lia | lia | constructor].
  - destruct (Hg entry) as (h & fw & p & d & ->); [left|].
    rewrite bind_run.
    destruct (process w (s, e) _ written) as [written1 [[s1 e1]|x]] eqn:E1;
      [|discriminate].
    intros H.
    destruct (IH (fun x Hx => Hg x (list_elem_of_further _ _ _ Hx))
                 _ _ _ _ _ _ H) as (extra & -> & -> & Hc & Hsub).
    apply process_step in E1 as [(-> & -> & report & ->)|(-> & -> & ->)].
    + exists ((output_path h fw, report) :: extra).
      rewrite <- app_assoc. simpl. repeat split; [lia | lia|].
      now apply sublist_skip.
    + exists extra. repeat split; [lia|]. now apply sublist_cons.
Qed.

(** The loop returns when no turn of it reaches a [mkdir] that
    raises. *)
Lemma for_each_process_returns (g : grouping) :
  two_kinds g ->
  load_template w = None \/ mkdir w = Ok tt \/
  (forall entry, entry ∈ g -> has_data entry = false) ->
  forall s e written,
  exists written' s' e',
    St.for_each (process w) (s, e) g written = (written', Ok (s', e')).
Proof.
  induction g as [|entry g IH]; intros Hg Hsafe s e written; simpl; [eauto|].
  destruct (Hg entry) as (h & fw & p & d & ->); [left|].
  assert (exists written1 s1 e1,
             process w (s, e) ((h, fw), [("PRBS", p); ("DATA", d)]) written
             = (written1, Ok (s1, e1))) as (written1 & s1 & e1 & H1).
  { destruct (process_run w s e h fw p d written) as [report ->].
    destruct (has_data _) eqn:Hd; [|eauto].
    destruct Hsafe as [-> | [-> | Hno]]; [eauto | |].
    - destruct (load_template w); [|eauto]. destruct (save w _); eauto.
    - rewrite Hno in Hd by left. discriminate. }
  rewrite bind_run, H1. apply IH.
  - intros x Hx. apply Hg. now right.
  - destruct Hsafe as [? | [? | Hno]]; auto.
    right. right. intros x Hx. apply Hno. now right.
Qed.

(** The loop ends at the first bucket with data when the template loads
    and [mkdir] raises; nothing was saved by then. *)
Lemma for_each_process_cut (g : grouping) (x : exn) :
  two_kinds g -> is_Some (load_template w) -> mkdir w = Raise x ->
  (exists entry, entry ∈ g /\ has_data entry = true) ->
  forall s e written,
    St.for_each (process w) (s, e) g written = (written, Raise x).
Proof.
  intros Hg [template Ht] Hmk.
  induction g as [|entry g IH]; intros (entry0 & Hin & Hd0) s e written.
  { now apply elem_of_nil in Hin. }
  simpl. destruct (Hg entry) as (h & fw & p & d & ->); [left|].
  rewrite bind_run.
  destruct (process_run w s e h fw p d written) as [report ->].
  rewrite Ht, Hmk.
  destruct (has_data ((h, fw), [("PRBS", p); ("DATA", d)])) eqn:Hd; [reflexivity|].
  apply IH.
  - intros y Hy. apply Hg. now right.
  - exists entry0. split; [|assumption].
    apply elem_of_cons in Hin as [->|Hin]; [congruence | assumption].
Qed.

(** How the loop over the buckets ends. *)
Lemma run_buckets_outcome (g : grouping) :
  two_kinds g ->
  (exists x, is_Some (load_template w) /\ mkdir w = Raise x /\
             (exists entry, entry ∈ g /\ has_data entry = true) /\
             run_buckets w g = ([], Uncaught x)) \/
  (~ (is_Some (load_template w) /\ (exists x, mkdir w = Raise x) /\
      exists entry, entry ∈ g /\ has_data entry = true) /\
   exists written s e,
     run_buckets w g = (written, Returned (length g) s e) /\ s + e = length g).
Proof.
  intros Hg. unfold run_buckets.
  assert (load_template w = None \/ mkdir w = Ok tt \/
          (forall entry, entry ∈ g -> has_data entry = false) ->
          ~ (is_Some (load_template w) /\ (exists x, mkdir w = Raise x) /\
             exists entry, entry ∈ g /\ has_data entry = true) /\
          exists written s e,
            match St.for_each (process w) (0, 0) g [] with
            | (written, Ok (success_count, error_count)) =>
                (written, Returned (length g) success_count error_count)
            | (written, Raise e) => (written, Uncaught e)
            end = (written, Returned (length g) s e) /\ s + e = length g) as Hsafe.
  { intros Hsafe. split.
    - intros ([t Ht] & [x Hx] & entry & Hin & Hd).
      destruct Hsafe as [? | [? | Hno]]; [congruence | congruence|].
      rewrite Hno in Hd by assumption. discriminate.
    - destruct (for_each_process_returns g Hg Hsafe 0 0 [])
        as (written & s & e & Hfe).
      destruct (for_each_process_written g Hg _ _ _ _ _ _ Hfe)
        as (extra & _ & _ & Hc & _).
      rewrite Hfe. exists written, s, e. split; [reflexivity | lia]. }
  destruct (load_template w) as [template|] eqn:Ht; [|auto].
  destruct (mkdir w) as [[]|x] eqn:Hmk; [auto|].
  destruct (existsb has_data g) eqn:Hd.
  - left. exists x. apply existsb_exists in Hd as (entry & Hin & Hd).
    apply list_elem_of_In in Hin.
    assert (exists entry, entry ∈ g /\ has_data entry = true) as Hex by eauto.
    split; [eauto|]. split; [reflexivity|]. split; [assumption|].
    rewrite (for_each_process_cut g x Hg); [reflexivity | | | assumption].
    + rewrite Ht; eauto.
    + assumption.
  - right. apply Hsafe. right. right. intros entry Hin.
    destruct (has_data entry) eqn:He; [|reflexivity].
    assert (existsb has_data g = true) as Hc; [|congruence].
    apply existsb_exists. exists entry. split; [now apply list_elem_of_In | assumption].
Qed.
End driver_facts.

(** C4 fails where the output directory cannot be made: with one PRBS
    file found and grouped in one bucket, no filter, and a template
    that loads, the run ends with the uncaught exception of [mkdir], so
    with a traceback and exit status 1, before any report is saved,
    though none of the three conditions of an early exit holds.  A save
    that raises is counted as an error of the bucket instead, and the
    run returns. *)
Theorem mkdir_failure_ends_run :
  scan_csv_files (world_without_mkdir [prbs_file]) = [prbs_file] /\
  group_csvs_by_system_and_firmware [prbs_file]
  = Ok [(("h1", "erisc_v1_7_103"), [("PRBS", [prbs_file]); ("DATA", [])])] /\
  load_template (world_without_mkdir [prbs_file]) = Some full_template /\
  main (world_without_mkdir [prbs_file]) None = ([], Uncaught OtherException) /\
  exit_status (main (world_without_mkdir [prbs_file]) None).2 = 1 /\
  main (world_without_save [prbs_file]) None = ([], Returned 1 0 1).
Proof. repeat split; vm_compute; reflexivity. Qed.

(* ================================================================= *)
(** * Further properties of the generator *)

(** ** Classifier *)

Section classifier_more.

Lemma matches_pattern1_inv (m : string) :
  matches pattern1 m -> exists m', m = "erisc_" +:+ m' /\ matches pattern2 m'.
Proof.
  unfold pattern1. simpl. intros H.
  do 6 (inversion H as [|? ? ? H'|]; subst; clear H; rename H' into H).
  eexists. split; [reflexivity | exact H].
Qed.

Lemma occurs_pattern1_pattern2 (s : string) :
  occurs pattern1 s -> occurs pattern2 s.
Proof.
  intros (pre & m & post & -> & (m' & -> & Hm')%matches_pattern1_inv).
  exists (pre +:+ "erisc_"), m', post. split; [|assumption].
  now rewrite !str_app_assoc.
Qed.

Lemma matches_pattern2_nonempty (m : string) : matches pattern2 m -> m <> "".
Proof. unfold pattern2. simpl. inversion 1. discriminate. Qed.

Lemma if_str_nonempty (s : string) : s <> "" -> if_str (Some s) = Some s.
Proof. destruct s; [congruence | reflexivity]. Qed.

Lemma strip_head (s : string) (c : ascii) (r : string) :
  strip s = String c r -> is_space c = false.
Proof.
  unfold strip. destruct (lstrip_decompose s) as (pre & _ & _ & Hhd).
  destruct (lstrip s) as [|c0 t]; simpl; [discriminate|].
  destruct (rstrip t); [rewrite Hhd|]; now intros [= <- _].
Qed.

Lemma strip_last (s r : string) (c : ascii) :
  strip s = r +:+ String c "" -> is_space c = false.
Proof. unfold strip. apply rstrip_last. Qed.

(** The hostname, when there is one, is the stripped text of a value
    of the [host] column that is neither null nor the empty string. *)
Lemma extract_system_hostname_Some (f : csv_file) (h : string) :
  extract_system_hostname f = Ok (Some h) ->
  exists v, host_value f v /\ isna v = false /\ eq_str v "" = false /\
            h = strip (py_str v).
Proof.
  unfold extract_system_hostname, try_except, host_value.
  destruct (read_csv_nrows1 f) as [df|e]; simpl; [|discriminate].
  destruct (has_column "host" df) eqn:Hc; simpl; [|discriminate].
  destruct (get_column "host" df ≫= iloc0) as [v|e] eqn:Hv; simpl; [|discriminate].
  destruct (isna v) eqn:Hna; simpl; [discriminate|].
  destruct (eq_str v "") eqn:He; simpl; [discriminate|].
  intros [= <-]. exists v. repeat split; try assumption. exists df. auto.
Qed.
End classifier_more.

(** X1: no firmware version is extracted exactly when the general
    pattern [v\d+_\d+_\d+] occurs nowhere in the file name; an extracted
    version is a non-empty piece of the file name that matches one of
    the two patterns, so the grouper's test [if not firmware_version]
    passes over a file only when nothing was extracted. *)
Theorem firmware_absent_iff_no_general_match (f : csv_file) :
  (extract_firmware_version f = None <-> ~ occurs pattern2 (csv_name f)) /\
  (forall m, extract_firmware_version f = Some m ->
     (matches pattern1 m \/ matches pattern2 m) /\
     (exists pre post, csv_name f = pre +:+ m +:+ post) /\
     m <> "" /\ if_str (Some m) = Some m).
Proof.
  unfold extract_firmware_version. split.
  - destruct (search pattern1 (csv_name f)) as [m|] eqn:E1.
    + split; [discriminate|]. intros H. exfalso. apply H.
      apply occurs_pattern1_pattern2, search_occurs. eauto.
    + destruct (search pattern2 (csv_name f)) as [m|] eqn:E2.
      * split; [discriminate|]. intros H. exfalso. apply H, search_occurs. eauto.
      * split; [|reflexivity]. intros _ [m Hm]%search_occurs. congruence.
  - intros m Hm.
    assert ((matches pattern1 m \/ matches pattern2 m) /\
            exists pre post, csv_name f = pre +:+ m +:+ post) as [Hlang Hsub].
    { destruct (search pattern1 (csv_name f)) as [m1|] eqn:E1.
      - injection Hm as ->. apply search_sound in E1 as [? ?]. auto.
      - destruct (search pattern2 (csv_name f)) as [m2|] eqn:E2; [|discriminate].
        injection Hm as ->. apply search_sound in E2 as [? ?]. auto. }
    assert (m <> "") as Hne.
    { destruct Hlang as [(m' & -> & _)%matches_pattern1_inv|H];
        [discriminate | now apply matches_pattern2_nonempty]. }
    repeat split; try assumption. now apply if_str_nonempty.
Qed.

(** X2: when the first row of the file holds one of the two known
    values in its [test_type] column, that value decides the kind,
    whatever markers the file name carries. *)
Theorem test_type_column_decides (f : csv_file) (df : DataFrame) (v : value) :
  read_csv_nrows1 f = Ok df -> has_column "test_type" df = true ->
  get_column "test_type" df ≫= iloc0 = Ok v ->
  (v = VStr TEST_TYPE_PRBS -> identify_test_type f = Ok (Some "PRBS")) /\
  (v = VStr TEST_TYPE_DATA -> identify_test_type f = Ok (Some "DATA")).
Proof.
  intros Hr Hc Hv. unfold identify_test_type, try_except.
  rewrite Hr. simpl. rewrite Hc. simpl. rewrite Hv. simpl.
  split; intros ->; reflexivity.
Qed.

Lemma test_type_column_decides_witness :
  identify_test_type
    (sample_file "SYS1_erisc_v1_7_103_prbs_test.csv" "h1" "TestType.SIMPLE_PACKET")
  = Ok (Some "DATA").
Proof.
  eapply (test_type_column_decides
            (sample_file "SYS1_erisc_v1_7_103_prbs_test.csv" "h1"
                         "TestType.SIMPLE_PACKET"));
    reflexivity.
Defined.

(** X3: when [identify_test_type] is left to the file name and the
    lowered name does not contain [prbs_test], the kind is DATA if the
    name contains [data_test] and absent otherwise. *)
Theorem fallback_without_prbs_marker (f : csv_file) :
  falls_back f ->
  contains "prbs_test" (lower (csv_name f)) = false ->
  identify_test_type f =
  Ok (if contains "data_test" (lower (csv_name f)) then Some "DATA" else None).
Proof.
  intros Hfb Hprbs. unfold identify_test_type, try_except.
  destruct Hfb as [e Hr|df Hr Hc|df e Hr Hc Hv|df v Hr Hc Hv H1 H2];
    rewrite Hr; simpl; rewrite ?Hc; simpl; rewrite ?Hv; simpl;
    rewrite ?H1, ?H2, Hprbs;
    now destruct (contains "data_test" (lower (csv_name f))).
Qed.

Lemma fallback_without_prbs_marker_witness :
  identify_test_type
    {| csv_name := "SYS1_erisc_v1_7_103_Data_Test.csv";
       read_csv_nrows1 := Raise OtherException;
       read_csv := Raise OtherException |}
  = Ok (Some "DATA").
Proof.
  apply (fallback_without_prbs_marker
           {| csv_name := "SYS1_erisc_v1_7_103_Data_Test.csv";
              read_csv_nrows1 := Raise OtherException;
              read_csv := Raise OtherException |});
    [|reflexivity].
  eapply fb_unreadable. reflexivity.
Defined.

(** X4: an extracted hostname neither starts nor ends with whitespace,
    and it comes from a value of the [host] column that is neither null
    nor the empty string. *)
Theorem hostname_has_no_outer_whitespace (f : csv_file) (h : string) :
  extract_system_hostname f = Ok (Some h) ->
  (forall c r, h = String c r -> is_space c = false) /\
  (forall r c, h = r +:+ String c "" -> is_space c = false) /\
  (exists v, host_value f v /\ isna v = false /\ eq_str v "" = false).
Proof.
  intros (v & Hv & Hna & He & ->)%extract_system_hostname_Some.
  split; [|split].
  - intros c r H. eapply strip_head. eassumption.
  - intros r c H. eapply strip_last. eassumption.
  - eauto.
Qed.

Lemma hostname_has_no_outer_whitespace_witness :
  (forall c r, "h1" = String c r -> is_space c = false) /\
  (forall r c, "h1" = r +:+ String c "" -> is_space c = false) /\
  (exists v, host_value (sample_file "a.csv" " h1  " "x") v /\
             isna v = false /\ eq_str v "" = false).
Proof.
  apply (hostname_has_no_outer_whitespace (sample_file "a.csv" " h1  " "x") "h1").
  reflexivity.
Defined.

(** ** Grouper *)

Section grouper_more.

Lemma get_Some_elem {K V : Type} `{EqDecision K} (k : K) (v : V) (d : list (K * V)) :
  Dict.get k d = Some v -> (k, v) ∈ d.
Proof.
  induction d as [|[k' v'] d IH]; simpl; [discriminate|].
  destruct (decide (k = k')) as [->|].
  - intros [= ->]. left.
  - intros H. right. auto.
Qed.

Lemma keys_set_elem {K V : Type} `{EqDecision K} (k x : K) (v : V) (d : list (K * V)) :
  x ∈ (Dict.set k v d).*1 -> x = k \/ x ∈ d.*1.
Proof.
  destruct (Dict.get k d) as [v0|] eqn:E.
  - rewrite keys_set_present by eauto. auto.
  - rewrite keys_set_absent by assumption.
    intros [Hx|Hx]%elem_of_app; [auto|].
    apply list_elem_of_singleton in Hx. auto.
Qed.

Lemma group_one_keys_from (csv_files : list csv_file) (g g' : grouping) (f : csv_file) :
  keys_from csv_files g -> group_one g f = Ok g' ->
  keys_from (csv_files ++ [f]) g'.
Proof.
  intros Hk. rewrite group_one_classify.
  assert (forall h fw, (h, fw) ∈ g.*1 ->
            exists f0 k, f0 ∈ csv_files ++ [f] /\ classify f0 = Some (h, fw, k)) as Hk'.
  { intros h fw (f0 & k & Hin & Hc)%Hk. exists f0, k.
    split; [apply elem_of_app; auto | assumption]. }
  destruct (classify f) as [[[h fw] k]|] eqn:Hc.
  - unfold Dict.get_default.
    assert (exists f0 k0, f0 ∈ csv_files ++ [f] /\ classify f0 = Some (h, fw, k0)) as Hf.
    { exists f, k. split; [apply elem_of_app; right; left | assumption]. }
    destruct (Dict.get (h, fw) g) as [b|];
      (destruct (Dict.getitem k _) as [files|e]; [|discriminate]);
      intros [= <-] h' fw' Hin;
      repeat (apply keys_set_elem in Hin as [[= -> ->]|Hin]; [exact Hf|]);
      now apply Hk'.
  - intros [= <-]. exact Hk'.
Qed.

Lemma for_each_keys_from (rest before : list csv_file) (g g' : grouping) :
  keys_from before g -> Dict.for_each group_one g rest = Ok g' ->
  keys_from (before ++ rest) g'.
Proof.
  revert before g. induction rest as [|f rest IH]; intros before g Hk; simpl.
  - intros [= <-]. now rewrite app_nil_r.
  - destruct (group_one g f) as [g1|e] eqn:E; simpl; [|discriminate].
    intros H.
    replace (before ++ f :: rest) with ((before ++ [f]) ++ rest)
      by (now rewrite <- app_assoc).
    eapply IH; [|exact H]. eapply group_one_keys_from; eassumption.
Qed.
End grouper_more.

(** X5: the grouper loses no file and builds no bucket twice: the keys
    of the mapping are distinct, and every input file whose hostname,
    firmware version and kind are all present is in the sequence of its
    kind in the bucket of its key. *)
Theorem grouper_keeps_every_classified_file (csv_files : list csv_file) :
  exists g,
    group_csvs_by_system_and_firmware csv_files = Ok g /\
    NoDup g.*1 /\
    forall f h fw k,
      f ∈ csv_files -> classify f = Some (h, fw, k) ->
      exists b l, ((h, fw), b) ∈ g /\ (k, l) ∈ b /\ f ∈ l.
Proof.
  destruct (group_well_grouped csv_files) as (g & Hg & Hnd & Hsome & Hnone).
  exists g. split; [assumption|]. split; [assumption|].
  intros f h fw k Hin Hc.
  assert (f ∈ select_files h fw k csv_files) as Hsel
    by (apply list_elem_of_filter; auto).
  destruct (Dict.get (h, fw) g) as [b|] eqn:E.
  - exists b, (select_files h fw k csv_files).
    split; [now apply get_Some_elem|]. split; [|assumption].
    rewrite (Hsome _ _ _ E). unfold bucket_of.
    destruct (classify_Some _ _ _ _ Hc) as (_ & _ & _ & [-> | ->]);
      [left | right; left].
  - rewrite (Hnone _ _ k E) in Hsel. now apply elem_of_nil in Hsel.
Qed.

(** X6: no bucket is empty: for every key of the mapping some input
    file classifies to that key, and that file is in the bucket. *)
Theorem grouper_buckets_nonempty (csv_files : list csv_file) :
  exists g,
    group_csvs_by_system_and_firmware csv_files = Ok g /\
    forall h fw b, ((h, fw), b) ∈ g ->
      exists f k l, f ∈ csv_files /\ classify f = Some (h, fw, k) /\
                    (k, l) ∈ b /\ f ∈ l.
Proof.
  destruct (group_well_grouped csv_files) as (g & Hg & Hwg).
  exists g. split; [assumption|]. intros h fw b Hb.
  assert (keys_from csv_files g) as Hk.
  { apply (for_each_keys_from csv_files [] []); [|exact Hg].
    intros ? ? []%elem_of_nil. }
  destruct (Hk h fw) as (f & k & Hin & Hc).
  { apply list_elem_of_fmap. now exists ((h, fw), b). }
  exists f, k, (select_files h fw k csv_files).
  split; [assumption|]. split; [assumption|].
  rewrite (well_grouped_bucket _ _ _ _ _ Hwg Hb). unfold bucket_of.
  split; [|apply list_elem_of_filter; auto].
  destruct (classify_Some _ _ _ _ Hc) as (_ & _ & _ & [-> | ->]);
    [left | right; left].
Qed.

(** ** Compiler *)

Section compiler_more.

Lemma existsb_eqb_elem (c : string) (l : list string) :
  existsb (String.eqb c) l = true <-> c ∈ l.
Proof.
  rewrite existsb_exists. split.
  - intros (x & Hin & ->%String.eqb_eq). now apply list_elem_of_In.
  - intros Hin. exists c. split; [now apply list_elem_of_In | apply String.eqb_refl].
Qed.

Lemma filter_new_columns_all (acc cols : list string) :
  (forall c, c ∈ cols -> c ∈ acc) ->
  List.filter (fun c => negb (existsb (String.eqb c) acc)) cols = [].
Proof.
  induction cols as [|c cols IH]; intros H; simpl; [reflexivity|].
  assert (existsb (String.eqb c) acc = true) as ->
    by (apply existsb_eqb_elem, H; left).
  simpl. apply IH. intros x Hx. apply H. now right.
Qed.

Lemma filter_new_columns_nil (cols : list string) :
  List.filter (fun c => negb (existsb (String.eqb c) [])) cols = cols.
Proof. induction cols as [|c cols IH]; simpl; [reflexivity | f_equal; exact IH]. Qed.

Lemma union_columns_same (cols : list string) (dfs : list DataFrame) (acc : list string) :
  (forall df, df ∈ dfs -> columns df = cols) ->
  acc = cols ->
  fold_left
    (fun acc df =>
       acc ++ List.filter (fun c => negb (existsb (String.eqb c) acc)) (columns df))
    dfs acc = cols.
Proof.
  revert acc. induction dfs as [|df dfs IH]; intros acc H ->; simpl; [reflexivity|].
  apply IH; [intros x Hx; apply H; now right|].
  rewrite (H df) by left. rewrite filter_new_columns_all by auto.
  apply app_nil_r.
Qed.

Lemma col_index_lookup (cols : list string) (i : nat) (c : string) :
  NoDup cols -> cols !! i = Some c -> col_index c cols = Some i.
Proof.
  revert i. induction cols as [|c0 cols IH]; intros i Hnd Hi; [discriminate|].
  apply NoDup_cons in Hnd as [Hc0 Hnd]. simpl.
  destruct i as [|i]; simpl in Hi.
  - injection Hi as ->. now rewrite String.eqb_refl.
  - destruct (String.eqb_spec c c0) as [->|_].
    + exfalso. apply Hc0. eapply list_elem_of_lookup_2. eassumption.
    + now rewrite (IH i).
Qed.

Lemma astype_same (t : dtype) (v : value) : astype t t v = v.
Proof. now destruct t, v. Qed.

Lemma dtype_eqb_refl (t : dtype) : dtype_eqb t t = true.
Proof. now destruct t. Qed.

(** Equal dtypes have themselves as their common dtype. *)
Lemma find_common_type_same (t : dtype) (types : list dtype) :
  types <> [] -> (forall x, x ∈ types -> x = t) -> find_common_type types = t.
Proof.
  intros Hne H. destruct types as [|first types]; [contradiction|].
  unfold find_common_type.
  assert (first = t) as -> by (apply H; left).
  assert (forallb (dtype_eqb t) (t :: types) = true) as ->; [|reflexivity].
  apply forallb_forall. intros x Hx%list_elem_of_In.
  rewrite (H x Hx). apply dtype_eqb_refl.
Qed.

(** Under tables with the same columns, a column takes the common dtype
    of its position. *)
Lemma concat_dtype_position (cols : list string) (dfs : list DataFrame)
      (i : nat) (c : string) :
  NoDup cols -> (forall df, df ∈ dfs -> columns df = cols) ->
  cols !! i = Some c ->
  concat_dtype dfs c = common_dtype dfs i.
Proof.
  intros Hnd Hdfs Hc. unfold concat_dtype, common_dtype.
  assert (forallb (has_column c) dfs = true) as ->.
  { apply forallb_forall. intros df Hdf%list_elem_of_In.
    unfold has_column. rewrite (Hdfs df Hdf). apply existsb_eqb_elem.
    eapply list_elem_of_lookup_2. eassumption. }
  f_equal. induction dfs as [|df dfs IH]; [reflexivity|].
  csimpl. unfold column_dtype at 1.
  rewrite (Hdfs df) by left. rewrite (col_index_lookup _ _ _ Hnd Hc). csimpl.
  f_equal. apply IH. intros x Hx. apply Hdfs. now right.
Qed.

(** A row laid out under its own columns is the row, cell by cell moved
    to the dtype of its column. *)
Lemma reindex_same (df : DataFrame) (to : string -> dtype) (to' : nat -> dtype)
      (r : list value) :
  NoDup (columns df) -> length r = length (columns df) ->
  (forall i c, columns df !! i = Some c -> to c = to' i) ->
  reindex (columns df) to df r = imap (fun i v => astype (dtype_at i df) (to' i) v) r.
Proof.
  intros Hnd Hlen Hto. unfold reindex. apply list_eq. intros i.
  rewrite list_lookup_fmap, list_lookup_imap.
  destruct (columns df !! i) as [c|] eqn:Hc; simpl.
  - rewrite (col_index_lookup _ _ _ Hnd Hc), (Hto _ _ Hc). unfold cell_at.
    destruct (r !! i) as [x|] eqn:Hr.
    + simpl. do 2 f_equal. now apply nth_lookup_Some with (d := VNaN) in Hr.
    + apply lookup_ge_None in Hr. apply lookup_lt_Some in Hc. lia.
  - assert (r !! i = None) as ->; [|reflexivity].
    apply lookup_ge_None. apply lookup_ge_None in Hc. lia.
Qed.

(** What [concat] gives on tables with the same columns. *)
Lemma concat_same_columns (cols : list string) (dfs : list DataFrame) :
  NoDup cols -> dfs <> [] ->
  (forall df, df ∈ dfs ->
     columns df = cols /\ forall r, r ∈ rows df -> length r = length cols) ->
  concat dfs =
  {| columns := cols;
     dtypes := imap (fun i _ => common_dtype dfs i) cols;
     rows := flat_map (upcast_rows (common_dtype dfs)) dfs |}.
Proof.
  intros Hnd Hne Hdfs. unfold concat.
  assert (union_columns dfs = cols) as ->.
  { destruct dfs as [|d dfs]; [contradiction|].
    unfold union_columns. simpl. apply union_columns_same.
    - intros df Hdf. apply Hdfs. now right.
    - rewrite filter_new_columns_nil. apply Hdfs. left. }
  assert (forall i c, cols !! i = Some c -> concat_dtype dfs c = common_dtype dfs i)
    as Hto.
  { intros i c Hc. apply (concat_dtype_position cols); [assumption| |assumption].
    intros df Hdf. now apply Hdfs. }
  f_equal.
  - apply list_eq. intros i. rewrite list_lookup_fmap, list_lookup_imap.
    destruct (cols !! i) as [c|] eqn:Hc; [|reflexivity].
    simpl. f_equal. eauto.
  - generalize (concat_dtype dfs), (common_dtype dfs), Hto. clear Hto Hne.
    intros to to' Hto.
    induction dfs as [|df l IH]; simpl; [reflexivity|].
    destruct (Hdfs df) as [Hc Hr]; [left|].
    rewrite IH by (intros x Hx; apply Hdfs; now right). f_equal.
    unfold upcast_rows. clear IH. rewrite <- Hc in *.
    induction (rows df) as [|r rs IHr]; simpl; [reflexivity|].
    rewrite (reindex_same df to to') by (auto; apply Hr; left).
    f_equal. apply IHr. intros x Hx. apply Hr. now right.
Qed.

(** Without a change of dtype the rows stay as they are. *)
Lemma upcast_rows_same (to : nat -> dtype) (df : DataFrame) :
  (forall i, dtype_at i df = to i) -> upcast_rows to df = rows df.
Proof.
  intros H. unfold upcast_rows.
  induction (rows df) as [|r rs IH]; simpl; [reflexivity|].
  f_equal; [|exact IH].
  apply list_eq. intros i. rewrite list_lookup_imap.
  destruct (r !! i); [|reflexivity]. simpl. now rewrite H, astype_same.
Qed.
End compiler_more.

(** X7: a file that cannot be read, or that pandas reads as an empty
    table, contributes nothing: compiling with it gives what compiling
    without it gives. *)
Theorem compile_skips_unusable_file
    (before after : list csv_file) (f : csv_file) (test_type : string) :
  usable f = None ->
  compile_test_data (before ++ f :: after) test_type =
  compile_test_data (before ++ after) test_type.
Proof.
  intros Hf. rewrite !compile_test_data_usable. unfold compiled.
  rewrite !omap_app. simpl. now rewrite Hf.
Qed.

Lemma compile_skips_unusable_file_witness :
  compile_test_data ([prbs_file] ++ unreadable_file :: [data_file]) "PRBS" =
  compile_test_data ([prbs_file] ++ [data_file]) "PRBS".
Proof.
  apply (compile_skips_unusable_file [prbs_file] [data_file] unreadable_file "PRBS").
  reflexivity.
Defined.

(** X8: when the readable non-empty files all carry the same distinct
    column labels and their rows have one cell per column, the compiled
    table has these columns, each with the common dtype of the column
    over the files, and its rows are the rows of the files, file after
    file, each cell moved to the dtype of its column; when the files
    also agree on the dtypes, the dtypes and the rows are unchanged.
    Where they do not, an int64 cell under a column that is float64 in
    another file is the float nearest to it. *)
Theorem compile_same_schema_stacks_rows
    (csv_files : list csv_file) (test_type : string) (cols : list string) :
  NoDup cols ->
  omap usable csv_files <> [] ->
  (forall df, df ∈ omap usable csv_files ->
     columns df = cols /\ forall r, r ∈ rows df -> length r = length cols) ->
  compile_test_data csv_files test_type =
  Ok (Some {| columns := cols;
              dtypes := imap (fun i _ => common_dtype (omap usable csv_files) i) cols;
              rows := flat_map (upcast_rows (common_dtype (omap usable csv_files)))
                               (omap usable csv_files) |}) /\
  (forall types,
     length types = length cols ->
     (forall df, df ∈ omap usable csv_files -> dtypes df = types) ->
     compile_test_data csv_files test_type =
     Ok (Some {| columns := cols;
                 dtypes := types;
                 rows := flat_map rows (omap usable csv_files) |})) /\
  (forall df r i z,
     df ∈ omap usable csv_files -> r ∈ rows df -> r !! i = Some (VInt z) ->
     dtype_at i df = Int64 -> common_dtype (omap usable csv_files) i = Float64 ->
     exists r', r' ∈ upcast_rows (common_dtype (omap usable csv_files)) df /\
                r' !! i = Some (VFloat (float_of_int z))).
Proof.
  intros Hnd Hne Hdfs. rewrite compile_test_data_usable. unfold compiled.
  destruct (omap usable csv_files) as [|d dfs] eqn:E; [contradiction|].
  rewrite (concat_same_columns cols) by assumption.
  split; [reflexivity|]. split.
  - intros types Hlen Htypes.
    assert (forall i, i < length cols -> common_dtype (d :: dfs) i = nth i types Object)
      as Hcommon.
    { intros i Hi. unfold common_dtype. apply find_common_type_same; [discriminate|].
      intros x (df & -> & Hdf)%list_elem_of_fmap. unfold dtype_at.
      now rewrite (Htypes df Hdf). }
    do 2 f_equal. f_equal.
    + apply list_eq. intros i. rewrite list_lookup_imap.
      destruct (cols !! i) as [c|] eqn:Hc; simpl.
      * rewrite Hcommon by (now apply lookup_lt_Some in Hc).
        symmetry. destruct (nth_lookup_or_length types i Object) as [H|H]; [exact H|].
        apply lookup_lt_Some in Hc. lia.
      * symmetry. apply lookup_ge_None. apply lookup_ge_None in Hc. lia.
    + assert (forall df, df ∈ d :: dfs ->
                upcast_rows (common_dtype (d :: dfs)) df = rows df) as Hrows.
      { intros df Hdf. destruct (Hdfs df Hdf) as [_ Hr].
        unfold upcast_rows.
        assert (forall rs, (forall r, r ∈ rs -> length r = length cols) ->
                  map (imap (fun i v => astype (dtype_at i df)
                                              (common_dtype (d :: dfs) i) v)) rs = rs)
          as Hrs; [|now apply Hrs].
        induction rs as [|r rs IH]; intros Hlenr; simpl; [reflexivity|].
        f_equal; [|apply IH; intros x Hx; apply Hlenr; now right].
        apply list_eq. intros i. rewrite list_lookup_imap.
        destruct (r !! i) as [v|] eqn:Hv; [|reflexivity]. simpl.
        rewrite Hcommon.
        - unfold dtype_at. now rewrite (Htypes df Hdf), astype_same.
        - rewrite <- (Hlenr r) by left. now apply lookup_lt_Some in Hv. }
      generalize (common_dtype (d :: dfs)), Hrows. intros to Hto.
      clear -Hto. induction (d :: dfs) as [|df l IH]; simpl; [reflexivity|].
      rewrite (Hto df) by left. f_equal. apply IH. intros x Hx. apply Hto. now right.
  - intros df r i z Hdf Hr Hi Hfrom Hto.
    exists (imap (fun i v => astype (dtype_at i df) (common_dtype (d :: dfs) i) v) r).
    split.
    + unfold upcast_rows. apply list_elem_of_fmap. now exists r.
    + rewrite list_lookup_imap, Hi. simpl. now rewrite Hfrom, Hto.
Qed.

Lemma compile_same_schema_stacks_rows_witness :
  compile_test_data [int_lane_file; unreadable_file; float_lane_file] "PRBS" =
  Ok (Some {| columns := ["lane"];
              dtypes := [Float64];
              rows := [[VFloat (float_of_int 1)];
                       [VFloat (float_of_int 9007199254740993)];
                       [VFloat (FFinite false 5 (-1))]] |}) /\
  py_str (VFloat (float_of_int 9007199254740993)) = "9007199254740992.0".
Proof.
  split; [|vm_compute; reflexivity].
  destruct (compile_same_schema_stacks_rows
              [int_lane_file; unreadable_file; float_lane_file] "PRBS" ["lane"])
    as [H _].
  - apply (bool_decide_eq_true_1 (NoDup ["lane"])). reflexivity.
  - discriminate.
  - intros df Hdf. vm_compute in Hdf.
    repeat (apply elem_of_cons in Hdf as [->|Hdf];
            [split; [reflexivity|]; intros r Hr;
             repeat (apply elem_of_cons in Hr as [->|Hr]; [reflexivity|]);
             now apply elem_of_nil in Hr|]).
    now apply elem_of_nil in Hdf.
  - exact H.
Defined.

(** ** Template Populator *)

Section paste_more.
Variable w : World.

Lemma puts_then_leaves {A B} (m : M Worksheet A) (f : A -> M Worksheet B) k o :
  puts m k o -> (forall a, leaves (f a) k) -> puts (m ≫= f) k o.
Proof.
  intros Hm Hf sh b. rewrite bind_run. specialize (Hm sh).
  destruct (m sh) as [sh1 [a|e]]; simpl in *; [|discriminate].
  intros _. destruct (Hm a eq_refl) as (x & -> & Hx).
  exists x. split; [reflexivity|]. now rewrite (Hf a sh1).
Qed.

Lemma then_puts {A B} (m : M Worksheet A) (f : A -> M Worksheet B) k o :
  (forall a, puts (f a) k o) -> puts (m ≫= f) k o.
Proof.
  intros Hf sh b. rewrite bind_run.
  destruct (m sh) as [sh1 [a|e]]; simpl; [apply Hf | discriminate].
Qed.

Lemma puts_set_value row col v : puts (set_value w row col v) (row, col) (bound w v).
Proof.
  intros sh a. unfold set_value, bound.
  destruct (bind_value w v) as [x|e]; simpl; [|discriminate].
  intros _. exists x. split; [reflexivity | apply lookup_insert_eq].
Qed.

Lemma puts_write_value row col v :
  isna v = false -> puts (write_value w row col v) (row, col) (stored_as w v).
Proof.
  intros Hv. unfold write_value. rewrite Hv.
  assert (is_None v = false) as -> by (now destruct v).
  apply then_puts. intros _ sh a.
  unfold try_with, stored_as.
  pose proof (puts_set_value row col v sh) as H1. unfold bound in H1.
  destruct (set_value w row col v sh) as [sh1 [[]|e]] eqn:E1; simpl in *.
  - destruct (H1 tt eq_refl) as (x & Hx & Hc).
    destruct (bind_value w v); [|discriminate]. eauto.
  - unfold set_value in E1. destruct (bind_value w v) as [x|e']; [discriminate|].
    injection E1 as <- <-.
    destruct (is_type_or_value_error e'); simpl; [|discriminate].
    apply puts_set_value.
Qed.

Lemma puts_write_row row_data row_idx col_idx j v :
  row_data !! j = Some v -> isna v = false ->
  puts (write_row w row_idx col_idx row_data) (row_idx, col_idx + j) (stored_as w v).
Proof.
  revert col_idx j.
  induction row_data as [|v0 row_data IH]; intros col_idx [|j] Hj Hv;
    try discriminate; simpl in *.
  - injection Hj as ->. rewrite Nat.add_0_r.
    apply puts_then_leaves; [now apply puts_write_value|].
    intros _. apply leaves_write_row. simpl. lia.
  - apply then_puts. intros _.
    replace (col_idx + Datatypes.S j) with (Datatypes.S col_idx + j) by lia.
    now apply IH.
Qed.

Lemma puts_write_rows rows row_idx i j row_data v :
  rows !! i = Some row_data -> row_data !! j = Some v -> isna v = false ->
  puts (write_rows w row_idx rows) (row_idx + i, 1 + j) (stored_as w v).
Proof.
  revert row_idx i.
  induction rows as [|r0 rows IH]; intros row_idx [|i] Hi Hj Hv;
    try discriminate; simpl in Hi.
  - injection Hi as ->. rewrite Nat.add_0_r.
    change (write_rows w row_idx (row_data :: rows))
      with (write_row w row_idx 1 row_data;; write_rows w (Datatypes.S row_idx) rows).
    apply puts_then_leaves; [eapply puts_write_row; eassumption|].
    intros _. apply leaves_write_rows. simpl. lia.
  - change (write_rows w row_idx (r0 :: rows))
      with (write_row w row_idx 1 r0;; write_rows w (Datatypes.S row_idx) rows).
    apply then_puts. intros _.
    replace (row_idx + Datatypes.S i) with (Datatypes.S row_idx + i) by lia.
    now apply IH.
Qed.

Lemma leaves_write_headers_left headers col_idx k :
  k.2 < col_idx -> leaves (write_headers w col_idx headers) k.
Proof.
  revert col_idx. induction headers as [|header headers IH]; intros col_idx Hk; simpl.
  - apply leaves_mret.
  - assert (k <> (1, col_idx)) by (intros ->; simpl in Hk; lia).
    apply leaves_bind; [now apply leaves_cell|]. intros _.
    apply leaves_bind; [now apply leaves_set_value|]. intros _.
    apply IH. lia.
Qed.

Lemma puts_write_headers headers col_idx j header :
  headers !! j = Some header ->
  puts (write_headers w col_idx headers) (1, col_idx + j) (bound w (VStr header)).
Proof.
  revert col_idx j.
  induction headers as [|h0 headers IH]; intros col_idx [|j] Hj;
    try discriminate; simpl in Hj.
  - injection Hj as ->. rewrite Nat.add_0_r.
    change (write_headers w col_idx (header :: headers))
      with (cell 1 col_idx;;
            (set_value w 1 col_idx (VStr header);;
             write_headers w (Datatypes.S col_idx) headers)).
    apply then_puts. intros _.
    apply puts_then_leaves; [apply puts_set_value|].
    intros _. apply leaves_write_headers_left. simpl. lia.
  - change (write_headers w col_idx (h0 :: headers))
      with (cell 1 col_idx;;
            (set_value w 1 col_idx (VStr h0);;
             write_headers w (Datatypes.S col_idx) headers)).
    apply then_puts. intros _. apply then_puts. intros _.
    replace (col_idx + Datatypes.S j) with (Datatypes.S col_idx + j) by lia.
    now apply IH.
Qed.

Lemma leaves_write_row_other_row row_data row_idx col_idx k :
  k.1 <> row_idx -> leaves (write_row w row_idx col_idx row_data) k.
Proof. intros H. apply leaves_write_row. auto. Qed.

Lemma leaves_write_rows_below rows row_idx k :
  row_idx + length rows <= k.1 -> leaves (write_rows w row_idx rows) k.
Proof.
  revert row_idx. induction rows as [|row_data rows IH]; intros row_idx Hk; simpl in *.
  - apply leaves_mret.
  - apply leaves_bind.
    + apply leaves_write_row_other_row. lia.
    + intros _. apply IH. lia.
Qed.

(** The steps of the paste after the sheet was cleared. *)
Lemma paste_body_run data_df sheet :
  paste_body w data_df sheet =
  (write_headers w 1 (columns data_df);;
   (write_rows w 2 (iterrows data_df);;
    (lift (get_column_letter (length (columns data_df)));;
     mret (df_len data_df + 1, length (columns data_df)))))
    (delete_rows 1 (max_row sheet) sheet).
Proof.
  unfold paste_body. rewrite bind_run. unfold modify.
  now rewrite max_row_positive.
Qed.

Lemma keeps_pivots_bind {A B} (m : M Worksheet A) (f : A -> M Worksheet B) :
  keeps_pivots m -> (forall a, keeps_pivots (f a)) -> keeps_pivots (m ≫= f).
Proof.
  intros Hm Hf sh. rewrite bind_run. specialize (Hm sh).
  destruct (m sh) as [sh1 [a|e]]; simpl in *; [|assumption].
  now rewrite Hf.
Qed.

Lemma keeps_pivots_cell row col : keeps_pivots (cell row col).
Proof. intros sh. unfold cell, modify. simpl. now destruct (cells sh !! (row, col)). Qed.

Lemma keeps_pivots_set_empty row col : keeps_pivots (set_empty row col).
Proof. intros sh. reflexivity. Qed.

Lemma keeps_pivots_set_value row col v : keeps_pivots (set_value w row col v).
Proof. intros sh. unfold set_value. now destruct (bind_value w v). Qed.

Lemma keeps_pivots_write_value row col v : keeps_pivots (write_value w row col v).
Proof.
  unfold write_value. apply keeps_pivots_bind; [apply keeps_pivots_cell|].
  intros _. destruct (isna v); [apply keeps_pivots_set_empty|].
  destruct (is_None v); [apply keeps_pivots_set_empty|].
  intros sh. unfold try_with.
  pose proof (keeps_pivots_set_value row col v sh) as H1.
  destruct (set_value w row col v sh) as [sh1 [a|e]]; simpl in *; [assumption|].
  destruct (is_type_or_value_error e); simpl; [|assumption].
  now rewrite keeps_pivots_set_value.
Qed.

Lemma keeps_pivots_write_row row_data row_idx col_idx :
  keeps_pivots (write_row w row_idx col_idx row_data).
Proof.
  revert col_idx. induction row_data as [|v row_data IH]; intros col_idx; simpl.
  - intros sh. reflexivity.
  - apply keeps_pivots_bind; [apply keeps_pivots_write_value | auto].
Qed.

Lemma keeps_pivots_write_rows rows row_idx :
  keeps_pivots (write_rows w row_idx rows).
Proof.
  revert row_idx. induction rows as [|row_data rows IH]; intros row_idx; simpl.
  - intros sh. reflexivity.
  - apply keeps_pivots_bind; [apply keeps_pivots_write_row | auto].
Qed.

Lemma keeps_pivots_write_headers headers col_idx :
  keeps_pivots (write_headers w col_idx headers).
Proof.
  revert col_idx. induction headers as [|h headers IH]; intros col_idx; simpl.
  - intros sh. reflexivity.
  - apply keeps_pivots_bind; [apply keeps_pivots_cell|]. intros _.
    apply keeps_pivots_bind; [apply keeps_pivots_set_value | auto].
Qed.

Lemma keeps_pivots_paste_body data_df : keeps_pivots (paste_body w data_df).
Proof.
  intros sh. rewrite paste_body_run.
  rewrite keeps_pivots_bind; [reflexivity|apply keeps_pivots_write_headers|].
  intros _. apply keeps_pivots_bind; [apply keeps_pivots_write_rows|].
  intros _. apply keeps_pivots_bind; intros; intros ?; reflexivity.
Qed.
End paste_more.

Section populator_more.
Variable w : World.

Lemma get_column_letter_Ok (n : nat) (letter : string) :
  get_column_letter n = Ok letter -> 1 <= n <= 26 + 26 * 26 + 26 * 26 * 26.
Proof.
  unfold get_column_letter.
  destruct ((1 <=? n) && (n <=? 26 + 26 * 26 + 26 * 26 * 26)) eqn:E;
    [|discriminate].
  intros _. apply andb_prop in E as [E1 E2].
  apply Nat.leb_le in E1. apply Nat.leb_le in E2. auto.
Qed.

(** What a paste on an existing sheet does to the workbook. *)
Lemma paste_on_sheet (wb : Workbook) (sheet_name : string) (df : DataFrame)
      (old : Worksheet) :
  Dict.get sheet_name wb = Some old ->
  paste_data_to_sheet w wb sheet_name df =
  (Dict.set sheet_name (paste_body w df old).1 wb,
   match (paste_body w df old).2 with
   | Ok (last_row, last_col) => (Some last_row, Some last_col)
   | Raise _ => (None, None)
   end).
Proof.
  intros Hget. unfold paste_data_to_sheet, Dict.getitem.
  rewrite (get_has_sheet _ _ (ltac:(eauto) : is_Some (Dict.get sheet_name wb))).
  rewrite Hget. simpl.
  now destruct (paste_body w df old) as [sheet [[lr lc]|e]].
Qed.

Lemma update_one_rebound (ds range : string) (p : pivot_table) :
  update_one ds range p = (rebound ds range p, on_range p).
Proof. now destruct p. Qed.

Lemma updated_count (ds range : string) (ps : list pivot_table) :
  (0 <? length (List.filter snd (map (update_one ds range) ps)))
  = existsb on_range ps.
Proof.
  induction ps as [|p ps IH]; simpl; [reflexivity|].
  rewrite update_one_rebound. simpl. destruct (on_range p); simpl; auto.
Qed.

Lemma updated_pivots (ds range : string) (ps : list pivot_table) :
  (map (update_one ds range) ps).*1 = rebound ds range <$> ps.
Proof.
  induction ps as [|p ps IH]; simpl; [reflexivity|].
  rewrite update_one_rebound. simpl. f_equal. exact IH.
Qed.
End populator_more.

(** X9: when a paste returns an extent, the extent is the row count
    plus one and the column count, between 1 and 18278; the first row of
    the sheet then holds the column labels and the cell of row [i + 2]
    and column [j + 1] holds the value of row [i] and column [j] that is
    not null, as the row of [iterrows] holds it and as openpyxl binds it
    (for a value, its text when binding the value raises a TypeError or
    ValueError).  The row of [iterrows] holds the value of the table,
    except in a table of int64 and float64 columns only, where an int64
    is held as the float nearest to it. *)
Theorem paste_stores_headers_and_values
    (w : World) (workbook wb' : Workbook) (sheet_name : string) (data_df : DataFrame)
    (last_row last_col : nat) :
  paste_data_to_sheet w workbook sheet_name data_df
  = (wb', (Some last_row, Some last_col)) ->
  last_row = df_len data_df + 1 /\
  last_col = length (columns data_df) /\
  1 <= last_col <= 26 + 26 * 26 + 26 * 26 * 26 /\
  exists sheet,
    Dict.get sheet_name wb' = Some sheet /\
    (forall j header, columns data_df !! j = Some header ->
       exists x, bind_value w (VStr header) = Ok x /\
                 cells sheet !! (1, 1 + j) = Some (Some x)) /\
    (forall i j row_data v,
       rows data_df !! i = Some row_data -> row_data !! j = Some v ->
       isna v = false ->
       (exists x, stored_as w (as_iterated data_df j v) = Some x /\
                  cells sheet !! (2 + i, 1 + j) = Some (Some x)) /\
       (as_iterated data_df j v = v \/
        exists z, v = VInt z /\ dtype_at j data_df = Int64 /\
                  find_common_type (dtypes data_df) = Float64 /\
                  as_iterated data_df j v = VFloat (float_of_int z))).
Proof.
  intros Hp.
  destruct (has_sheet sheet_name workbook) eqn:Hs;
    [|rewrite paste_missing_sheet in Hp by assumption; discriminate].
  destruct (has_sheet_get _ _ Hs) as [old Hold].
  rewrite (paste_on_sheet w _ _ _ _ Hold) in Hp.
  destruct (paste_body w data_df old) as [sheet [[lr lc]|e]] eqn:E;
    simpl in Hp; [|discriminate].
  injection Hp as <- <- <-.
  destruct (paste_body_Ok w _ _ _ _ _ E) as (Hlr & Hlc & letter & Hletter).
  split; [assumption|]. split; [assumption|].
  split; [now apply get_column_letter_Ok in Hletter|].
  exists sheet. split; [apply get_set_eq|].
  rewrite paste_body_run in E.
  set (cleared := delete_rows 1 (max_row old) old) in E.
  split.
  - intros j header Hj.
    assert (puts (write_headers w 1 (columns data_df);;
                  (write_rows w 2 (iterrows data_df);;
                   (lift (get_column_letter (length (columns data_df)));;
                    mret (df_len data_df + 1, length (columns data_df)))))
                 (1, 1 + j) (bound w (VStr header))) as Hputs.
    { apply puts_then_leaves; [now apply puts_write_headers|].
      intros _. apply leaves_bind; [apply leaves_write_rows; simpl; lia|].
      intros _. apply leaves_bind; [apply leaves_lift|].
      intros _. apply leaves_mret. }
    destruct (Hputs cleared (lr, lc)) as (x & Hx & Hc); [now rewrite E|].
    rewrite E in Hc. exists x. split; [|exact Hc].
    unfold bound in Hx. now destruct (bind_value w (VStr header)) as [y|]; simplify_eq.
  - intros i j row_data v Hi Hj Hv. split.
    + destruct (iterrows_lookup _ _ _ _ _ Hi Hj) as (row & Hi' & Hj').
      assert (isna (as_iterated data_df j v) = false) as Hv'
        by (unfold as_iterated; now rewrite isna_astype).
      assert (puts (write_headers w 1 (columns data_df);;
                    (write_rows w 2 (iterrows data_df);;
                     (lift (get_column_letter (length (columns data_df)));;
                      mret (df_len data_df + 1, length (columns data_df)))))
                   (2 + i, 1 + j) (stored_as w (as_iterated data_df j v))) as Hputs.
      { apply then_puts. intros _.
        apply puts_then_leaves; [eapply puts_write_rows; eassumption|].
        intros _. apply leaves_bind; [apply leaves_lift|].
        intros _. apply leaves_mret. }
      destruct (Hputs cleared (lr, lc)) as (x & Hx & Hc); [now rewrite E|].
      rewrite E in Hc. eauto.
    + unfold as_iterated.
      destruct (dtype_at j data_df) eqn:Hfrom; try (left; reflexivity).
      destruct (find_common_type (dtypes data_df)) eqn:Hto; try (left; reflexivity).
      destruct v as [| | |z| | |]; try (left; reflexivity).
      right. exists z. auto.
Qed.

Lemma paste_stores_headers_and_values_witness :
  exists sheet,
    Dict.get "raw prbs data"
      (paste_data_to_sheet (world [] full_template) full_template "raw prbs data"
                           numeric_table).1
    = Some sheet /\
    cells sheet !! (1, 1) = Some (Some (VStr "lane")) /\
    cells sheet !! (2, 1) = Some (Some (VFloat (float_of_int 42))) /\
    cells sheet !! (3, 1) = Some (Some (VFloat (float_of_int 9007199254740992))).
Proof.
  destruct (paste_stores_headers_and_values
              (world [] full_template) full_template
              (paste_data_to_sheet (world [] full_template) full_template
                 "raw prbs data" numeric_table).1
              "raw prbs data" numeric_table 3 2)
    as (_ & _ & _ & sheet & Hget & Hh & Hv); [vm_compute; reflexivity|].
  exists sheet. split; [exact Hget|]. split; [|split].
  - destruct (Hh 0 "lane" eq_refl) as (x & [= <-] & Hc). exact Hc.
  - destruct (Hv 0 0 [VInt 42; VFloat (FFinite false 3 (-1))] (VInt 42)
                 eq_refl eq_refl eq_refl) as ((x & [= <-] & Hc) & _).
    exact Hc.
  - destruct (Hv 1 0 [VInt 9007199254740993; VNaN] (VInt 9007199254740993)
                 eq_refl eq_refl eq_refl) as ((x & [= <-] & Hc) & _).
    exact Hc.
Defined.

(** X10: a paste on a sheet of the workbook overwrites that sheet and
    nothing else: the sheet names and every other sheet stay as they
    are, the pivot tables of the sheet are kept, and whatever the sheet
    held before and whether or not the paste succeeds, no cell is left
    below the last row of the table. *)
Theorem paste_overwrites_only_named_sheet
    (w : World) (workbook : Workbook) (sheet_name : string) (data_df : DataFrame) :
  has_sheet sheet_name workbook = true ->
  sheetnames (paste_data_to_sheet w workbook sheet_name data_df).1
  = sheetnames workbook /\
  (forall other, other <> sheet_name ->
     Dict.get other (paste_data_to_sheet w workbook sheet_name data_df).1
     = Dict.get other workbook) /\
  exists old sheet,
    Dict.get sheet_name workbook = Some old /\
    Dict.get sheet_name (paste_data_to_sheet w workbook sheet_name data_df).1
    = Some sheet /\
    pivots sheet = pivots old /\
    forall k, df_len data_df + 1 < k.1 -> cells sheet !! k = None.
Proof.
  intros Hs. split; [apply paste_sheetnames|].
  destruct (has_sheet_get _ _ Hs) as [old Hold].
  rewrite (paste_on_sheet w _ _ _ _ Hold). simpl. split.
  { intros other Hne. apply get_set_ne. congruence. }
  exists old, (paste_body w data_df old).1.
  split; [assumption|]. split; [apply get_set_eq|].
  split; [apply keeps_pivots_paste_body|].
  intros k Hk. rewrite paste_body_run.
  assert (leaves (write_headers w 1 (columns data_df);;
                  (write_rows w 2 (iterrows data_df);;
                   (lift (get_column_letter (length (columns data_df)));;
                    mret (df_len data_df + 1, length (columns data_df))))) k)
    as Hl.
  { apply leaves_bind; [apply leaves_write_headers; lia|].
    intros _. apply leaves_bind;
      [apply leaves_write_rows_below; rewrite length_iterrows;
       unfold df_len in Hk; lia|].
    intros _. apply leaves_bind; [apply leaves_lift|].
    intros _. apply leaves_mret. }
  rewrite Hl. apply delete_rows_all. lia.
Qed.

Lemma paste_overwrites_only_named_sheet_witness :
  sheetnames (paste_data_to_sheet (world [] full_template) full_template
                "raw data" (sample_table "h1" "x")).1
  = sheetnames full_template /\
  (forall other, other <> "raw data" ->
     Dict.get other (paste_data_to_sheet (world [] full_template) full_template
                       "raw data" (sample_table "h1" "x")).1
     = Dict.get other full_template) /\
  exists old sheet,
    Dict.get "raw data" full_template = Some old /\
    Dict.get "raw data" (paste_data_to_sheet (world [] full_template) full_template
                           "raw data" (sample_table "h1" "x")).1
    = Some sheet /\
    pivots sheet = pivots old /\
    forall k, df_len (sample_table "h1" "x") + 1 < k.1 -> cells sheet !! k = None.
Proof.
  apply (paste_overwrites_only_named_sheet
           (world [] full_template) full_template "raw data" (sample_table "h1" "x")).
  reflexivity.
Defined.

Lemma update_pivot_run
    (workbook : Workbook) (pivot_sheet_name data_sheet_name data_range : string) :
  match Dict.get pivot_sheet_name workbook with
  | None =>
      update_pivot_table_source workbook pivot_sheet_name data_sheet_name data_range
      = (workbook, false)
  | Some sheet =>
      Dict.get pivot_sheet_name
        (update_pivot_table_source workbook pivot_sheet_name
                                   data_sheet_name data_range).1
      = Some {| cells := cells sheet;
                pivots := rebound data_sheet_name data_range <$> pivots sheet |} /\
      (forall other, other <> pivot_sheet_name ->
         Dict.get other
           (update_pivot_table_source workbook pivot_sheet_name
                                      data_sheet_name data_range).1
         = Dict.get other workbook) /\
      (update_pivot_table_source workbook pivot_sheet_name
                                 data_sheet_name data_range).2
      = existsb on_range (pivots sheet)
  end.
Proof.
  unfold update_pivot_table_source, Dict.getitem.
  destruct (Dict.get pivot_sheet_name workbook) as [sheet|] eqn:Hget.
  - rewrite (get_has_sheet _ _ (ltac:(eauto) :
                                  is_Some (Dict.get pivot_sheet_name workbook))).
    simpl. destruct (pivots sheet) as [|p ps] eqn:Hp.
    + simpl. split; [|split; [reflexivity | reflexivity]].
      rewrite Hget. f_equal. destruct sheet; simpl in *. now subst.
    + rewrite updated_count, updated_pivots. cbn [fst snd].
      split; [apply get_set_eq|]. split; [|reflexivity].
      intros other Hne. apply get_set_ne. congruence.
  - destruct (has_sheet pivot_sheet_name workbook) eqn:Hs; [|reflexivity].
    apply has_sheet_get in Hs as [sheet Hsheet]. congruence.
Qed.

(** X11: rebinding the pivot tables of a sheet points every pivot table
    that reads a worksheet range at the new range and sheet, leaves the
    other pivot tables, the cells of the sheet and every other sheet as
    they are, and returns True exactly when the sheet has such a pivot
    table; without the sheet nothing changes and the result is False. *)
Theorem pivot_rebinding
    (workbook : Workbook) (pivot_sheet_name data_sheet_name data_range : string) :
  match Dict.get pivot_sheet_name workbook with
  | None =>
      update_pivot_table_source workbook pivot_sheet_name data_sheet_name data_range
      = (workbook, false)
  | Some sheet =>
      Dict.get pivot_sheet_name
        (update_pivot_table_source workbook pivot_sheet_name
                                   data_sheet_name data_range).1
      = Some {| cells := cells sheet;
                pivots := rebound data_sheet_name data_range <$> pivots sheet |} /\
      (forall other, other <> pivot_sheet_name ->
         Dict.get other
           (update_pivot_table_source workbook pivot_sheet_name
                                      data_sheet_name data_range).1
         = Dict.get other workbook) /\
      (update_pivot_table_source workbook pivot_sheet_name
                                 data_sheet_name data_range).2
      = existsb on_range (pivots sheet)
  end.
Proof. apply update_pivot_run. Qed.


(** X13: a kind whose paste returned an extent has the pivot tables of
    its summary sheet rebound: in the workbook after the paste and the
    rebinding, every range pivot of the summary sheet reads the range
    from A1 to the last column and row of the extent on the raw-data
    sheet, and the raw-data sheet is the pasted one. *)
Theorem pasted_kind_rebinds_summary
    (w : World) (workbook wb1 : Workbook) (raw_sheet summary_sheet : string)
    (df : DataFrame) (summary : Worksheet) (last_row last_col : nat) :
  raw_sheet <> summary_sheet -> df_empty df = false ->
  Dict.get summary_sheet workbook = Some summary ->
  paste_data_to_sheet w workbook raw_sheet df
  = (wb1, (Some last_row, Some last_col)) ->
  exists letter wb2,
    get_column_letter last_col = Ok letter /\
    paste_and_rebind w raw_sheet summary_sheet (Some df) workbook = Ok wb2 /\
    Dict.get summary_sheet wb2
    = Some {| cells := cells summary;
              pivots := rebound raw_sheet ("A1:" +:+ letter +:+ str_of_nat last_row)
                        <$> pivots summary |} /\
    Dict.get raw_sheet wb2 = Dict.get raw_sheet wb1.
Proof.
  intros Hne Hdf Hsum Hp.
  destruct (paste_extent w _ _ _ _ _ _ Hp) as [letter Hletter].
  assert (Dict.get summary_sheet wb1 = Some summary) as Hsum1.
  { destruct (has_sheet raw_sheet workbook) eqn:Hs;
      [|rewrite paste_missing_sheet in Hp by assumption; discriminate].
    destruct (has_sheet_get _ _ Hs) as [old Hold].
    rewrite (paste_on_sheet w _ _ _ _ Hold) in Hp. injection Hp as <- _.
    rewrite get_set_ne by assumption. exact Hsum. }
  assert (exists lr lc, last_row = Datatypes.S lr /\ last_col = Datatypes.S lc)
    as (lr & lc & -> & ->).
  { apply get_column_letter_Ok in Hletter.
    assert (last_row = df_len df + 1).
    { destruct (has_sheet raw_sheet workbook) eqn:Hs;
        [|rewrite paste_missing_sheet in Hp by assumption; discriminate].
      destruct (has_sheet_get _ _ Hs) as [old Hold].
      rewrite (paste_on_sheet w _ _ _ _ Hold) in Hp.
      destruct (paste_body w df old) as [sh [[a b]|]] eqn:E; simpl in Hp;
        [|discriminate].
      injection Hp as _ <- _. now apply paste_body_Ok in E as (? & _). }
    exists (last_row - 1), (last_col - 1). lia. }
  pose proof (update_pivot_run wb1 summary_sheet raw_sheet
                ("A1:" +:+ letter +:+ str_of_nat (Datatypes.S lr))) as Hu.
  rewrite Hsum1 in Hu. destruct Hu as (Hu1 & Hu2 & _).
  exists letter,
    (update_pivot_table_source wb1 summary_sheet raw_sheet
       ("A1:" +:+ letter +:+ str_of_nat (Datatypes.S lr))).1.
  split; [assumption|]. split; [|split; [exact Hu1 | now apply Hu2]].
  unfold paste_and_rebind. rewrite Hdf, Hp. cbn [if_nat]. rewrite Hletter.
  rewrite (get_has_sheet summary_sheet wb1) by eauto. reflexivity.
Qed.

Lemma pasted_kind_rebinds_summary_witness :
  exists letter wb2,
    get_column_letter 3 = Ok letter /\
    paste_and_rebind (world [] full_template) "raw prbs data" "PRBS Summary"
                     (Some (sample_table "h1" "x")) full_template = Ok wb2 /\
    Dict.get "PRBS Summary" wb2
    = Some {| cells := cells summary_sheet;
              pivots := rebound "raw prbs data" ("A1:" +:+ letter +:+ str_of_nat 3)
                        <$> pivots summary_sheet |} /\
    Dict.get "raw prbs data" wb2
    = Dict.get "raw prbs data"
        (paste_data_to_sheet (world [] full_template) full_template
                             "raw prbs data" (sample_table "h1" "x")).1.
Proof.
  apply (pasted_kind_rebinds_summary
           (world [] full_template) full_template
           (paste_data_to_sheet (world [] full_template) full_template
                                "raw prbs data" (sample_table "h1" "x")).1
           "raw prbs data" "PRBS Summary" (sample_table "h1" "x") summary_sheet 3 3).
  - discriminate.
  - reflexivity.
  - reflexivity.
  - vm_compute. reflexivity.
Defined.

(** ** Report Driver *)

Section driver_more.
Variable w : World.

Lemma omap_usable_nil (csv_files : list csv_file) :
  (forall f, f ∈ csv_files -> usable f = None) -> compiled csv_files = None.
Proof.
  intros H. unfold compiled.
  assert (omap usable csv_files = []) as ->; [|reflexivity].
  induction csv_files as [|f l IH]; simpl; [reflexivity|].
  rewrite (H f) by left. apply IH. intros x Hx. apply H. now right.
Qed.

End driver_more.

(** X14: a bucket whose files are all unreadable or empty is counted as
    an error, and no report is written for it. *)
Theorem bucket_without_data_is_error
    (w : World) (s e : nat) (hostname firmware_version : string)
    (prbs_files data_files : list csv_file) (written : files) :
  (forall f, f ∈ prbs_files ++ data_files -> usable f = None) ->
  process w (s, e)
          ((hostname, firmware_version),
           [("PRBS", prbs_files); ("DATA", data_files)]) written
  = (written, Ok (s, e + 1)).
Proof.
  intros H. rewrite process_compiled.
  rewrite !omap_usable_nil; [reflexivity| |];
    intros f Hf; apply H, elem_of_app; auto.
Qed.

Lemma bucket_without_data_is_error_witness :
  process (world [] full_template) (0, 0)
          (("h1", "erisc_v1_7_103"), [("PRBS", [unreadable_file]); ("DATA", [])]) []
  = ([], Ok (0, 0 + 1)).
Proof.
  apply (bucket_without_data_is_error
           (world [] full_template) 0 0 "h1" "erisc_v1_7_103" [unreadable_file] [] []).
  intros f Hf. apply elem_of_app in Hf as [Hf|Hf].
  - apply list_elem_of_singleton in Hf as ->. reflexivity.
  - now apply elem_of_nil in Hf.
Defined.

(** X15: when a run returns, the number of reports written is the
    number of successes, successes and errors add up to the number of
    buckets processed, the buckets processed are the buckets of the
    grouping (those of the listed hostnames when a non-empty filter is
    given), and the reports written are reports of processed buckets, in
    the order of the buckets. *)
Theorem reports_match_successes
    (w : World) (systems : option (list string)) (written : files) (n s e : nat) :
  main w systems = (written, Returned n s e) ->
  length written = s /\ s + e = n /\
  exists g processed,
    group_csvs_by_system_and_firmware (scan_csv_files w) = Ok g /\
    processed = (if nonempty (default [] systems) then select systems g else g) /\
    n = length processed /\
    written.*1 `sublist_of` (report_path <$> processed) /\
    forall entry, entry ∈ processed ->
      entry ∈ g /\ (default [] systems <> [] -> entry.1.1 ∈ default [] systems).
Proof.
  destruct (group_well_grouped (scan_csv_files w)) as (g & Hg & Hwg).
  apply well_grouped_two_kinds in Hwg.
  unfold main. rewrite Hg.
  destruct (nonempty (scan_csv_files w)); cbn [negb]; [|discriminate].
  destruct (nonempty g); cbn [negb]; [|discriminate].
  set (processed := if nonempty (default [] systems) then select systems g else g).
  assert (two_kinds processed) as Htk.
  { unfold processed. destruct (nonempty (default [] systems));
      [now apply select_two_kinds | assumption]. }
  assert (forall entry, entry ∈ processed ->
            entry ∈ g /\ (default [] systems <> [] -> entry.1.1 ∈ default [] systems))
    as Hin.
  { unfold processed. intros entry Hentry.
    destruct (default [] systems) as [|name names] eqn:Hsys; cbn [nonempty] in Hentry.
    - split; [assumption | congruence].
    - apply list_elem_of_In in Hentry. unfold select in Hentry.
      apply filter_In in Hentry as [Hentry Hname].
      split; [now apply list_elem_of_In|]. intros _.
      rewrite Hsys in Hname. now apply existsb_eqb_elem in Hname. }
  assert (run_buckets w processed = (written, Returned n s e) ->
          length written = s /\ s + e = n /\ n = length processed /\
          written.*1 `sublist_of` (report_path <$> processed)) as Hrun.
  { unfold run_buckets.
    destruct (St.for_each (process w) (0, 0) processed [])
      as [written0 [[s0 e0]|x]] eqn:Hfe; [|discriminate].
    intros [= <- <- <- <-].
    destruct (for_each_process_written w processed Htk _ _ _ _ _ _ Hfe)
      as (extra & -> & -> & Hc & Hsub).
    simpl in *. repeat split; [lia | assumption]. }
  intros Hmain.
  assert (run_buckets w processed = (written, Returned n s e)) as Hr.
  { unfold processed.
    destruct (nonempty (default [] systems)); [|exact Hmain].
    destruct (nonempty (select systems g)); cbn [negb] in Hmain;
      [exact Hmain | discriminate]. }
  destruct (Hrun Hr) as (H1 & H2 & H3 & H4).
  split; [assumption|]. split; [assumption|].
  exists g, processed. auto.
Qed.

Lemma reports_match_successes_witness :
  length (main (world [prbs_file; data_file] full_template) None).1 = 1 /\
  1 + 0 = 1.
Proof.
  destruct (reports_match_successes
              (world [prbs_file; data_file] full_template) None
              (main (world [prbs_file; data_file] full_template) None).1 1 1 0)
    as (H1 & H2 & _); [vm_compute; reflexivity|].
  split; assumption.
Defined.

(** X22: how a run ends.  It ends by [sys.exit(1)], with nothing saved,
    exactly when no CSV file is found, or the grouping has no bucket, or
    a non-empty hostname filter selects no bucket.  It ends with an
    uncaught exception, which is the one [mkdir] raised, and with
    nothing saved, exactly when the template loads, [mkdir] raises and
    some bucket to process has data.  Its exit status is non-zero in
    these two cases alone; in every other case the run returns after
    every bucket to process was counted once, as a success or as an
    error. *)
Theorem exit_status_conditions (w : World) (systems : option (list string)) :
  exists g,
    group_csvs_by_system_and_firmware (scan_csv_files w) = Ok g /\
    let processed := if nonempty (default [] systems) then select systems g else g in
    let early :=
      scan_csv_files w = [] \/ g = [] \/
      (default [] systems <> [] /\ select systems g = []) in
    let cut x :=
      is_Some (load_template w) /\ mkdir w = Raise x /\
      exists entry, entry ∈ processed /\ has_data entry = true in
    (early <-> main w systems = ([], SysExit 1)) /\
    (forall x, ~ early /\ cut x <-> main w systems = ([], Uncaught x)) /\
    (exit_status (main w systems).2 <> 0 <-> early \/ exists x, cut x) /\
    (exit_status (main w systems).2 = 0 ->
     exists s e, (main w systems).2 = Returned (length processed) s e /\
                 s + e = length processed).
Proof.
  destruct (group_well_grouped (scan_csv_files w)) as (g & Hg & Hwg).
  exists g. split; [assumption|].
  apply well_grouped_two_kinds in Hwg.
  intros processed early cut.
  assert (two_kinds processed) as Htk.
  { unfold processed. destruct (nonempty (default [] systems));
      [now apply select_two_kinds | assumption]. }
  assert (early -> main w systems = ([], SysExit 1) /\ processed = []) as Hearly.
  { unfold main, processed. rewrite Hg.
    intros [Hs|[Hgn|[Hsys Hsel]]].
    - rewrite Hs. cbn [nonempty negb]. split; [reflexivity|].
      rewrite Hs in Hg. injection Hg as <-.
      now destruct (nonempty (default [] systems)).
    - destruct (nonempty (scan_csv_files w)); cbn [negb]; subst g;
        (split; [reflexivity|]); now destruct (nonempty (default [] systems)).
    - destruct (nonempty (scan_csv_files w)); cbn [negb]; [|split; [reflexivity|]].
      + destruct (nonempty g); cbn [negb]; [|split; [reflexivity|]].
        * destruct (default [] systems); [contradiction|]. cbn [nonempty].
          rewrite Hsel. auto.
        * destruct (default [] systems); [contradiction|]. exact Hsel.
      + destruct (default [] systems); [contradiction|]. exact Hsel. }
  assert (~ early -> main w systems = run_buckets w processed) as Hlate.
  { unfold main, processed, early. rewrite Hg. intros Hne.
    destruct (scan_csv_files w); [exfalso; auto|]. cbn [nonempty negb].
    destruct g; [exfalso; auto|]. cbn [nonempty negb].
    destruct (default [] systems) as [|name names]; cbn [nonempty]; [reflexivity|].
    destruct (select systems _) eqn:Es; [|reflexivity].
    exfalso. apply Hne. right. right. split; [discriminate | reflexivity]. }
  assert (early \/ ~ early) as Hdec.
  { unfold early.
    destruct (scan_csv_files w); [auto|]. destruct g; [auto|].
    destruct (default [] systems) as [|name names] eqn:Hsys.
    - right. intros [[=]|[[=]|[[] _]]]. reflexivity.
    - destruct (select systems _) eqn:Es.
      + left. right. right. split; [discriminate | reflexivity].
      + right. intros [[=]|[[=]|[_ [=]]]]. }
  assert (forall x, cut x -> ~ early) as Hcut.
  { intros x (_ & _ & entry & Hin & _) He.
    destruct (Hearly He) as [_ Hp]. rewrite Hp in Hin. now apply elem_of_nil in Hin. }
  destruct Hdec as [He|Hne].
  - destruct (Hearly He) as [Hm _]. rewrite Hm. cbn [snd exit_status].
    split; [split; auto|].
    split; [intros x; split; [intros [? _]; contradiction | discriminate]|].
    split; [split; auto | discriminate].
  - rewrite (Hlate Hne).
    destruct (run_buckets_outcome w processed Htk)
      as [(x & Ht & Hmk & Hex & ->)|(Hnc & written & s & e & -> & Hc)];
      cbn [snd exit_status].
    + split; [split; [contradiction | discriminate]|].
      split; [|split; [split; [intros _; right; exists x; now repeat split | auto]
                      | discriminate]].
      intros y. split.
      * intros (_ & _ & Hy & _). congruence.
      * intros [= <-]. split; [assumption|]. now repeat split.
    + split; [split; [contradiction | discriminate]|].
      split; [|split; [split; [congruence|] | eauto]].
      * intros y. split; [|discriminate].
        intros (_ & Ht & Hy & Hex). exfalso. apply Hnc. eauto.
      * intros [?|[y (Ht & Hy & Hex)]]; [contradiction|].
        exfalso. apply Hnc. eauto.
Qed.

Lemma exit_status_conditions_witness :
  exists s e,
    (main (world_without_save [prbs_file]) None).2 = Returned 1 s e /\ s + e = 1.
Proof.
  destruct (exit_status_conditions (world_without_save [prbs_file]) None)
    as (g & Hg & _ & _ & _ & H).
  injection Hg as <-. apply H. reflexivity.
Defined.

(* ================================================================= *)
(** * Properties of the retriever *)

Import Config Retriever SpecR.

Section retriever_facts.

Lemma endswith_spec (suffix s : string) :
  endswith suffix s = true <-> exists stem, s = stem +:+ suffix.
Proof.
  split.
  - induction s as [|c s IH]; simpl.
    + rewrite orb_false_r. intros ->%String.eqb_eq. now exists "".
    + intros [->%String.eqb_eq|H]%orb_prop; [now exists ""|].
      destruct (IH H) as [stem ->]. now exists (String c stem).
  - intros [stem ->]. induction stem as [|c stem IH].
    + rewrite str_app_nil_l. destruct suffix; simpl;
        [reflexivity | now rewrite Ascii.eqb_refl, String.eqb_refl].
    + rewrite str_app_cons. simpl. rewrite IH. apply orb_true_r.
Qed.

Lemma fold_csv (l acc : list attachment) :
  fold_left
    (fun csv_attachments attachment =>
       if endswith ".csv" (lower (filename attachment))
       then csv_attachments ++ [attachment]
       else csv_attachments)
    l acc
  = acc ++ List.filter (fun a => endswith ".csv" (lower (filename a))) l.
Proof.
  revert acc. induction l as [|a l IH]; intros acc; simpl.
  - now rewrite app_nil_r.
  - rewrite IH. destruct (endswith ".csv" (lower (filename a))); [|reflexivity].
    now rewrite <- app_assoc.
Qed.

Lemma find_csv_attachments_filter (i : issue) :
  find_csv_attachments i =
  List.filter (fun a => endswith ".csv" (lower (filename a)))
              (default [] (attachment_field i)).
Proof.
  unfold find_csv_attachments.
  destruct (attachment_field i) as [[|a l]|]; try reflexivity.
  now rewrite fold_csv.
Qed.

Lemma list_filter_sublist {A} (P : A -> bool) (l : list A) :
  List.filter P l `sublist_of` l.
Proof.
  induction l as [|x l IH]; simpl; [constructor|].
  destruct (P x); [now apply sublist_skip | now apply sublist_cons].
Qed.

Lemma lower_app (a b : string) : lower (a +:+ b) = lower a +:+ lower b.
Proof.
  induction a as [|c a IH]; [reflexivity|].
  rewrite !str_app_cons. simpl. rewrite str_app_cons. now rewrite IH.
Qed.

Lemma replace_spaces_app (a b : string) :
  replace_spaces (a +:+ b) = replace_spaces a +:+ replace_spaces b.
Proof.
  induction a as [|c a IH]; [reflexivity|].
  rewrite !str_app_cons. simpl. rewrite str_app_cons. now rewrite IH.
Qed.

Lemma lower_char_replace (c : ascii) :
  lower_char (if Ascii.eqb c " " then "_"%char else c) =
  (if Ascii.eqb (lower_char c) " " then "_"%char else lower_char c).
Proof. destruct c as [[] [] [] [] [] [] [] []]; reflexivity. Qed.

Lemma lower_replace_spaces (s : string) :
  lower (replace_spaces s) = replace_spaces (lower s).
Proof.
  induction s as [|c s IH]; simpl; [reflexivity|].
  now rewrite lower_char_replace, IH.
Qed.

Lemma replace_spaces_length (s : string) :
  String.length (replace_spaces s) = String.length s.
Proof. induction s as [|c s IH]; simpl; [reflexivity | now rewrite IH]. Qed.

Lemma replace_spaces_no_space (s pre post : string) :
  replace_spaces s <> pre +:+ String " " post.
Proof.
  revert pre. induction s as [|c s IH]; intros pre; simpl.
  - destruct pre; discriminate.
  - destruct pre as [|p pre]; rewrite ?str_app_nil_l, ?str_app_cons.
    + destruct (Ascii.eqb_spec c " ") as [->|Hc]; [discriminate|].
      intros [= -> _]. now apply Hc.
    + intros [= _ H]. now apply IH in H.
Qed.

Lemma download_one_run (i : issue) (r : ticket_result) (a : attachment) (files : disk) :
  download_one i r a files =
  (files ++ option_list (file_left i a),
   Ok {| ticket_key := ticket_key r; found := found r; csv_count := csv_count r;
         downloaded := downloaded r + (if downloads a then 1 else 0);
         errors := errors r ++
                   (if downloads a then []
                    else ["Failed to download " +:+ filename a]) |}).
Proof.
  unfold download_one. rewrite bind_run.
  unfold download_csv_attachment, file_left, downloads.
  destruct (open_ok a); [destruct (get a) as [content|e]|]; simpl;
    rewrite ?app_nil_r, ?Nat.add_0_r; reflexivity.
Qed.

(** The download loop of [process_ticket] on any list of attachments. *)
Lemma for_each_download (i : issue) (l : list attachment)
      (r : ticket_result) (files : disk) :
  St.for_each (download_one i) r l files =
  (files ++ omap (file_left i) l,
   Ok {| ticket_key := ticket_key r; found := found r; csv_count := csv_count r;
         downloaded := downloaded r + length (List.filter downloads l);
         errors := errors r ++
                   map (fun a => "Failed to download " +:+ filename a)
                       (List.filter (fun a => negb (downloads a)) l) |}).
Proof.
  revert r files. induction l as [|a l IH]; intros r files.
  - simpl. rewrite !app_nil_r, Nat.add_0_r. now destruct r.
  - cbn [St.for_each]. rewrite bind_run, download_one_run, IH.
    cbn [ticket_key found csv_count downloaded errors omap list_omap List.filter].
    rewrite <- !app_assoc.
    destruct (file_left i a), (downloads a); cbn [option_list negb app length map];
      rewrite <- ?Nat.add_assoc, ?Nat.add_0_r; reflexivity.
Qed.

(** What [process_ticket] returns and leaves on disk. *)
Lemma process_ticket_run (jira : Jira) (k : string) (files : disk) :
  exists r files',
    process_ticket jira k files = (files', Ok r) /\
    ticket_key r = k /\
    match retrieve_ticket jira k with
    | None =>
        found r = false /\ csv_count r = 0 /\ downloaded r = 0 /\
        length (errors r) = 1 /\ files' = files
    | Some i =>
        found r = true /\
        csv_count r = length (find_csv_attachments i) /\
        downloaded r = length (List.filter downloads (find_csv_attachments i)) /\
        length (errors r) =
          (if nonempty (find_csv_attachments i)
           then length (List.filter (fun a => negb (downloads a))
                                    (find_csv_attachments i))
           else 1) /\
        files' = files ++ omap (file_left i) (find_csv_attachments i)
    end.
Proof.
  unfold process_ticket. destruct (retrieve_ticket jira k) as [i|].
  - destruct (find_csv_attachments i) as [|a l] eqn:E.
    + do 2 eexists. split; [reflexivity|]. simpl. rewrite app_nil_r.
      repeat split.
    + rewrite for_each_download. do 2 eexists. split; [reflexivity|].
      cbn [ticket_key found csv_count downloaded errors nonempty].
      rewrite app_nil_l, length_map. repeat split.
  - do 2 eexists. split; [reflexivity|]. simpl. repeat split.
Qed.

Lemma filter_split_length {A} (P : A -> bool) (l : list A) :
  length (List.filter P l) + length (List.filter (fun a => negb (P a)) l) = length l.
Proof.
  induction l as [|x l IH]; simpl; [reflexivity|].
  destruct (P x); simpl; lia.
Qed.

Lemma process_ticket_consistent (jira : Jira) (k : string) (files files' : disk)
      (r : ticket_result) :
  process_ticket jira k files = (files', Ok r) ->
  ticket_key r = k /\ consistent r /\
  exists left_behind, files' = files ++ left_behind /\
                      length left_behind <= csv_count r.
Proof.
  intros H. destruct (process_ticket_run jira k files) as (r0 & f0 & H0 & Hk & Hr).
  rewrite H in H0. injection H0 as <- <-. split; [assumption|].
  destruct (retrieve_ticket jira k) as [i|].
  - destruct Hr as (Hf & Hc & Hd & He & Hfiles).
    pose proof (filter_split_length downloads (find_csv_attachments i)) as Hsplit.
    split.
    + unfold consistent. rewrite Hf, Hc, Hd.
      split; [lia|]. split; [discriminate|].
      rewrite <- length_zero_iff_nil, He.
      destruct (find_csv_attachments i) as [|a l]; cbn [nonempty] in *.
      * simpl. split; [discriminate | intros (_ & ? & _); lia].
      * split; [intros Hz; repeat split; simpl in *; lia
               | intros (_ & _ & Heq); lia].
    + exists (omap (file_left i) (find_csv_attachments i)).
      split; [assumption|]. rewrite Hc.
      generalize (find_csv_attachments i). intros l.
      induction l as [|a l IH]; [simpl; lia|].
      csimpl. destruct (file_left i a); csimpl; lia.
  - destruct Hr as (Hf & Hc & Hd & He & ->). split.
    + unfold consistent. rewrite Hf, Hc, Hd.
      split; [lia|]. split; [reflexivity|].
      rewrite <- length_zero_iff_nil, He. split; [discriminate | intros [[=] _]].
    + exists []. rewrite app_nil_r. split; [reflexivity | simpl; lia].
Qed.

(** The loop of [main] returns one consistent result per ticket key. *)
Lemma for_each_process_all (jira : Jira) (keys : list string)
      (acc : list ticket_result) (files : disk) :
  exists results left_behind,
    St.for_each (process_all jira) acc keys files
    = (files ++ left_behind, Ok (acc ++ results)) /\
    ticket_key <$> results = keys /\
    Forall consistent results /\
    length left_behind <= sum_list (csv_count <$> results).
Proof.
  revert acc files. induction keys as [|k keys IH]; intros acc files.
  - exists [], []. simpl. rewrite !app_nil_r. repeat split; [constructor | lia].
  - cbn [St.for_each]. rewrite bind_run. unfold process_all at 1. rewrite bind_run.
    destruct (process_ticket_run jira k files) as (r & files1 & H1 & _).
    rewrite H1.
    destruct (process_ticket_consistent _ _ _ _ _ H1) as (Hk & Hcons & lb & -> & Hlb).
    cbn [mret M_ret].
    destruct (IH (acc ++ [r]) (files ++ lb)) as (rs & lb' & -> & Hkeys & Hall & Hlb').
    exists (r :: rs), (lb ++ lb'). rewrite <- !app_assoc.
    split; [reflexivity|]. split; [csimpl; now rewrite Hk, Hkeys|].
    split; [now constructor|]. rewrite length_app. csimpl. lia.
Qed.
End retriever_facts.

(** X16: the CSV attachments found on an issue are the attachments
    whose name ends with [.csv] in any letter case, all of them and in
    their order; an issue without attachments has none. *)
Theorem csv_attachments_found (i : Retriever.issue) :
  Retriever.find_csv_attachments i
    `sublist_of` default [] (Retriever.attachment_field i) /\
  forall a, a ∈ Retriever.find_csv_attachments i <->
            a ∈ default [] (Retriever.attachment_field i) /\
            is_csv_name (Retriever.filename a).
Proof.
  rewrite find_csv_attachments_filter. split; [apply list_filter_sublist|].
  intros a. unfold is_csv_name.
  rewrite !list_elem_of_In, filter_In, endswith_spec. tauto.
Qed.

(** X17: the name a download is saved under has the length of the
    attachment name and no space in the part that comes from it, and an
    attachment whose name ends with [.csv] in any letter case is saved
    under a path that does so too. *)
Theorem download_name_safe (i : Retriever.issue) (a : Retriever.attachment) :
  String.length (Retriever.replace_spaces (Retriever.filename a))
  = String.length (Retriever.filename a) /\
  (forall pre post,
      Retriever.replace_spaces (Retriever.filename a) <> pre +:+ String " " post) /\
  (is_csv_name (Retriever.filename a) ->
   is_csv_name (Retriever.download_path i a)).
Proof.
  split; [apply replace_spaces_length|]. split; [apply replace_spaces_no_space|].
  intros [stem Hstem]. unfold is_csv_name, download_path.
  exists (lower ("data/" +:+ key i +:+ "_") +:+ replace_spaces stem).
  rewrite <- !str_app_assoc, lower_app, lower_replace_spaces, Hstem.
  rewrite replace_spaces_app, !str_app_assoc. reflexivity.
Qed.

Lemma download_name_safe_witness :
  is_csv_name
    (Retriever.download_path sample_issue
       {| filename := "run 1.CSV"; open_ok := true; get := Ok "a,b" |}).
Proof.
  apply (download_name_safe sample_issue
           {| filename := "run 1.CSV"; open_ok := true; get := Ok "a,b" |}).
  exists "run 1". reflexivity.
Defined.

(** X18: [process_ticket] raises nothing and keeps the key.  A ticket
    that cannot be retrieved is reported as not found with one error and
    nothing written.  For a ticket that is found, the CSV count is the
    number of CSV attachments, the download count is the number of those
    whose file could be opened and whose content could be fetched, there
    is one error for each of the others (one error in all when there is
    no CSV attachment), and each attachment whose file could be opened
    leaves a file, empty when its content could not be fetched. *)
Theorem ticket_tallies (jira : Retriever.Jira) (k : string) (files : Retriever.disk) :
  exists r files',
    Retriever.process_ticket jira k files = (files', Ok r) /\
    Retriever.ticket_key r = k /\
    match Retriever.retrieve_ticket jira k with
    | None =>
        Retriever.found r = false /\ Retriever.csv_count r = 0 /\
        Retriever.downloaded r = 0 /\
        length (Retriever.errors r) = 1 /\ files' = files
    | Some i =>
        Retriever.found r = true /\
        Retriever.csv_count r = length (Retriever.find_csv_attachments i) /\
        Retriever.downloaded r
        = length (List.filter downloads (Retriever.find_csv_attachments i)) /\
        length (Retriever.errors r) =
          (if nonempty (Retriever.find_csv_attachments i)
           then length (List.filter (fun a => negb (downloads a))
                                    (Retriever.find_csv_attachments i))
           else 1) /\
        files' = files ++ omap (file_left i) (Retriever.find_csv_attachments i)
    end.
Proof. apply process_ticket_run. Qed.

(** X19: [validate_config] returns exactly when the three connection
    settings are set and non-empty and the configuration lists a ticket;
    it reports the settings that are missing, in the order server,
    e-mail, key, before it looks at the tickets, and reports missing
    tickets only when no setting is missing. *)
Theorem validate_config_cases (c : Config.config) :
  match Config.validate_config c with
  | inr _ => missing_settings c = [] /\ Config.JIRA_TICKET_KEYS c <> []
  | inl (Config.MissingConfiguration missing) =>
      missing = missing_settings c /\ missing <> []
  | inl Config.NoTickets =>
      missing_settings c = [] /\ Config.JIRA_TICKET_KEYS c = []
  end /\
  (missing_settings c = [] <->
   Config.unset (Config.JIRA_SERVER_URL c) = false /\
   Config.unset (Config.EMAIL c) = false /\
   Config.unset (Config.API_KEY c) = false).
Proof.
  unfold validate_config, missing_settings.
  destruct (unset (JIRA_SERVER_URL c)), (unset (EMAIL c)), (unset (API_KEY c));
    simpl;
    (split; [try (split; [reflexivity | discriminate])
            | split; [try discriminate; auto | intros (? & ? & ?); congruence]]).
  destruct (JIRA_TICKET_KEYS c); split; try reflexivity; discriminate.
Qed.

Lemma validate_config_inr (c : Config.config) :
  Config.validate_config c = inr tt ->
  Config.unset (Config.JIRA_SERVER_URL c) = false /\
  Config.unset (Config.EMAIL c) = false /\
  Config.unset (Config.API_KEY c) = false /\
  Config.JIRA_TICKET_KEYS c <> [].
Proof.
  unfold validate_config.
  destruct (unset (JIRA_SERVER_URL c)), (unset (EMAIL c)), (unset (API_KEY c));
    simpl; try discriminate.
  destruct (JIRA_TICKET_KEYS c); [discriminate|]. intros _. repeat split. discriminate.
Qed.

(** X20: a run of the retriever ends with a non-zero exit status
    exactly when the configuration does not validate or the client
    cannot be built, with or without ticket keys on the command line: a
    run with command-line tickets still stops when the configuration
    lists no ticket, because the client is built only after the whole
    configuration validated.  Such a run ends by [sys.exit(1)] before
    any ticket is processed; every other run returns one result per
    ticket key used, in order, whatever happens to the tickets. *)
Theorem retriever_exit_conditions
    (c : Config.config) (jira : Retriever.Jira) (tickets : option (list string)) :
  (Retriever.exit_status (Retriever.main c jira tickets).2 <> 0 <->
   (exists err, Config.validate_config c = inl err) \/
   (exists e, Retriever.connect jira = Raise e)) /\
  (Retriever.exit_status (Retriever.main c jira tickets).2 <> 0 ->
   Retriever.main c jira tickets = ([], Retriever.SysExit 1)) /\
  (Retriever.exit_status (Retriever.main c jira tickets).2 = 0 ->
   exists results,
     (Retriever.main c jira tickets).2
     = Retriever.Returned results (Retriever.summarise results) /\
     Retriever.ticket_key <$> results = ticket_keys_used c tickets).
Proof.
  pose proof (validate_config_inr c) as Hv.
  unfold main, initialize_jira_client, ticket_keys_used.
  destruct (validate_config c) as [err|[]] eqn:Ev.
  - (* the configuration does not validate *)
    assert (match default [] tickets with
            | [] => None
            | _ :: _ =>
                if unset (JIRA_SERVER_URL c) then None
                else if unset (EMAIL c) then None
                else if unset (API_KEY c) then None
                else Some (default [] tickets)
            end = None \/
            exists keys,
              match default [] tickets with
              | [] => None
              | _ :: _ =>
                  if unset (JIRA_SERVER_URL c) then None
                  else if unset (EMAIL c) then None
                  else if unset (API_KEY c) then None
                  else Some (default [] tickets)
              end = Some keys) as [-> | [keys ->]].
    { destruct (default [] tickets); [auto|].
      destruct (unset (JIRA_SERVER_URL c)), (unset (EMAIL c)),
        (unset (API_KEY c)); eauto. }
    + simpl. split; [split; [eauto | discriminate]|].
      split; [reflexivity | discriminate].
    + simpl. split; [split; [eauto | discriminate]|].
      split; [reflexivity | discriminate].
  - (* the configuration validates *)
    destruct (Hv eq_refl) as (Hs1 & Hs2 & Hs3 & Hkeys).
    rewrite Hs1, Hs2, Hs3.
    assert (match default [] tickets with
            | [] => Some (JIRA_TICKET_KEYS c)
            | _ :: _ => Some (default [] tickets)
            end
            = Some (match default [] tickets with
                    | [] => JIRA_TICKET_KEYS c
                    | _ :: _ => default [] tickets
                    end)) as -> by (now destruct (default [] tickets)).
    destruct (connect jira) as [[]|e].
    + destruct (for_each_process_all
                  jira (match default [] tickets with
                        | [] => JIRA_TICKET_KEYS c
                        | _ :: _ => default [] tickets
                        end) [] [])
        as (results & lb & -> & Hres & _ & _).
      simpl. split; [split; [congruence | intros [[? [=]]|[? [=]]]]|].
      split; [congruence|]. intros _. exists results.
      split; [reflexivity|]. rewrite Hres. now destruct (default [] tickets).
    + simpl. split; [split; [eauto | discriminate]|].
      split; [reflexivity | discriminate].
Qed.

Lemma retriever_exit_conditions_witness :
  Retriever.exit_status
    (Retriever.main config_without_tickets sample_jira (Some ["SYS-1"])).2 <> 0.
Proof.
  apply (proj1 (retriever_exit_conditions
                  config_without_tickets sample_jira (Some ["SYS-1"]))).
  left. exists Config.NoTickets. reflexivity.
Defined.

(** X21: in the totals of a run that returns, the tickets processed are
    the ticket keys used, no more tickets are found than processed and
    no more files downloaded than CSV attachments found; no error is
    counted exactly when every ticket was found, had a CSV attachment
    and had all of them downloaded; and the files left in the output
    directory are no more than the CSV attachments found. *)
Theorem retriever_totals
    (c : Config.config) (jira : Retriever.Jira) (tickets : option (list string))
    (files : Retriever.disk) (results : list Retriever.ticket_result)
    (totals : Retriever.summary) :
  Retriever.main c jira tickets = (files, Retriever.Returned results totals) ->
  Retriever.tickets_processed totals = length (ticket_keys_used c tickets) /\
  Retriever.total_found totals <= Retriever.tickets_processed totals /\
  Retriever.total_downloaded totals <= Retriever.total_csv totals /\
  (Retriever.total_errors totals = 0 <->
   Forall (fun r => Retriever.found r = true /\ 0 < Retriever.csv_count r /\
                    Retriever.downloaded r = Retriever.csv_count r) results) /\
  length files <= Retriever.total_csv totals.
Proof.
  unfold main.
  match goal with |- context [match ?x with Some _ => _ | None => _ end] =>
    destruct x as [keys|] eqn:Ekeys end; [|discriminate].
  destruct (initialize_jira_client c jira) as [[]|e] eqn:Einit; [|discriminate].
  destruct (for_each_process_all jira keys [] [])
    as (rs & lb & -> & Hkeys & Hall & Hlb).
  simpl. intros [= <- <- <-].
  assert (keys = ticket_keys_used c tickets) as <-.
  { unfold ticket_keys_used. unfold initialize_jira_client in Einit.
    destruct (default [] tickets) as [|t ts].
    - destruct (validate_config c); [discriminate | congruence].
    - destruct (unset (JIRA_SERVER_URL c)); [discriminate|].
      destruct (unset (EMAIL c)); [discriminate|].
      destruct (unset (API_KEY c)); [discriminate | congruence]. }
  cbn [summarise tickets_processed total_found total_csv total_downloaded
       total_errors].
  split; [now rewrite <- Hkeys, length_fmap|].
  split; [apply filter_length_le|].
  assert (sum_list (downloaded <$> rs) <= sum_list (csv_count <$> rs) /\
          (sum_list ((fun r => length (errors r)) <$> rs) = 0 <->
           Forall (fun r => found r = true /\ 0 < csv_count r /\
                            downloaded r = csv_count r) rs)) as [Hd He].
  { clear Hkeys Hlb Ekeys. induction Hall as [|r rs' (Hle & _ & Herr) _ IH].
    - simpl. split; [lia|]. split; [constructor | reflexivity].
    - destruct IH as (IH1 & IH2). csimpl. split; [lia|].
      rewrite Nat.eq_add_0, length_zero_iff_nil, Herr, IH2.
      split; [intros [? ?]; now constructor | now inversion 1]. }
  split; [assumption|]. split; [assumption|]. assumption.
Qed.

Lemma retriever_totals_witness :
  exists totals,
    Retriever.total_downloaded totals <= Retriever.total_csv totals /\
    length (Retriever.main sample_config sample_jira (Some ["SYS-1"; "SYS-2"])).1
    <= Retriever.total_csv totals.
Proof.
  assert (exists results totals,
             Retriever.main sample_config sample_jira (Some ["SYS-1"; "SYS-2"])
             = ((Retriever.main sample_config sample_jira
                                (Some ["SYS-1"; "SYS-2"])).1,
                Retriever.Returned results totals)) as (results & totals & H)
    by (vm_compute; eauto).
  exists totals.
  destruct (retriever_totals _ _ _ _ _ _ H) as (_ & _ & Hd & _ & Hl).
  split; assumption.
Defined.
